(** * Metadata registry: request handlers of [services/metadataService.ts]

    The handlers are embedded as programs of a small state-and-exception
    monad.  Every call that leaves the service ([dbWrapper], [estuaryWrapper],
    [utils], the ObjectId generator) is answered by a [Backend], and is
    recorded, with its answer, in a log that the monad threads along. *)

From stdpp Require Import base option list strings numbers pretty gmap.
From Stdlib Require Import ZArith Ascii String List Lia.
Import ListNotations.

Local Open Scope string_scope.
Local Open Scope Z_scope.
Local Open Scope list_scope.

(** ** Data model (the documents of the four collections) *)

(** A mongodb ObjectId, 96 bits. *)
Definition ObjectId : Type := N.

#[global] Instance ObjectId_eq_dec : EqDecision ObjectId := N.eq_dec.
#[global] Instance ObjectId_countable : Countable ObjectId := N_countable.

(** A JavaScript number as [parseInt] produces it. *)
Inductive jsnum : Type :=
| NaN
| Num (z : Z).

#[global] Instance jsnum_eq_dec : EqDecision jsnum.
Proof. solve_decision. Defined.

Record Dataset : Type := mkDataset {
  d_id : ObjectId;
  uploader : string;
  published : bool;
  title : string;
  description : string;
  authors : list ObjectId;
  chunkIds : list ObjectId;
  keywords : option (list string)
}.

Record StorageIds : Type := mkStorageIds { estuaryId : jsnum }.

Record Chunk : Type := mkChunk {
  c_id : ObjectId;
  datasetId : ObjectId;
  fileIds : list ObjectId;
  storageIds : StorageIds
}.

Record File : Type := mkFile {
  f_id : ObjectId;
  chunkId : ObjectId;
  f_name : string;
  f_path : string
}.

Record Author : Type := mkAuthor {
  a_id : ObjectId;
  name : string
}.

(** [{...file, estuaryId: fileIdToEstuaryId[file._id]}]; the attached id is
    [None] when the lookup gives [undefined]. *)
Record FileWithEstId : Type := mkFileWithEstId {
  file : File;
  attachedEstuaryId : option jsnum
}.

(** ** Queries and update documents passed to [dbWrapper] *)

(** A filter on datasets: each field, when present, must match exactly. *)
Record DatasetQuery : Type := mkDatasetQuery {
  by_id : option ObjectId;
  by_uploader : option string;
  by_published : option bool
}.

Inductive ChunkQuery : Type :=
| ChunkByDatasetId (datasetId : ObjectId)      (* { datasetId: id } *)
| ChunkIdIn (ids : list ObjectId)              (* { _id: { $in: ids } } *)
| ChunkByEstuaryId (estuaryId : jsnum).        (* { "storageIds.estuaryId": n } *)

Inductive FileQuery : Type :=
| FileIdIn (ids : list ObjectId)               (* { _id: { $in: ids } } *)
| FileChunkIdIn (ids : list ObjectId).         (* { chunkId: { $in: ids } } *)

(** [{ $set: { published, title, description, authors, keywords } }] *)
Record UpdateDocument : Type := mkUpdateDocument {
  set_published : bool;
  set_title : string;
  set_description : string;
  set_authors : list ObjectId;
  set_keywords : option (list string)
}.

(** ** Requests and responses *)

(** [req.query]: a parameter that is absent reads as [undefined] ([None]). *)
Record Query : Type := mkQuery {
  q_address : option string;
  q_id : option string;
  q_uploader : option string;
  q_datasetId : option string;
  q_estuaryId : option string;
  q_signature : option string;
  q_path : option string
}.

(** [req.body] of the publish route. *)
Record Body : Type := mkBody {
  b_address : option string;
  b_signature : option string;
  b_datasetId : option string;
  b_title : option string;
  b_description : option string;
  b_authors : option string;
  b_keywords : option string
}.

Record Request : Type := mkRequest { query : Query; body : Body }.

(** The argument of [res.json(...)]. *)
Inductive Json : Type :=
| JError (error : string)                      (* { error: ... } *)
| JMessage (message : string)                  (* { message: ... } *)
| JData (data : string)                        (* { data: ... } *)
| JDatasets (datasets : option (list Dataset))
| JDataset (dataset : Dataset)
| JChunks (chunks : option (list Chunk))
| JFiles (files : list FileWithEstId).

(** [res.status(code).json(payload)] *)
Record Response : Type := mkResponse { status : Z; json : Json }.

(** ** JavaScript values and library functions used by the handlers *)

(** Truthiness of a string: only the empty string is falsy. *)
Definition truthy_string (s : string) : bool :=
  negb (String.eqb s "").

(** Truthiness of a value that is a string or [undefined]. *)
Definition truthy (v : option string) : bool :=
  match v with
  | Some s => truthy_string s
  | None => false
  end.

(** A value that is a string or [undefined], interpolated in a template. *)
Definition interpolate (v : option string) : string :=
  match v with
  | Some s => s
  | None => "undefined"
  end.

(** [s.split(",")] *)
Fixpoint split_comma_aux (cur : string) (s : string) : list string :=
  match s with
  | EmptyString => [cur]
  | String c rest =>
      if Ascii.eqb c ","%char
      then cur :: split_comma_aux "" rest
      else split_comma_aux (cur +:+ String c "") rest
  end.

Definition split_comma (s : string) : list string := split_comma_aux "" s.

(** What the handlers take from the JavaScript runtime and from npm
    packages: their code is no part of the service. *)
Class Builtins : Type := {
  (** [String.prototype.toLowerCase] *)
  toLowerCase : string -> string;
  (** [sanitizeHtml], on a string *)
  sanitize : string -> string;
  (** [parseInt] *)
  parseInt : string -> jsnum;
  (** a number interpolated in a template string *)
  show_number : jsnum -> string;
  (** [new mongodb.ObjectId(s)]; [None] when the constructor throws *)
  ObjectId_of_string : string -> option ObjectId
}.

(** [sanitizeHtml(v)]: the package returns [''] for [null] and [undefined]. *)
Definition sanitizeHtml `{Builtins} (v : option string) : string :=
  match v with
  | Some s => sanitize s
  | None => ""
  end.

(** ** Calls that leave the service *)

Inductive call : Type -> Type :=
| GetDatasets (q : DatasetQuery) : call (option (list Dataset))
| UpdateDataset (q : DatasetQuery) (u : UpdateDocument) : call bool
| DeleteDataset (q : DatasetQuery) : call bool
| GetChunks (q : ChunkQuery) : call (option (list Chunk))
| DeleteChunks (q : ChunkQuery) : call bool
| GetCommonsFiles (q : FileQuery) : call (option (list File))
| DeleteCommonsFiles (q : FileQuery) : call bool
| InsertAuthor (a : Author) : call bool
| EstuaryDeleteFile (estuaryId : jsnum) (retries : Z) : call bool
| AssertSignerIsAddress (msg signature address : string) : call bool
| NewObjectId : call ObjectId.

(** A call either returns a value or throws (a rejected promise). *)
Inductive outcome (A : Type) : Type :=
| Returned (a : A)
| Threw.

Arguments Returned {A} a.
Arguments Threw {A}.

(** One line of the log: a call and how it was answered. *)
Inductive entry : Type :=
| Entry {X : Type} (c : call X) (r : outcome X).

(** The collaborators of the service, over a state [W] of their own. *)
Class Backend (W : Type) : Type := {
  perform : forall X : Type, call X -> W -> outcome X * W
}.

Arguments perform {W _ X} c s.

(** ** The monad of the handlers: state, log and exceptions *)

Definition M (W A : Type) : Type := W * list entry -> outcome A * (W * list entry).

Definition ret {W A} (a : A) : M W A := fun w => (Returned a, w).

Definition throw {W A} : M W A := fun w => (Threw, w).

Definition bind {W A B} (m : M W A) (k : A -> M W B) : M W B :=
  fun w =>
    match m w with
    | (Returned a, w') => k a w'
    | (Threw, w') => (Threw, w')
    end.

Notation "'let*' x ':=' m 'in' k" := (bind m (fun x => k))
  (at level 10, x name, m at level 100, k at level 200).

(** [await c]: the backend answers, the log grows by one line. *)
Definition await `{Backend W} {X} (c : call X) : M W X :=
  fun w =>
    let '(r, s') := perform c (fst w) in
    (r, (s', snd w ++ [Entry c r])).

(** [try { body } catch (err) { console.log(err) }]: [body] gives [Some r]
    when it returned [r] from the handler and [None] when it ran to its end;
    after a throw the handler goes on below the statement. *)
Definition try_catch {W A} (body : M W (option A)) : M W (option A) :=
  fun w =>
    match body w with
    | (Returned r, w') => (Returned r, w')
    | (Threw, w') => (Returned None, w')
    end.

(** [new mongodb.ObjectId(s)] *)
Definition new_ObjectId_of `{Builtins} {W} (s : string) : M W ObjectId :=
  match ObjectId_of_string s with
  | Some i => ret i
  | None => throw
  end.

(** Reading a property of [undefined] throws a TypeError. *)
Definition defined {W A} (v : option A) : M W A :=
  match v with
  | Some a => ret a
  | None => throw
  end.

Definition respond {W} (code : Z) (payload : Json) : M W Response :=
  ret (mkResponse code payload).

Module dbWrapper.
Definition getDatasets `{Backend W} q : M W _ := await (GetDatasets q).
Definition updateDataset `{Backend W} q u : M W _ := await (UpdateDataset q u).
Definition deleteDataset `{Backend W} q : M W _ := await (DeleteDataset q).
Definition getChunks `{Backend W} q : M W _ := await (GetChunks q).
Definition deleteChunks `{Backend W} q : M W _ := await (DeleteChunks q).
Definition getCommonsFiles `{Backend W} q : M W _ := await (GetCommonsFiles q).
Definition deleteCommonsFiles `{Backend W} q : M W _ := await (DeleteCommonsFiles q).
Definition insertAuthor `{Backend W} a : M W _ := await (InsertAuthor a).
End dbWrapper.

Module estuaryWrapper.
Definition deleteFile `{Backend W} id retries : M W _ := await (EstuaryDeleteFile id retries).
End estuaryWrapper.

Module utils.
Definition assertSignerIsAddress `{Backend W} msg sig addr : M W _ :=
  await (AssertSignerIsAddress msg sig addr).
End utils.

(** The string held by a parameter that has been found truthy. *)
Definition value_of (v : option string) : string := default "" v.

(** [v?.split(",")?.map(x => sanitizeHtml(x))] *)
Definition sanitized_list `{Builtins} (v : option string) : option (list string) :=
  (fun s => map sanitize (split_comma s)) <$> v.

(** ** The handlers *)

(** Lines 46-55. *)
Definition getAllPublishedDatasets `{Backend W} (req : Request) : M W Response :=
  let* r := try_catch (
    let* datasets := dbWrapper.getDatasets (mkDatasetQuery None None (Some true)) in
    ret (Some (mkResponse 200 (JDatasets datasets)))) in
  match r with
  | Some response => ret response
  | None => respond 404 (JError "There are no published datasets")
  end.

(** Lines 58-75. *)
Definition getPublishedDatasetById `{Builtins} `{Backend W} (req : Request)
  : M W Response :=
  if negb (truthy (q_id (query req))) then
    respond 404 (JError "Please specify the dataset ID via the id query parameter")
  else
    let* r := try_catch (
      let* oid := new_ObjectId_of (value_of (q_id (query req))) in
      let* datasets := dbWrapper.getDatasets (mkDatasetQuery (Some oid) None (Some true)) in
      match datasets with
      | Some (first :: _) => ret (Some (mkResponse 200 (JDataset first)))
      | _ => ret None
      end) in
    match r with
    | Some response => ret response
    | None => respond 404 (JError "There is no published dataset with the specified id")
    end.

(** Lines 77-83. *)
Definition getPublishedDatasets `{Builtins} `{Backend W} (req : Request)
  : M W Response :=
  if truthy (q_id (query req))
  then getPublishedDatasetById req
  else getAllPublishedDatasets req.

(** Lines 85-106. *)
Definition getPublishedDatasetsByUploader `{Builtins} `{Backend W} (req : Request)
  : M W Response :=
  if negb (truthy (q_uploader (query req))) then
    respond 400 (JError "Please dataset uploader with the uploader query parameter")
  else
    let uploader := toLowerCase (value_of (q_uploader (query req))) in
    let* r := try_catch (
      let* datasets := dbWrapper.getDatasets (mkDatasetQuery None (Some uploader) (Some true)) in
      let* found := defined datasets in
      match found with
      | _ :: _ => ret (Some (mkResponse 200 (JDatasets datasets)))
      | [] => ret None
      end) in
    match r with
    | Some response => ret response
    | None => respond 404 (JError ("Found no datasets whose uploader is " +:+ uploader))
    end.

(** Lines 178-186: one fresh ObjectId per author name. *)
Fixpoint makeAuthors `{Backend W} (authorsStrArr : list string) : M W (list Author) :=
  match authorsStrArr with
  | [] => ret []
  | authorStr :: rest =>
      let* authorId := await NewObjectId in
      let* others := makeAuthors rest in
      ret (mkAuthor authorId authorStr :: others)
  end.

(** Lines 187-193: the loop returns from the handler at the first insert
    that fails. *)
Fixpoint insertAuthors `{Backend W} (authors : list Author) : M W (option Response) :=
  match authors with
  | [] => ret None
  | author :: rest =>
      let* inserted := dbWrapper.insertAuthor author in
      if negb inserted then
        ret (Some (mkResponse 400 (JError "Failed to insert author into database")))
      else insertAuthors rest
  end.

(** Lines 206-215: [for (let i = 0; i < 3; i++)], by the number of rounds
    that remain. *)
Fixpoint updateAttempts `{Backend W} (remaining : nat) (query : DatasetQuery)
    (updateDocument : UpdateDocument) (published_response : Response)
  : M W (option Response) :=
  match remaining with
  | O => ret None
  | Datatypes.S remaining' =>
      let* success := dbWrapper.updateDataset query updateDocument in
      if success then ret (Some published_response)
      else updateAttempts remaining' query updateDocument published_response
  end.

(** Lines 135-223. *)
Definition publishDataset `{Builtins} `{Backend W} (req : Request) : M W Response :=
  let address := sanitizeHtml (toLowerCase <$> b_address (body req)) in
  let signature := sanitizeHtml (b_signature (body req)) in
  let datasetId := sanitizeHtml (b_datasetId (body req)) in
  let title := sanitizeHtml (b_title (body req)) in
  let description := sanitizeHtml (b_description (body req)) in
  let authorsStrArr := sanitized_list (b_authors (body req)) in
  let keywords := sanitized_list (b_keywords (body req)) in
  if negb (truthy_string address) || negb (truthy_string signature)
     || negb (truthy_string datasetId) || negb (truthy_string title)
     || negb (truthy_string description) || negb (bool_decide (is_Some authorsStrArr))
  then respond 400 (JError "Failed to publish dataset. Missing parameters.")
  else
    let msg := interpolate (b_address (body req)) +:+ datasetId in
    let* authSuccess := utils.assertSignerIsAddress msg signature address in
    if negb authSuccess then
      respond 400 (JError "Failed to publish dataset. Signer != address")
    else
      let* authors := makeAuthors (default [] authorsStrArr) in
      let authorIds := map a_id authors in
      let* failed := insertAuthors authors in
      match failed with
      | Some response => ret response
      | None =>
          let* r := try_catch (
            let* oid := new_ObjectId_of datasetId in
            let query := mkDatasetQuery (Some oid) (Some address) None in
            let updateDocument :=
              mkUpdateDocument true title description authorIds keywords in
            updateAttempts 3 query updateDocument
              (mkResponse 200 (JMessage
                 ("Successfully published dataset " +:+ datasetId +:+ " for " +:+ address)))) in
          match r with
          | Some response => ret response
          | None => respond 400 (JError "Failed to publish dataset.")
          end
      end.

(** Lines 226-252. *)
Definition getPublishedChunksByDatasetId `{Builtins} `{Backend W} (req : Request)
  : M W Response :=
  if negb (truthy (q_datasetId (query req))) then
    respond 400 (JError
      "Please specify the chunk's parent dataset with the datasetId query parameter")
  else
    let* r := try_catch (
      let* oid := new_ObjectId_of (value_of (q_datasetId (query req))) in
      let* datasets := dbWrapper.getDatasets (mkDatasetQuery (Some oid) None (Some true)) in
      let* found := defined datasets in
      match found with
      | _ :: _ =>
          let* oid' := new_ObjectId_of (value_of (q_datasetId (query req))) in
          let* chunks := dbWrapper.getChunks (ChunkByDatasetId oid') in
          ret (Some (mkResponse 200 (JChunks chunks)))
      | [] => ret None
      end) in
    match r with
    | Some response => ret response
    | None =>
        respond 404 (JError ("Found no chunks whose parent dataset is "
                             +:+ interpolate (q_datasetId (query req))))
    end.

(** Lines 280-288: the two nested loops fill [fileIdToEstuaryId] (a later
    assignment to a key replaces the earlier one) and push onto [fileIds]. *)
Definition index_chunk (acc : gmap ObjectId jsnum * list ObjectId) (chunk : Chunk)
  : gmap ObjectId jsnum * list ObjectId :=
  fold_left
    (fun acc fileId => (<[fileId := estuaryId (storageIds chunk)]> acc.1, acc.2 ++ [fileId]))
    (fileIds chunk) acc.

Definition index_chunks (chunks : list Chunk) : gmap ObjectId jsnum * list ObjectId :=
  fold_left index_chunk chunks (∅, []).

(** Lines 258-306. *)
Definition getFileMetadata `{Builtins} `{Backend W} (req : Request) : M W Response :=
  if negb (truthy (q_address (query req))) then
    respond 400 (JError "Please specify the uploader with the address query parameter")
  else
    let address := toLowerCase (value_of (q_address (query req))) in
    let* r := try_catch (
      let* datasets := dbWrapper.getDatasets (mkDatasetQuery None (Some address) None) in
      let* datasets := defined datasets in
      let chunkIds := concat (map chunkIds datasets) in
      let* chunks := dbWrapper.getChunks (ChunkIdIn chunkIds) in
      let* chunks := defined chunks in
      let '(fileIdToEstuaryId, fileIds) := index_chunks chunks in
      let* files := dbWrapper.getCommonsFiles (FileIdIn fileIds) in
      let* files := defined files in
      let filesWithEstIds :=
        map (fun file => mkFileWithEstId file (fileIdToEstuaryId !! f_id file)) files in
      ret (Some (mkResponse 200 (JFiles filesWithEstIds)))) in
    match r with
    | Some response => ret response
    | None => respond 400 (JError "No files for the specified address")
    end.

(** Lines 313-383.  Nothing here is inside a [try]: a call that throws
    rejects the promise the handler returned. *)
Definition deleteFileMetadata `{Builtins} `{Backend W} (req : Request) : M W Response :=
  if negb (truthy (q_address (query req))) || negb (truthy (q_estuaryId (query req)))
     || negb (truthy (q_signature (query req)))
  then respond 400 (JError "Missing parameter(s)")
  else
    let raw_address := value_of (q_address (query req)) in
    if negb (Nat.eqb (String.length raw_address) 42)
       || negb (String.eqb (substring 0 2 raw_address) "0x")
    then respond 400 (JError "Address must start with 0x and be less than 42 characters long")
    else
      let address := toLowerCase raw_address in
      let estuaryId := parseInt (value_of (q_estuaryId (query req))) in
      let signature := value_of (q_signature (query req)) in
      let msg := "/metadata/files?address=" +:+ raw_address
                 +:+ "&estuaryId=" +:+ show_number estuaryId in
      let* authSuccess := utils.assertSignerIsAddress msg signature address in
      if negb authSuccess then
        respond 400 (JError "Failed to delete file metadata. Signer != address")
      else
        let* chunks := dbWrapper.getChunks (ChunkByEstuaryId estuaryId) in
        match chunks with
        | None | Some [] =>
            respond 404 (JError "Failed to delete file metadata. No corresponding chunks found.")
        | Some (chunk0 :: _) =>
            let datasetId := datasetId chunk0 in
            let* datasets := dbWrapper.getDatasets (mkDatasetQuery (Some datasetId) None None) in
            match datasets with
            | None | Some [] =>
                respond 404
                  (JError "Failed to delete file metadata. No corresponding datasets found.")
            | Some (dataset :: _) =>
                if published dataset then
                  respond 400 (JError "Cannot delete published dataset")
                else
                  let datasetChildChunkIds := chunkIds dataset in
                  let* successfulDelete :=
                    dbWrapper.deleteCommonsFiles (FileChunkIdIn datasetChildChunkIds) in
                  let* successfulDelete :=
                    dbWrapper.deleteChunks (ChunkIdIn datasetChildChunkIds) in
                  let* successfulDelete :=
                    dbWrapper.deleteDataset (mkDatasetQuery (Some datasetId) None None) in
                  let* successfulDelete := estuaryWrapper.deleteFile estuaryId 5 in
                  if successfulDelete then
                    respond 200 (JData
                      ("Successfully deleted file metadata for file with estuaryId: "
                       +:+ show_number estuaryId))
                  else
                    respond 400 (JError "An unknown error occurred. Failed to delete dataset.")
            end
        end.

(** ** The collaborators, in memory

    [utils/dbWrapper], [utils/estuaryWrapper] and [utils/utils] are imported
    by the service and are not part of the sources at hand.  The backend below
    follows sections 4.1 and 4.2 of the specification. *)

(** Modelled from the spec: the record sets of the Metadata Store (section 3)
    and the blob groups held by the external Blob Store; [utils/dbWrapper] and
    [utils/estuaryWrapper] are missing. *)
Record Store : Type := mkStore {
  st_datasets : list Dataset;
  st_chunks : list Chunk;
  st_files : list File;
  st_authors : list Author;
  st_blobs : list jsnum
}.

(** How the next store call goes: it works, it fails (a [false] or an
    [undefined] result, nothing changed) or it throws. *)
Inductive fault : Type :=
| Works
| Fails
| Throws.

Record Memory : Type := mkMemory {
  store : Store;
  schedule : list fault;       (* one per store call to come; then [Works] *)
  next_id : ObjectId           (* the next ObjectId the generator hands out *)
}.

(** Modelled from the spec: the address that signed a message (section 4.1,
    the wallet's personal-message scheme); the signing library is missing. *)
Class Signatures : Type := {
  recover : string -> string -> string
}.

(** Modelled from the spec: [verify] of section 4.1, "true iff the recovered
    address equals claimedAddress under case-insensitive comparison";
    [utils/utils] is missing. *)
Definition verify `{Builtins} `{Signatures} (msg signature address : string) : bool :=
  String.eqb (toLowerCase (recover msg signature)) (toLowerCase address).

Definition field_matches {A} `{EqDecision A} (wanted : option A) (actual : A) : bool :=
  match wanted with
  | Some v => bool_decide (actual = v)
  | None => true
  end.

Definition id_in (ids : list ObjectId) (i : ObjectId) : bool :=
  bool_decide (i ∈ ids).

(** Modelled from the spec: filter semantics of section 4.2, "exact-match on
    fields, set-membership for id lists". *)
Definition dataset_matches (q : DatasetQuery) (d : Dataset) : bool :=
  field_matches (by_id q) (d_id d)
  && field_matches (by_uploader q) (uploader d)
  && field_matches (by_published q) (published d).

Definition chunk_matches (q : ChunkQuery) (c : Chunk) : bool :=
  match q with
  | ChunkByDatasetId i => bool_decide (datasetId c = i)
  | ChunkIdIn ids => id_in ids (c_id c)
  | ChunkByEstuaryId n => bool_decide (estuaryId (storageIds c) = n)
  end.

Definition file_matches (q : FileQuery) (f : File) : bool :=
  match q with
  | FileIdIn ids => id_in ids (f_id f)
  | FileChunkIdIn ids => id_in ids (chunkId f)
  end.

(** The patch of an update document on one dataset. *)
Definition apply_update (u : UpdateDocument) (d : Dataset) : Dataset :=
  mkDataset (d_id d) (uploader d) (set_published u) (set_title u)
            (set_description u) (set_authors u) (chunkIds d) (set_keywords u).

(** Modelled from the spec: [updateDataset(filter, patch) -> bool] patches
    the first dataset the filter matches; [None] stands for "no match". *)
Fixpoint update_first (q : DatasetQuery) (u : UpdateDocument) (l : list Dataset)
  : option (list Dataset) :=
  match l with
  | [] => None
  | d :: rest =>
      if dataset_matches q d then Some (apply_update u d :: rest)
      else cons d <$> update_first q u rest
  end.

Definition keep {A} (drop : A -> bool) (l : list A) : list A :=
  List.filter (fun x => negb (drop x)) l.

(** Modelled from the spec: the operations of section 4.2 and the Blob
    Store's [delete], on a store where nothing goes wrong.  (The last two
    calls are no store calls; [memory_perform] answers them.) *)
Definition store_perform {X} (c : call X) (st : Store) : X * Store :=
  match c in call X return X * Store with
  | GetDatasets q => (Some (List.filter (dataset_matches q) (st_datasets st)), st)
  | UpdateDataset q u =>
      match update_first q u (st_datasets st) with
      | Some l => (true, mkStore l (st_chunks st) (st_files st) (st_authors st) (st_blobs st))
      | None => (false, st)
      end
  | DeleteDataset q =>
      (true, mkStore (keep (dataset_matches q) (st_datasets st)) (st_chunks st)
                     (st_files st) (st_authors st) (st_blobs st))
  | GetChunks q => (Some (List.filter (chunk_matches q) (st_chunks st)), st)
  | DeleteChunks q =>
      (true, mkStore (st_datasets st) (keep (chunk_matches q) (st_chunks st))
                     (st_files st) (st_authors st) (st_blobs st))
  | GetCommonsFiles q => (Some (List.filter (file_matches q) (st_files st)), st)
  | DeleteCommonsFiles q =>
      (true, mkStore (st_datasets st) (st_chunks st)
                     (keep (file_matches q) (st_files st)) (st_authors st) (st_blobs st))
  | InsertAuthor a =>
      (true, mkStore (st_datasets st) (st_chunks st) (st_files st)
                     (st_authors st ++ [a]) (st_blobs st))
  | EstuaryDeleteFile n _ =>
      (true, mkStore (st_datasets st) (st_chunks st) (st_files st) (st_authors st)
                     (keep (fun b => bool_decide (b = n)) (st_blobs st)))
  | AssertSignerIsAddress _ _ _ => (false, st)
  | NewObjectId => (0%N, st)
  end.

(** What a store call answers when it fails without throwing. *)
Definition failed_answer {X} (c : call X) : X :=
  match c in call X return X with
  | GetDatasets _ => None
  | GetChunks _ => None
  | GetCommonsFiles _ => None
  | NewObjectId => 0%N
  | _ => false
  end.

(** The backend in memory: the signature check and the ObjectId generator
    never fail; every call to the store or to the Blob Store takes the next
    entry of the schedule. *)
Definition memory_perform `{Builtins} `{Signatures} (X : Type) (c : call X) (m : Memory)
  : outcome X * Memory :=
  match c in call X return outcome X * Memory with
  | AssertSignerIsAddress msg signature address =>
      (Returned (verify msg signature address), m)
  | NewObjectId =>
      (Returned (next_id m), mkMemory (store m) (schedule m) (N.succ (next_id m)))
  | c' =>
      match schedule m with
      | [] | Works :: _ =>
          let '(x, st) := store_perform c' (store m) in
          (Returned x, mkMemory st (tail (schedule m)) (next_id m))
      | Fails :: rest => (Returned (failed_answer c'), mkMemory (store m) rest (next_id m))
      | Throws :: rest => (Threw, mkMemory (store m) rest (next_id m))
      end
  end.

#[global] Instance memory_backend `{Builtins} `{Signatures} : Backend Memory :=
  {| perform := memory_perform |}.

(** ** Running a handler and reading its log *)

(** A handler run from a backend state, with an empty log. *)
Definition run {W A} (m : M W A) (s : W) : outcome A * (W * list entry) := m (s, []).

Definition result_of {W A} (r : outcome A * (W * list entry)) : outcome A := r.1.
Definition state_of {W A} (r : outcome A * (W * list entry)) : W := r.2.1.
Definition log_of {W A} (r : outcome A * (W * list entry)) : list entry := r.2.2.

(** The four removals of the cascading delete. *)
Definition is_removal (e : entry) : bool :=
  match e with
  | Entry c _ =>
      match c with
      | DeleteCommonsFiles _ | DeleteChunks _ | DeleteDataset _ | EstuaryDeleteFile _ _ => true
      | _ => false
      end
  end.

Definition removals (log : list entry) : list entry := List.filter is_removal log.

(** Calls that change the store or the Blob Store. *)
Definition is_mutation (e : entry) : bool :=
  match e with
  | Entry c _ =>
      match c with
      | UpdateDataset _ _ | InsertAuthor _ => true
      | _ => is_removal e
      end
  end.

Definition is_update (e : entry) : bool :=
  match e with
  | Entry c _ => match c with UpdateDataset _ _ => true | _ => false end
  end.

(** The attempts to update a dataset, in order. *)
Definition updates (log : list entry) : list entry := List.filter is_update log.

(** An update that answered [true]. *)
Definition is_successful_update (e : entry) : bool :=
  match e with
  | Entry c r =>
      match c in call X return outcome X -> bool with
      | UpdateDataset _ _ => fun r => match r with Returned true => true | _ => false end
      | _ => fun _ => false
      end r
  end.

(** An update that answered [false]. *)
Definition is_failed_update (e : entry) : bool :=
  match e with
  | Entry c r =>
      match c in call X return outcome X -> bool with
      | UpdateDataset _ _ => fun r => match r with Returned false => true | _ => false end
      | _ => fun _ => false
      end r
  end.

Definition is_getChunks (e : entry) : bool :=
  match e with
  | Entry c _ => match c with GetChunks _ => true | _ => false end
  end.

Definition is_signature_check (e : entry) : bool :=
  match e with
  | Entry c _ => match c with AssertSignerIsAddress _ _ _ => true | _ => false end
  end.

(** The authors handed to [insertAuthor], in order, with the answers. *)
Definition inserted_author (e : entry) : option (Author * outcome bool) :=
  match e with
  | Entry c r =>
      match c in call X return outcome X -> option (Author * outcome bool) with
      | InsertAuthor a => fun r => Some (a, r)
      | _ => fun _ => None
      end r
  end.

Definition insertions (log : list entry) : list (Author * outcome bool) :=
  omap inserted_author log.

(** The author-id list of every update document sent to the store. *)
Definition update_authors (e : entry) : option (list ObjectId) :=
  match e with
  | Entry c _ =>
      match c with
      | UpdateDataset _ u => Some (set_authors u)
      | _ => None
      end
  end.

(** The ObjectIds the generator handed out, in order. *)
Definition generated_id (e : entry) : option ObjectId :=
  match e with
  | Entry c r =>
      match c in call X return outcome X -> option ObjectId with
      | NewObjectId => fun r => match r with Returned i => Some i | Threw => None end
      | _ => fun _ => None
      end r
  end.

Definition generated_ids (log : list entry) : list ObjectId := omap generated_id log.

(** The schedule lets the next [n] store calls work. *)
Fixpoint calm (n : nat) (l : list fault) : bool :=
  match n, l with
  | O, _ => true
  | Datatypes.S _, [] => true
  | Datatypes.S n', Works :: l' => calm n' l'
  | Datatypes.S _, _ :: _ => false
  end.

(** [n] consecutive ObjectIds from [start]. *)
Fixpoint ids_from (start : ObjectId) (n : nat) : list ObjectId :=
  match n with
  | O => []
  | Datatypes.S n' => start :: ids_from (N.succ start) n'
  end.

(** ** A sample platform and sample records

    One instance of the runtime functions (ASCII lower-casing, a sanitizer
    that leaves markup-free text alone, decimal [parseInt], ObjectIds written
    as 24 hexadecimal digits), a toy signature scheme, and the records of the
    scenarios of section 8. *)

Module Sample.

Definition lower_ascii (c : ascii) : ascii :=
  let n := nat_of_ascii c in
  if (65 <=? n)%nat && (n <=? 90)%nat then ascii_of_nat (n + 32) else c.

Fixpoint lower (s : string) : string :=
  match s with
  | EmptyString => EmptyString
  | String c rest => String (lower_ascii c) (lower rest)
  end.

Definition hex_digit (c : ascii) : option N :=
  let n := N_of_ascii c in
  if (48 <=? n)%N && (n <=? 57)%N then Some (n - 48)%N
  else if (97 <=? n)%N && (n <=? 102)%N then Some (n - 87)%N
  else if (65 <=? n)%N && (n <=? 70)%N then Some (n - 55)%N
  else None.

Fixpoint hex_value (acc : N) (s : string) : option N :=
  match s with
  | EmptyString => Some acc
  | String c rest =>
      match hex_digit c with
      | Some d => hex_value (16 * acc + d)%N rest
      | None => None
      end
  end.

(** 24 hexadecimal digits, or the constructor throws. *)
Definition oid_of_string (s : string) : option ObjectId :=
  if Nat.eqb (String.length s) 24 then hex_value 0%N s else None.

Definition decimal_digit (c : ascii) : option Z :=
  let n := Z.of_N (N_of_ascii c) in
  if (48 <=? n) && (n <=? 57) then Some (n - 48) else None.

(** The value of the longest prefix of decimal digits. *)
Fixpoint leading_digits (acc : option Z) (s : string) : option Z :=
  match s with
  | EmptyString => acc
  | String c rest =>
      match decimal_digit c with
      | Some d => leading_digits (Some (10 * default 0 acc + d)) rest
      | None => acc
      end
  end.

Definition parse_decimal (s : string) : jsnum :=
  match leading_digits None s with
  | Some z => Num z
  | None => NaN
  end.

Definition show (n : jsnum) : string :=
  match n with
  | NaN => "NaN"
  | Num z => pretty z
  end.

#[export] Instance builtins : Builtins := {|
  toLowerCase := lower;
  sanitize := fun s => s;
  parseInt := parse_decimal;
  show_number := show;
  ObjectId_of_string := oid_of_string
|}.

(** A signature is the signer's address, a bar and the signed message. *)
Definition recover_signer (msg signature : string) : string :=
  if String.eqb (substring 42 (String.length signature - 42) signature) ("|" +:+ msg)
  then substring 0 42 signature
  else "".

#[export] Instance signatures : Signatures := {| recover := recover_signer |}.

Definition sign (address msg : string) : string := address +:+ "|" +:+ msg.

Definition alice : string := "0xabcabcabcabcabcabcabcabcabcabcabcabcabca".
Definition mallory : string := "0x0123456789012345678901234567890123456789".

(** Dataset [D1] of [alice], with one chunk [C1] (blob group 7) that holds
    the files [F1] and [F2]. *)
Definition D1_hex : string := "0000000000000000000000d1".
Definition D1_id : ObjectId := 209%N.
Definition C1_id : ObjectId := 193%N.
Definition F1_id : ObjectId := 241%N.
Definition F2_id : ObjectId := 242%N.

Definition D1 (is_published : bool) : Dataset :=
  mkDataset D1_id alice is_published "" "" [] [C1_id] None.
Definition C1 : Chunk := mkChunk C1_id D1_id [F1_id; F2_id] (mkStorageIds (Num 7)).
Definition F1 : File := mkFile F1_id C1_id "a.csv" "/data/a.csv".
Definition F2 : File := mkFile F2_id C1_id "b.csv" "/data/b.csv".

Definition sample_store (is_published : bool) : Store :=
  mkStore [D1 is_published] [C1] [F1; F2] [] [Num 7].

Definition sample_memory (is_published : bool) (sched : list fault) : Memory :=
  mkMemory (sample_store is_published) sched 1000%N.

Definition empty_memory : Memory := mkMemory (mkStore [] [] [] [] []) [] 1000%N.

Definition no_query : Query := mkQuery None None None None None None None.
Definition no_body : Body := mkBody None None None None None None None.

(** [DELETE /metadata/files?address=..&estuaryId=7&signature=..] *)
Definition delete_request (address signature : string) : Request :=
  mkRequest (mkQuery (Some address) None None None (Some "7") (Some signature) None) no_body.

Definition delete_message (address : string) : string :=
  "/metadata/files?address=" +:+ address +:+ "&estuaryId=7".

Definition signed_delete_request : Request :=
  delete_request alice (sign alice (delete_message alice)).

(** A publish request for [D1]. *)
Definition publish_request (address signature : string)
    (authorNames keywordList : option string) : Request :=
  mkRequest no_query
    (mkBody (Some address) (Some signature) (Some D1_hex) (Some "Rainfall")
            (Some "Daily rainfall") authorNames keywordList).

Definition signed_publish_request (authorNames keywordList : option string) : Request :=
  publish_request alice (sign alice (alice +:+ D1_hex)) authorNames keywordList.

Definition chunks_request (id : string) : Request :=
  mkRequest (mkQuery None None None (Some id) None None None) no_body.

Definition list_request : Request := mkRequest no_query no_body.

Definition files_request (address : string) : Request :=
  mkRequest (mkQuery (Some address) None None None None None None) no_body.

End Sample.

(** ** What a delete request asks for *)

(** Lines 315-325: the parameters are there and the address is well formed. *)
Definition delete_parameters_ok (req : Request) : bool :=
  truthy (q_address (query req)) && truthy (q_estuaryId (query req))
  && truthy (q_signature (query req))
  && Nat.eqb (String.length (value_of (q_address (query req)))) 42
  && String.eqb (substring 0 2 (value_of (q_address (query req)))) "0x".

(** Line 327: the storage-group id of the request. *)
Definition delete_target `{Builtins} (req : Request) : jsnum :=
  parseInt (value_of (q_estuaryId (query req))).

(** Line 326: the claimed address. *)
Definition delete_address `{Builtins} (req : Request) : string :=
  toLowerCase (value_of (q_address (query req))).

(** Line 332: the message the signature is checked against. *)
Definition delete_message `{Builtins} (req : Request) : string :=
  "/metadata/files?address=" +:+ value_of (q_address (query req))
  +:+ "&estuaryId=" +:+ show_number (delete_target req).

(** The three checks of lines 333-363 pass from state [s0]: the signature
    is the address's, the storage group resolves to [chunk0] (the first
    chunk found), its dataset is found and is not published; [s3] is the
    state after the two lookups, [seen] what the log holds by then. *)
Definition checks_passed `{Builtins} `{Backend W} (req : Request) (s0 : W)
    (chunk0 : Chunk) (dataset : Dataset) (s3 : W) (seen : list entry) : Prop :=
  delete_parameters_ok req = true /\
  exists s1 s2 others more,
    perform (AssertSignerIsAddress (delete_message req)
               (value_of (q_signature (query req))) (delete_address req)) s0
      = (Returned true, s1) /\
    perform (GetChunks (ChunkByEstuaryId (delete_target req))) s1
      = (Returned (Some (chunk0 :: others)), s2) /\
    perform (GetDatasets (mkDatasetQuery (Some (datasetId chunk0)) None None)) s2
      = (Returned (Some (dataset :: more)), s3) /\
    published dataset = false /\
    seen = [Entry (AssertSignerIsAddress (delete_message req)
                     (value_of (q_signature (query req))) (delete_address req))
                  (Returned true);
            Entry (GetChunks (ChunkByEstuaryId (delete_target req)))
                  (Returned (Some (chunk0 :: others)));
            Entry (GetDatasets (mkDatasetQuery (Some (datasetId chunk0)) None None))
                  (Returned (Some (dataset :: more)))].

(** Lines 376-382: the response after the blob deletion answered [b]. *)
Definition delete_response `{Builtins} (req : Request) (b : bool) : Response :=
  if b then
    mkResponse 200 (JData ("Successfully deleted file metadata for file with estuaryId: "
                           +:+ show_number (delete_target req)))
  else mkResponse 400 (JError "An unknown error occurred. Failed to delete dataset.").

(** The storage group of the request resolves, in the store, to [chunk0]
    and to the dataset [chunk0] belongs to. *)
Definition targets `{Builtins} (st : Store) (req : Request)
    (chunk0 : Chunk) (dataset : Dataset) : Prop :=
  exists others more,
    List.filter (chunk_matches (ChunkByEstuaryId (delete_target req))) (st_chunks st)
      = chunk0 :: others /\
    List.filter (dataset_matches (mkDatasetQuery (Some (datasetId chunk0)) None None))
                (st_datasets st)
      = dataset :: more.

(** ** What a publish request asks for *)

(** One of the inputs the handler looks at (lines 148-155) is absent. *)
Definition lacks_checked_input (b : Body) : Prop :=
  b_address b = None \/ b_signature b = None \/ b_datasetId b = None
  \/ b_title b = None \/ b_description b = None \/ b_authors b = None.

(** One of the seven body parameters of the route is absent. *)
Definition lacks_required_input (b : Body) : Prop :=
  lacks_checked_input b \/ b_keywords b = None.

(** Lines 137 and 139: the claimed address and the dataset id. *)
Definition publish_address `{Builtins} (req : Request) : string :=
  sanitizeHtml (toLowerCase <$> b_address (body req)).

Definition publish_datasetId `{Builtins} (req : Request) : string :=
  sanitizeHtml (b_datasetId (body req)).

(** Lines 148-155: every input the handler looks at is truthy. *)
Definition publish_parameters_ok `{Builtins} (req : Request) : bool :=
  truthy_string (publish_address req)
  && truthy_string (sanitizeHtml (b_signature (body req)))
  && truthy_string (publish_datasetId req)
  && truthy_string (sanitizeHtml (b_title (body req)))
  && truthy_string (sanitizeHtml (b_description (body req)))
  && bool_decide (is_Some (sanitized_list (b_authors (body req)))).

(** Line 168: the message the signature is checked against. *)
Definition publish_message `{Builtins} (req : Request) : string :=
  interpolate (b_address (body req)) +:+ publish_datasetId req.

(** Lines 212-213. *)
Definition published_response `{Builtins} (req : Request) : Response :=
  mkResponse 200 (JMessage ("Successfully published dataset " +:+ publish_datasetId req
                            +:+ " for " +:+ publish_address req)).

(** ** Shapes of the publish log *)

Definition is_generation (e : entry) : bool :=
  match e with
  | Entry c _ => match c with NewObjectId => true | _ => false end
  end.

Definition is_insertion (e : entry) : bool :=
  match e with
  | Entry c _ => match c with InsertAuthor _ => true | _ => false end
  end.

(** How a round of at most [n] update attempts ends, and what it logs: a
    run of attempts that answered [false], closed by the one that answered
    [true], by nothing (all [n] answered [false]) or by one that threw. *)
Inductive attempts_end (q : DatasetQuery) (u : UpdateDocument) (ok : Response)
    (n : nat) : outcome (option Response) -> list entry -> Prop :=
| attempts_succeed fails :
    Forall (fun e => is_failed_update e = true) fails ->
    (length fails < n)%nat ->
    attempts_end q u ok n (Returned (Some ok))
                 (fails ++ [Entry (UpdateDataset q u) (Returned true)])
| attempts_exhausted fails :
    Forall (fun e => is_failed_update e = true) fails ->
    length fails = n ->
    attempts_end q u ok n (Returned None) fails
| attempts_throw fails :
    Forall (fun e => is_failed_update e = true) fails ->
    (length fails < n)%nat ->
    attempts_end q u ok n Threw (fails ++ [Entry (UpdateDataset q u) Threw]).

(** ** The records a publish run creates, on the store in memory *)

(** Line 142-144: the author names of the request. *)
Definition author_names `{Builtins} (req : Request) : list string :=
  default [] (sanitized_list (b_authors (body req))).

(** The authors of lines 179-186 when the generator starts at [start]. *)
Definition new_authors (start : ObjectId) (names : list string) : list Author :=
  zip_with mkAuthor (ids_from start (length names)) names.

Definition generation_entries (ids : list ObjectId) : list entry :=
  map (fun i => Entry NewObjectId (Returned i)) ids.

Definition insertion_entries (authors : list Author) : list entry :=
  map (fun a => Entry (InsertAuthor a) (Returned true)) authors.

(** The store with some more authors. *)
Definition with_authors (st : Store) (more : list Author) : Store :=
  mkStore (st_datasets st) (st_chunks st) (st_files st) (st_authors st ++ more) (st_blobs st).

(** The dataset the request names is not the claimed address's: no dataset
    of the store has both the id of the request and that uploader. *)
Definition not_the_uploader `{Builtins} (st : Store) (req : Request) : Prop :=
  forall d oid,
    In d (st_datasets st) ->
    ObjectId_of_string (publish_datasetId req) = Some oid ->
    d_id d = oid ->
    uploader d <> publish_address req.

(** ** What the read-side handlers look up *)

(** Lines 237-241: what the lookup of the published dataset of the request
    finds from state [s]; [None] when the id is no ObjectId, the call throws
    or the answer is [undefined]. *)
Definition published_lookup `{Builtins} `{Backend W} (id : option string) (s : W)
  : option (list Dataset) :=
  match ObjectId_of_string (value_of id) with
  | None => None
  | Some oid =>
      match (perform (GetDatasets (mkDatasetQuery (Some oid) None (Some true))) s).1 with
      | Returned (Some found) => Some found
      | _ => None
      end
  end.

(** The id resolves to a published dataset. *)
Definition resolves_published `{Builtins} `{Backend W} (id : option string) (s : W) : bool :=
  match published_lookup id s with
  | Some (_ :: _) => true
  | _ => false
  end.

(** ** The files of an owner *)

(** Line 265: the address of a files-by-owner request. *)
Definition files_address `{Builtins} (req : Request) : string :=
  toLowerCase (value_of (q_address (query req))).

(** [c] is a chunk of the store that a dataset uploaded by [address] lists
    among its [chunkIds]. *)
Definition owner_chunk (st : Store) (address : string) (c : Chunk) : Prop :=
  In c (st_chunks st)
  /\ exists d, In d (st_datasets st) /\ uploader d = address /\ In (c_id c) (chunkIds d).

(** The owner chain reaches [f]: a dataset uploaded by [address] lists a
    chunk of the store that lists [f] among its [fileIds]. *)
Definition owns_file (st : Store) (address : string) (f : File) : bool :=
  existsb
    (fun d =>
       bool_decide (uploader d = address)
       && existsb (fun c => id_in (chunkIds d) (c_id c) && id_in (fileIds c) (f_id f))
                  (st_chunks st))
    (st_datasets st).

(** Lines 268-279: the chunks the handler gets for [address]. *)
Definition chunks_of_owner (st : Store) (address : string) : list Chunk :=
  List.filter
    (chunk_matches
       (ChunkIdIn (concat (map chunkIds
          (List.filter (dataset_matches (mkDatasetQuery None (Some address) None))
                       (st_datasets st))))))
    (st_chunks st).

(** The two facts of the data model (section 3) that tie a file to "its"
    chunk: a file that a chunk lists points back to that chunk, and chunks
    have ids of their own. *)
Definition files_point_back (st : Store) : Prop :=
  forall c f,
    In c (st_chunks st) -> In f (st_files st) ->
    In (f_id f) (fileIds c) -> chunkId f = c_id c.

Definition chunk_ids_unique (st : Store) : Prop :=
  forall c c',
    In c (st_chunks st) -> In c' (st_chunks st) -> c_id c = c_id c' -> c = c'.

(** ** The other handlers of the service *)

(** Lines 21-38. *)
Definition getDatasetMetadata `{Builtins} `{Backend W} (req : Request) : M W Response :=
  if negb (truthy (q_address (query req))) then
    respond 400
      (JError "Please specify the dataset uploader with the address query parameter")
  else
    let address := toLowerCase (value_of (q_address (query req))) in
    let* r := try_catch (
      let* datasets := dbWrapper.getDatasets (mkDatasetQuery None (Some address) None) in
      ret (Some (mkResponse 200 (JDatasets datasets)))) in
    match r with
    | Some response => ret response
    | None => respond 404 (JError "No datasets for the specified address")
    end.

(** [{ _id: { $in: ids } }] on authors. *)
Inductive AuthorQuery : Type :=
| AuthorIdIn (ids : list ObjectId).

(** [dbWrapper.getAuthors], the one store call of [getAuthorsByDatasetId]
    that is not among the calls above; the log does not keep it. *)
Class AuthorReader (W : Type) : Type := {
  answer_getAuthors : AuthorQuery -> W -> outcome (option (list Author)) * W
}.

Definition dbWrapper_getAuthors `{AuthorReader W} (q : AuthorQuery)
  : M W (option (list Author)) :=
  fun w =>
    let '(r, s') := answer_getAuthors q (fst w) in
    (r, (s', snd w)).

(** What [getAuthorsByDatasetId] hands to [res.json]. *)
Inductive AuthorsJson : Type :=
| AuthorsError (error : string)                (* { error: ... } *)
| AuthorsFound (authors : list Author).

Record AuthorsResponse : Type := mkAuthorsResponse {
  authors_status : Z;
  authors_json : AuthorsJson
}.

(** Lines 385-413.  The ids of [datasets[0].authors] are ObjectIds already:
    [new mongodb.ObjectId(id)] copies them. *)
Definition getAuthorsByDatasetId `{Builtins} `{Backend W} `{AuthorReader W}
    (req : Request) : M W AuthorsResponse :=
  if negb (truthy (q_datasetId (query req))) then
    ret (mkAuthorsResponse 404
           (AuthorsError "Please specify the dataset ID via the datasetId query parameter"))
  else
    let* r := try_catch (
      let* oid := new_ObjectId_of (value_of (q_datasetId (query req))) in
      let* datasets := dbWrapper.getDatasets (mkDatasetQuery (Some oid) None (Some true)) in
      match datasets with
      | Some (first :: _) =>
          let authorIds := map (fun id => id) (authors first) in
          let* found := dbWrapper_getAuthors (AuthorIdIn authorIds) in
          let* found := defined found in
          match found with
          | _ :: _ => ret (Some (mkAuthorsResponse 200 (AuthorsFound found)))
          | [] => ret None
          end
      | _ => ret None
      end) in
    match r with
    | Some response => ret response
    | None =>
        ret (mkAuthorsResponse 400
               (AuthorsError "There are no authors for the specified dataset"))
    end.

(** [dbWrapper.getDatasets({ published: true, $text: { $search: s } })], the
    text search of [searchPublishedDatasets]; the log does not keep it. *)
Class TextSearch (W : Type) : Type := {
  answer_searchPublished : string -> W -> outcome (option (list Dataset)) * W
}.

Definition dbWrapper_searchPublished `{TextSearch W} (searchStr : string)
  : M W (option (list Dataset)) :=
  fun w =>
    let '(r, s') := answer_searchPublished searchStr (fst w) in
    (r, (s', snd w)).

(** Lines 108-129; [searchStr] is [req.query.searchStr]. *)
Definition searchPublishedDatasets `{TextSearch W} (searchStr : option string)
  : M W Response :=
  if negb (truthy searchStr) then
    respond 400 (JError "Please provide a search string via the searchStr query parameter")
  else
    let* r := try_catch (
      let* datasets := dbWrapper_searchPublished (value_of searchStr) in
      ret (Some (mkResponse 200 (JDatasets datasets)))) in
    match r with
    | Some response => ret response
    | None => respond 404 (JError "No published datasets found")
    end.

(** Modelled from the spec: [getAuthors(filter)] of section 4.2 on the store
    in memory, with the schedule of faults of the other store calls. *)
Definition memory_getAuthors (q : AuthorQuery) (m : Memory)
  : outcome (option (list Author)) * Memory :=
  match schedule m with
  | [] | Works :: _ =>
      (Returned (Some (List.filter
                         (fun a => match q with AuthorIdIn ids => id_in ids (a_id a) end)
                         (st_authors (store m)))),
       mkMemory (store m) (tail (schedule m)) (next_id m))
  | Fails :: rest => (Returned None, mkMemory (store m) rest (next_id m))
  | Throws :: rest => (Threw, mkMemory (store m) rest (next_id m))
  end.

#[global] Instance memory_author_reader : AuthorReader Memory :=
  {| answer_getAuthors := memory_getAuthors |}.

(** ** Reading the log, again *)

(** A lookup in the store. *)
Definition is_read (e : entry) : bool :=
  match e with
  | Entry c _ =>
      match c with
      | GetDatasets _ | GetChunks _ | GetCommonsFiles _ => true
      | _ => false
      end
  end.

(** A call that goes to the store or to the Blob Store. *)
Definition is_store_call {X} (c : call X) : bool :=
  match c with
  | AssertSignerIsAddress _ _ _ | NewObjectId => false
  | _ => true
  end.

(** The memory once its next store call has worked and left [st]. *)
Definition served (m : Memory) (st : Store) : Memory :=
  mkMemory st (tail (schedule m)) (next_id m).

(** The store after the four removals of lines 365-375, all of them working:
    [ids] are the dataset's [chunkIds], [did] the dataset id the chunk names,
    [eid] the storage group. *)
Definition after_cascade (st : Store) (ids : list ObjectId) (did : ObjectId)
    (eid : jsnum) : Store :=
  mkStore (keep (dataset_matches (mkDatasetQuery (Some did) None None)) (st_datasets st))
          (keep (chunk_matches (ChunkIdIn ids)) (st_chunks st))
          (keep (file_matches (FileChunkIdIn ids)) (st_files st))
          (st_authors st)
          (keep (fun b => bool_decide (b = eid)) (st_blobs st)).

(** The memory after [n] store calls that worked and left [st]. *)
Definition served_times (n : nat) (m : Memory) (st : Store) : Memory :=
  mkMemory st (drop n (schedule m)) (next_id m).

(** Lines 196-205: the filter and the update document of a publish request
    whose dataset id is [oid], the ObjectIds of the authors being drawn from
    [start]. *)
Definition publish_query `{Builtins} (req : Request) (oid : ObjectId) : DatasetQuery :=
  mkDatasetQuery (Some oid) (Some (publish_address req)) None.

Definition publish_update `{Builtins} (req : Request) (start : ObjectId) : UpdateDocument :=
  mkUpdateDocument true (sanitizeHtml (b_title (body req)))
    (sanitizeHtml (b_description (body req)))
    (map a_id (new_authors start (author_names req)))
    (sanitized_list (b_keywords (body req))).

(** The memory after a publish that went through at the first attempt: the
    authors are in, the dataset [d], between [pre] and [post], is patched. *)
Definition after_publish `{Builtins} (m : Memory) (req : Request)
    (pre : list Dataset) (d : Dataset) (post : list Dataset) : Memory :=
  mkMemory
    (mkStore (pre ++ apply_update (publish_update req (next_id m)) d :: post)
             (st_chunks (store m)) (st_files (store m))
             (st_authors (store m) ++ new_authors (next_id m) (author_names req))
             (st_blobs (store m)))
    (drop (Datatypes.S (length (author_names req))) (schedule m))
    (next_id m + N.of_nat (length (author_names req)))%N.

(** The dataset [d] is the one a publish request for [oid] patches: the
    first of the store that has the id and the claimed address as uploader. *)
Definition first_owned `{Builtins} (st : Store) (req : Request) (oid : ObjectId)
    (pre : list Dataset) (d : Dataset) (post : list Dataset) : Prop :=
  st_datasets st = pre ++ d :: post
  /\ d_id d = oid
  /\ uploader d = publish_address req
  /\ Forall (fun d' => d_id d' <> oid \/ uploader d' <> publish_address req) pre.

(** Datasets have ids of their own (section 3). *)
Definition dataset_ids_unique (st : Store) : Prop :=
  forall d d',
    In d (st_datasets st) -> In d' (st_datasets st) -> d_id d = d_id d' -> d = d'.

(** ** A publish run that reaches the update *)

(** Lines 197-205: the update document of a publish request whose authors
    got the ids [ids]. *)
Definition publish_document `{Builtins} (req : Request) (ids : list ObjectId)
  : UpdateDocument :=
  mkUpdateDocument true (sanitizeHtml (b_title (body req)))
    (sanitizeHtml (b_description (body req))) ids
    (sanitized_list (b_keywords (body req))).

(** The run of a publish request from [s] gets to the [for] of line 206 in
    the state [s3], with the log [seen]: validation passed (lines 148-165),
    the signature check answered [true] (lines 167-175), the authors
    [authors] were made and every insert answered [true] (lines 177-193),
    and [datasetId] is the ObjectId [oid] (line 196). *)
Definition reaches_update `{Builtins} `{Backend W} (req : Request) (s : W)
    (oid : ObjectId) (authors : list Author) (s3 : W) (seen : list entry) : Prop :=
  publish_parameters_ok req = true /\
  ObjectId_of_string (publish_datasetId req) = Some oid /\
  exists s1 s2 made,
    perform (AssertSignerIsAddress (publish_message req)
               (sanitizeHtml (b_signature (body req))) (publish_address req)) s
    = (Returned true, s1) /\
    makeAuthors (author_names req)
      (s1, [Entry (AssertSignerIsAddress (publish_message req)
                     (sanitizeHtml (b_signature (body req))) (publish_address req))
                  (Returned true)])
    = (Returned authors, (s2, made)) /\
    insertAuthors authors (s2, made) = (Returned None, (s3, seen)).

(** ** More sample requests and records *)

Module MoreSamples.

Import Sample.

(** Delete requests that are turned away: an address that is too short,
    and a signature nobody made. *)
Definition short_delete_request : Request := delete_request "0xabc" "sig".
Definition forged_delete_request : Request := delete_request alice "forged".

(** The publish request of [alice] for [D1], signed, with two authors; the
    same with a signature nobody made. *)
Definition publish_D1 : Request := signed_publish_request (Some "Alice,Bob") (Some "rain").
Definition forged_publish_request : Request :=
  publish_request alice "forged" (Some "Alice,Bob") (Some "rain").

(** A signed publish request of [alice] for the dataset id [id]. *)
Definition signed_publish_for (id : string) : Request :=
  mkRequest no_query
    (mkBody (Some alice) (Some (sign alice (alice +:+ id))) (Some id) (Some "Rainfall")
            (Some "Daily rainfall") (Some "Alice,Bob") (Some "rain")).

Definition uploader_request (uploader : string) : Request :=
  mkRequest (mkQuery None None (Some uploader) None None None None) no_body.

Definition by_id_request (id : string) : Request :=
  mkRequest (mkQuery None (Some id) None None None None None) no_body.

(** The chunk [C1] and its files, with no dataset left. *)
Definition orphan_memory : Memory :=
  mkMemory (mkStore [] [C1] [F1; F2] [] [Num 7]) [] 1000%N.

(** [D1] with a second chunk [C2] (blob group 9) that lists [F1] too. *)
Definition C2_id : ObjectId := 194%N.
Definition C2 : Chunk := mkChunk C2_id D1_id [F1_id] (mkStorageIds (Num 9)).

Definition two_chunk_memory : Memory :=
  mkMemory
    (mkStore [mkDataset D1_id alice false "" "" [] [C1_id; C2_id] None] [C1; C2] [F1; F2]
             [] [Num 7; Num 9])
    [] 1000%N.

(** [D1], published, with one author on record. *)
Definition Alice : Author := mkAuthor 17%N "Alice".
Definition D1_authored : Dataset :=
  mkDataset D1_id alice true "Rainfall" "" [17%N] [C1_id] None.

Definition authored_memory : Memory :=
  mkMemory (mkStore [D1_authored] [C1] [F1; F2] [Alice] [Num 7]) [] 1000%N.

(** A toy text search: the published datasets whose title is the search
    string. *)
Definition search_by_title (searchStr : string) (m : Memory)
  : outcome (option (list Dataset)) * Memory :=
  (Returned (Some (List.filter
                     (fun d => published d && String.eqb (title d) searchStr)
                     (st_datasets (store m)))),
   m).

Definition text_search : TextSearch Memory :=
  {| answer_searchPublished := search_by_title |}.

End MoreSamples.

(** * Properties *)

(** ** The monad *)

Lemma await_run `{Backend W} {X} (c : call X) (s : W) (l : list entry) :
  await c (s, l) = ((perform c s).1, ((perform c s).2, l ++ [Entry c (perform c s).1])).
Proof. unfold await. simpl. destruct (perform c s); reflexivity. Qed.

Lemma bind_await `{Backend W} {X B} (c : call X) (k : X -> M W B) s l r s' :
  perform c s = (r, s') ->
  bind (await c) k (s, l)
  = match r with
    | Returned x => k x (s', l ++ [Entry c r])
    | Threw => (Threw, (s', l ++ [Entry c r]))
    end.
Proof. intros E. unfold bind. rewrite await_run, E. simpl. destruct r; reflexivity. Qed.

Lemma bind_run {W A B} (m : M W A) (k : A -> M W B) w o w' :
  m w = (o, w') ->
  bind m k w = match o with
               | Returned a => k a w'
               | Threw => (Threw, w')
               end.
Proof. intros E. unfold bind. rewrite E. destruct o; reflexivity. Qed.

Lemma bind_ret {W A B} (a : A) (k : A -> M W B) : bind (ret a) k = k a.
Proof. reflexivity. Qed.

Lemma bind_throw {W A B} (k : A -> M W B) : bind throw k = throw.
Proof. reflexivity. Qed.

Lemma try_catch_run {W A} (body : M W (option A)) w o w' :
  body w = (o, w') ->
  try_catch body w = (match o with
                      | Returned r => Returned r
                      | Threw => Returned None
                      end, w').
Proof. intros E. unfold try_catch. rewrite E. destruct o; reflexivity. Qed.

(** ** Lists *)

Lemma filter_none {A} (f : A -> bool) (l : list A) :
  Forall (fun x => f x = false) l -> List.filter f l = [].
Proof.
  induction 1 as [| x l Hx _ IH]; [reflexivity |]. simpl. rewrite Hx. exact IH.
Qed.

Lemma filter_all {A} (f : A -> bool) (l : list A) :
  Forall (fun x => f x = true) l -> List.filter f l = l.
Proof.
  induction 1 as [| x l Hx _ IH]; [reflexivity |]. simpl. rewrite Hx, IH. reflexivity.
Qed.

Lemma existsb_none {A} (f : A -> bool) (l : list A) :
  Forall (fun x => f x = false) l -> existsb f l = false.
Proof.
  induction 1 as [| x l Hx _ IH]; [reflexivity |]. simpl. rewrite Hx. exact IH.
Qed.

Lemma omap_none {A B} (f : A -> option B) (l : list A) :
  Forall (fun x => f x = None) l -> omap f l = [].
Proof. induction 1 as [| x l Hx _ IH]; [reflexivity |]. cbn. rewrite Hx. exact IH. Qed.

(** ** The cascading delete *)

Section Cascade.

Context `{Builtins} `{Backend W}.
Variables (req : Request) (s0 s3 s4 s5 s6 s7 : W).
Variables (chunk0 : Chunk) (dataset : Dataset) (seen : list entry).
Variables (b1 b2 b3 : bool) (r4 : outcome bool).

Hypothesis passed : checks_passed req s0 chunk0 dataset s3 seen.
Hypothesis files_deleted :
  perform (DeleteCommonsFiles (FileChunkIdIn (chunkIds dataset))) s3 = (Returned b1, s4).
Hypothesis chunks_deleted :
  perform (DeleteChunks (ChunkIdIn (chunkIds dataset))) s4 = (Returned b2, s5).
Hypothesis dataset_deleted :
  perform (DeleteDataset (mkDatasetQuery (Some (datasetId chunk0)) None None)) s5
  = (Returned b3, s6).
Hypothesis blob_deleted :
  perform (EstuaryDeleteFile (delete_target req) 5) s6 = (r4, s7).

Lemma cascade_run :
  run (deleteFileMetadata req) s0
  = (match r4 with
     | Returned b4 => Returned (delete_response req b4)
     | Threw => Threw
     end,
     (s7, seen ++
          [Entry (DeleteCommonsFiles (FileChunkIdIn (chunkIds dataset))) (Returned b1);
           Entry (DeleteChunks (ChunkIdIn (chunkIds dataset))) (Returned b2);
           Entry (DeleteDataset (mkDatasetQuery (Some (datasetId chunk0)) None None))
                 (Returned b3);
           Entry (EstuaryDeleteFile (delete_target req) 5) r4])).
Proof.
  destruct passed as (Hp & s1 & s2 & others & more & Hsig & Hch & Hds & Hpub & ->).
  unfold delete_parameters_ok in Hp.
  apply andb_prop in Hp as [Hp Hx]. apply andb_prop in Hp as [Hp Hlen].
  apply andb_prop in Hp as [Hp Hsg]. apply andb_prop in Hp as [Ha He].
  unfold run, deleteFileMetadata.
  rewrite Ha, He, Hsg, Hlen, Hx. cbn [negb orb].
  unfold utils.assertSignerIsAddress, dbWrapper.getChunks, dbWrapper.getDatasets,
    dbWrapper.deleteCommonsFiles, dbWrapper.deleteChunks, dbWrapper.deleteDataset,
    estuaryWrapper.deleteFile.
  fold (delete_target req). fold (delete_address req). fold (delete_message req).
  rewrite (bind_await _ _ _ _ _ _ Hsig). cbn [negb].
  rewrite (bind_await _ _ _ _ _ _ Hch).
  rewrite (bind_await _ _ _ _ _ _ Hds).
  rewrite Hpub.
  rewrite (bind_await _ _ _ _ _ _ files_deleted).
  rewrite (bind_await _ _ _ _ _ _ chunks_deleted).
  rewrite (bind_await _ _ _ _ _ _ dataset_deleted).
  rewrite (bind_await _ _ _ _ _ _ blob_deleted).
  destruct r4 as [[|]|]; reflexivity.
Qed.

(** C2.  A delete request that passes the signature, not-found and published
    checks issues its removals in this order: the Files whose [chunkId] is in
    the dataset's [chunkIds], the Chunks with those ids, the Dataset with the
    id the chunk names, and last the blob of the storage group, asked of the
    Blob Store.  (Each of the first three calls is taken to return its
    boolean, whatever it is.) *)
Theorem cascade_removals_in_order :
  removals (log_of (run (deleteFileMetadata req) s0))
  = [Entry (DeleteCommonsFiles (FileChunkIdIn (chunkIds dataset))) (Returned b1);
     Entry (DeleteChunks (ChunkIdIn (chunkIds dataset))) (Returned b2);
     Entry (DeleteDataset (mkDatasetQuery (Some (datasetId chunk0)) None None))
           (Returned b3);
     Entry (EstuaryDeleteFile (delete_target req) 5) r4].
Proof.
  rewrite cascade_run. unfold log_of, removals. cbn [fst snd].
  destruct passed as (_ & s1 & s2 & others & more & _ & _ & _ & _ & ->).
  reflexivity.
Qed.

(** C3.  Whatever the file, chunk and dataset deletions answer ([b1], [b2],
    [b3]), all four removals are issued, and the response is 200 exactly
    when the Blob Store deletion answers [true]. *)
Theorem cascade_success_is_blob_success (b4 : bool) :
  r4 = Returned b4 ->
  exists response,
    result_of (run (deleteFileMetadata req) s0) = Returned response
    /\ (status response = 200 <-> b4 = true)
    /\ length (removals (log_of (run (deleteFileMetadata req) s0))) = 4%nat
    /\ state_of (run (deleteFileMetadata req) s0) = s7.
Proof.
  intros Hr4. exists (delete_response req b4).
  rewrite cascade_run. unfold result_of, log_of, state_of, removals. cbn [fst snd].
  destruct passed as (_ & s1 & s2 & others & more & _ & _ & _ & _ & ->).
  rewrite Hr4. repeat split.
  - destruct b4; [reflexivity | discriminate].
  - intros ->. reflexivity.
Qed.

End Cascade.

(** X29.  The handler has no [try]: when the removal of the files throws
    instead of returning its boolean, the promise is rejected, no response is
    sent and the later removals (chunks, dataset, blob) are not issued. *)
Lemma cascade_stops_at_a_throw `{Builtins} `{Backend W} (req : Request) (s0 s3 s4 : W)
    (chunk0 : Chunk) (dataset : Dataset) (seen : list entry) :
  checks_passed req s0 chunk0 dataset s3 seen ->
  perform (DeleteCommonsFiles (FileChunkIdIn (chunkIds dataset))) s3 = (Threw, s4) ->
  run (deleteFileMetadata req) s0
  = (Threw,
     (s4, seen ++ [Entry (DeleteCommonsFiles (FileChunkIdIn (chunkIds dataset))) Threw])).
Proof.
  intros (Hp & s1 & s2 & others & more & Hsig & Hch & Hds & Hpub & ->) Hthrow.
  unfold delete_parameters_ok in Hp.
  apply andb_prop in Hp as [Hp Hx]. apply andb_prop in Hp as [Hp Hlen].
  apply andb_prop in Hp as [Hp Hsg]. apply andb_prop in Hp as [Ha He].
  unfold run, deleteFileMetadata.
  rewrite Ha, He, Hsg, Hlen, Hx. cbn [negb orb].
  unfold utils.assertSignerIsAddress, dbWrapper.getChunks, dbWrapper.getDatasets,
    dbWrapper.deleteCommonsFiles.
  fold (delete_target req). fold (delete_address req). fold (delete_message req).
  rewrite (bind_await _ _ _ _ _ _ Hsig). cbn [negb].
  rewrite (bind_await _ _ _ _ _ _ Hch).
  rewrite (bind_await _ _ _ _ _ _ Hds).
  rewrite Hpub.
  rewrite (bind_await _ _ _ _ _ _ Hthrow).
  reflexivity.
Qed.

(** ** Deleting a published dataset, on the store in memory *)

Section Published.

Context `{Builtins} `{Signatures}.

#[local] Ltac refused :=
  do 3 eexists; split; [reflexivity |];
  repeat split; try discriminate; try reflexivity;
  try (intros ? [= <-]; discriminate).

Lemma delete_published_run (m : Memory) (req : Request)
    (chunk0 : Chunk) (dataset : Dataset) :
  targets (store m) req chunk0 dataset ->
  published dataset = true ->
  exists out sched log,
    run (deleteFileMetadata req) m = (out, (mkMemory (store m) sched (next_id m), log))
    /\ removals log = []
    /\ (forall response, out = Returned response -> status response <> 200)
    /\ (delete_parameters_ok req = true ->
        verify (delete_message req) (value_of (q_signature (query req)))
               (delete_address req) = true ->
        calm 2 (schedule m) = true ->
        out = Returned (mkResponse 400 (JError "Cannot delete published dataset"))).
Proof.
  intros (others & more & Hch & Hds) Hpub.
  destruct m as [st sched nid]. cbn [store schedule next_id] in *.
  unfold run, deleteFileMetadata, delete_parameters_ok.
  destruct (truthy (q_address (query req))); cbn [negb orb andb]; [| refused].
  destruct (truthy (q_estuaryId (query req))); cbn [negb orb andb]; [| refused].
  destruct (truthy (q_signature (query req))); cbn [negb orb andb]; [| refused].
  destruct (Nat.eqb _ 42); cbn [negb orb andb]; [| refused].
  destruct (String.eqb _ "0x"); cbn [negb orb andb]; [| refused].
  fold (delete_target req). fold (delete_address req). fold (delete_message req).
  unfold utils.assertSignerIsAddress, dbWrapper.getChunks, dbWrapper.getDatasets.
  erewrite bind_await by reflexivity.
  destruct (verify _ _ _); cbn [negb]; [| refused].
  destruct sched as [|[| |] sched];
    (erewrite bind_await by (cbn; try rewrite Hch; reflexivity)); cbv beta iota;
    try refused.
  - erewrite bind_await by (cbn; try rewrite Hds; reflexivity). cbv beta iota.
    rewrite Hpub. refused.
  - destruct sched as [|[| |] sched];
      (erewrite bind_await by (cbn; try rewrite Hds; reflexivity)); cbv beta iota;
      try rewrite Hpub; refused.
Qed.

(** C1.  When the storage group of a delete request resolves to a dataset
    whose [published] flag is true, the handler never answers 200, issues
    none of the four removals and leaves the store (files, chunks, datasets,
    authors and blobs) as it was, however the store calls go.  When the
    request passes the parameter and signature checks and the two lookups
    work, the answer is 400 "Cannot delete published dataset". *)
Theorem delete_published_refused (m : Memory) (req : Request)
    (chunk0 : Chunk) (dataset : Dataset) :
  targets (store m) req chunk0 dataset ->
  published dataset = true ->
  store (state_of (run (deleteFileMetadata req) m)) = store m
  /\ removals (log_of (run (deleteFileMetadata req) m)) = []
  /\ (forall response,
        result_of (run (deleteFileMetadata req) m) = Returned response ->
        status response <> 200)
  /\ (delete_parameters_ok req = true ->
      verify (delete_message req) (value_of (q_signature (query req)))
             (delete_address req) = true ->
      calm 2 (schedule m) = true ->
      result_of (run (deleteFileMetadata req) m)
      = Returned (mkResponse 400 (JError "Cannot delete published dataset"))).
Proof.
  intros Ht Hpub.
  destruct (delete_published_run m req chunk0 dataset Ht Hpub)
    as (out & sched & log & -> & Hrem & Hnot & Hconflict).
  unfold state_of, log_of, result_of. cbn [fst snd store]. auto.
Qed.

End Published.

(** ** Publishing: validation *)

Section Validation.

Context `{Builtins} `{Backend W}.

(** C5 (amended).  A publish request that lacks [address], [signature],
    [datasetId], [title], [description] or [authors] is answered
    400 "Missing parameters" with no call made at all: no signature check,
    no store call.  ([keywords] is not among the inputs looked at.) *)
Theorem publish_missing_input (req : Request) (s : W) :
  lacks_checked_input (body req) ->
  run (publishDataset req) s
  = (Returned (mkResponse 400 (JError "Failed to publish dataset. Missing parameters.")),
     (s, [])).
Proof.
  unfold lacks_checked_input, run, publishDataset.
  intros [E | [E | [E | [E | [E | E]]]]]; rewrite E;
    cbn [fmap option_fmap option_map sanitizeHtml sanitized_list truthy_string
         String.eqb negb];
    rewrite ?orb_true_r; cbn [orb]; reflexivity.
Qed.

End Validation.

(** ** Publishing: the three loops, over any backend *)

Section Loops.

Context `{Backend W}.

Lemma makeAuthors_log (names : list string) (s : W) (l : list entry) :
  exists out s' l',
    makeAuthors names (s, l) = (out, (s', l ++ l'))
    /\ Forall (fun e => is_generation e = true) l'.
Proof.
  revert s l. induction names as [| n names IH]; intros s l.
  - exists (Returned []), s, []. rewrite app_nil_r. split; [reflexivity | constructor].
  - cbn [makeAuthors]. destruct (perform NewObjectId s) as [[i |] s1] eqn:E;
      rewrite (bind_await _ _ _ _ _ _ E).
    + destruct (IH s1 (l ++ [Entry NewObjectId (Returned i)])) as (out & s' & l' & E' & Hl').
      unfold bind at 1. rewrite E'. rewrite <- app_assoc.
      destruct out as [others |]; do 3 eexists; (split; [reflexivity |]);
        constructor; auto.
    + do 3 eexists. split; [reflexivity |]. repeat constructor.
Qed.

Lemma insertAuthors_log (authors : list Author) (s : W) (l : list entry) :
  exists out s' l',
    insertAuthors authors (s, l) = (out, (s', l ++ l'))
    /\ Forall (fun e => is_insertion e = true) l'
    /\ (forall response, out = Returned (Some response) -> status response = 400).
Proof.
  revert s l. induction authors as [| a authors IH]; intros s l.
  - exists (Returned None), s, []. rewrite app_nil_r.
    repeat split; [constructor | discriminate].
  - cbn [insertAuthors]. unfold dbWrapper.insertAuthor.
    destruct (perform (InsertAuthor a) s) as [[[|] |] s1] eqn:E;
      rewrite (bind_await _ _ _ _ _ _ E); cbn [negb].
    + destruct (IH s1 (l ++ [Entry (InsertAuthor a) (Returned true)]))
        as (out & s' & l' & E' & Hl' & Hout).
      rewrite E', <- app_assoc. do 3 eexists. split; [reflexivity |].
      split; [constructor; auto | exact Hout].
    + do 3 eexists. split; [reflexivity |].
      split; [repeat constructor | intros ? [= <-]; reflexivity].
    + do 3 eexists. split; [reflexivity |]. split; [repeat constructor | discriminate].
Qed.

Lemma updateAttempts_log (n : nat) q u ok (s : W) (l : list entry) :
  exists out s' l',
    updateAttempts n q u ok (s, l) = (out, (s', l ++ l'))
    /\ attempts_end q u ok n out l'.
Proof.
  revert s l. induction n as [| n IH]; intros s l.
  - exists (Returned None), s, []. rewrite app_nil_r.
    split; [reflexivity | apply attempts_exhausted; [constructor | reflexivity]].
  - cbn [updateAttempts]. unfold dbWrapper.updateDataset.
    destruct (perform (UpdateDataset q u) s) as [[[|] |] s1] eqn:E;
      rewrite (bind_await _ _ _ _ _ _ E).
    + do 3 eexists. split; [reflexivity |].
      apply (attempts_succeed q u ok (Datatypes.S n) []); [constructor | simpl; lia].
    + destruct (IH s1 (l ++ [Entry (UpdateDataset q u) (Returned false)]))
        as (out & s' & l' & E' & Hend).
      rewrite E', <- app_assoc. do 3 eexists. split; [reflexivity |].
      destruct Hend as [fails Hf Hn | fails Hf Hn | fails Hf Hn].
      * apply (attempts_succeed q u ok (Datatypes.S n)
                 (Entry (UpdateDataset q u) (Returned false) :: fails));
          [constructor; auto | simpl; lia].
      * apply attempts_exhausted; [constructor; auto | simpl; lia].
      * apply (attempts_throw q u ok (Datatypes.S n)
                 (Entry (UpdateDataset q u) (Returned false) :: fails));
          [constructor; auto | simpl; lia].
    + do 3 eexists. split; [reflexivity |].
      apply (attempts_throw q u ok (Datatypes.S n) []); [constructor | simpl; lia].
Qed.

End Loops.

(** ** Publishing: the shape of a run, over any backend *)

Section Publishing.

Context `{Builtins} `{Backend W}.

Lemma Forall_not_update_of_generation (l : list entry) :
  Forall (fun e => is_generation e = true) l -> Forall (fun e => is_update e = false) l.
Proof.
  apply Forall_impl. intros [X c r]. destruct c; simpl; congruence.
Qed.

Lemma Forall_not_update_of_insertion (l : list entry) :
  Forall (fun e => is_insertion e = true) l -> Forall (fun e => is_update e = false) l.
Proof.
  apply Forall_impl. intros [X c r]. destruct c; simpl; congruence.
Qed.

#[local] Ltac stops_early pre :=
  eexists _, _, pre, []; rewrite app_nil_r;
  split; [reflexivity |]; split;
  [ repeat (apply Forall_app; split);
    auto using Forall_not_update_of_generation, Forall_not_update_of_insertion;
    repeat constructor
  | left; split; [reflexivity |];
    first [ discriminate | intros ? [= <-]; first [ reflexivity | eauto ] ] ].

Lemma publish_log (req : Request) (s : W) :
  exists out s' pre upd,
    run (publishDataset req) s = (out, (s', pre ++ upd))
    /\ Forall (fun e => is_update e = false) pre
    /\ ((upd = [] /\ forall response, out = Returned response -> status response = 400)
        \/ exists q u o,
             attempts_end q u (published_response req) 3 o upd
             /\ by_uploader q = Some (publish_address req)
             /\ by_id q = ObjectId_of_string (publish_datasetId req)
             /\ out = Returned (match o with
                                | Returned (Some response) => response
                                | _ => mkResponse 400 (JError "Failed to publish dataset.")
                                end)).
Proof.
  unfold run, publishDataset.
  fold (publish_address req). fold (publish_datasetId req).
  match goal with
  | |- context [if ?g then _ else _] => destruct g
  end.
  { stops_early (@nil entry). }
  unfold utils.assertSignerIsAddress.
  match goal with
  | |- context [await ?c] => destruct (perform c s) as [[[|] |] s1] eqn:E;
                              rewrite (bind_await _ _ _ _ _ _ E); cbn [negb app]
  end.
  2: { match goal with |- context [(s1, ?l)] => stops_early l end. }
  2: { match goal with |- context [(s1, ?l)] => stops_early l end. }
  match goal with
  | |- context [makeAuthors ?names] =>
      match goal with
      | |- context [(s1, ?l)] =>
          destruct (makeAuthors_log names s1 l) as (o1 & s2 & l1 & E1 & G1)
      end
  end.
  rewrite (bind_run _ _ _ _ _ E1).
  destruct o1 as [authors0 |].
  2: { match goal with |- context [(s2, ?l)] => stops_early l end. }
  match goal with
  | |- context [(s2, ?l)] =>
      destruct (insertAuthors_log authors0 s2 l) as (o2 & s3 & l2 & E2 & I2 & R2)
  end.
  rewrite (bind_run _ _ _ _ _ E2).
  destruct o2 as [[response |] |].
  1: { match goal with |- context [(s3, ?l)] => stops_early l end. }
  2: { match goal with |- context [(s3, ?l)] => stops_early l end. }
  unfold new_ObjectId_of.
  destruct (ObjectId_of_string (publish_datasetId req)) as [oid |] eqn:P.
  - rewrite bind_ret.
    match goal with
    | |- context [updateAttempts 3 ?q ?u ?ok] =>
        match goal with
        | |- context [(s3, ?l)] =>
            destruct (updateAttempts_log 3 q u ok s3 l) as (o3 & s4 & l3 & E3 & Hend);
            exists (Returned (match o3 with
                              | Returned (Some response) => response
                              | _ => mkResponse 400 (JError "Failed to publish dataset.")
                              end)), s4, l, l3;
            split; [| split; [| right; exists q, u, o3; repeat split; auto ]]
        end
    end.
    + rewrite (bind_run _ _ _ _ _ (try_catch_run _ _ _ _ E3)).
      destruct o3 as [[response |] |]; reflexivity.
    + repeat (apply Forall_app; split);
        auto using Forall_not_update_of_generation, Forall_not_update_of_insertion;
        repeat constructor.
  - rewrite bind_throw.
    match goal with
    | |- context [(s3, ?l)] =>
        rewrite (bind_run _ _ _ _ _ (try_catch_run throw (s3, l) Threw (s3, l) eq_refl));
        stops_early l
    end.
Qed.

Lemma failed_update_facts (l : list entry) :
  Forall (fun e => is_failed_update e = true) l ->
  Forall (fun e => is_update e = true) l
  /\ Forall (fun e => is_successful_update e = false) l.
Proof.
  intros Hl. split; revert Hl; apply Forall_impl; intros [X c r];
    destruct c; simpl; try congruence; destruct r as [[|] |]; congruence.
Qed.

Lemma not_update_facts (l : list entry) :
  Forall (fun e => is_update e = false) l ->
  Forall (fun e => is_successful_update e = false) l
  /\ Forall (fun e => is_failed_update e = false) l.
Proof.
  intros Hl. split; revert Hl; apply Forall_impl; intros [X c r];
    destruct c; simpl; congruence.
Qed.

(** Without an update that answered [true], no response is other than 400. *)
Lemma publish_needs_successful_update (req : Request) (s : W) :
  existsb is_successful_update (log_of (run (publishDataset req) s)) = false ->
  forall response,
    result_of (run (publishDataset req) s) = Returned response ->
    status response = 400.
Proof.
  destruct (publish_log req s) as (out & s' & pre & upd & -> & Hpre & Hshape).
  unfold log_of, result_of. cbn [fst snd]. rewrite existsb_app.
  destruct Hshape as [[-> Hout] | (q & u & o & Hend & _ & _ & ->)]; [auto |].
  destruct Hend as [fails Hf Hn | fails Hf Hn | fails Hf Hn].
  - rewrite existsb_app. cbn. rewrite !orb_true_r. discriminate.
  - intros _ ? [= <-]. reflexivity.
  - intros _ ? [= <-]. reflexivity.
Qed.

(** In every run of the publish handler the dataset update is attempted at
    most three times.  If an attempt answers [true] it is the last call of
    the run, no earlier attempt had answered [true], and the response is
    200.  If three attempts answer [false] the response is 400; and without
    an attempt that answered [true] no response is other than 400. *)
Lemma publish_updates_bounded (req : Request) (s : W) :
  (length (updates (log_of (run (publishDataset req) s))) <= 3)%nat
  /\ (existsb is_successful_update (log_of (run (publishDataset req) s)) = true ->
      exists before e response,
        log_of (run (publishDataset req) s) = before ++ [e]
        /\ is_successful_update e = true
        /\ Forall (fun x => is_successful_update x = false) before
        /\ result_of (run (publishDataset req) s) = Returned response
        /\ status response = 200)
  /\ (length (List.filter is_failed_update (log_of (run (publishDataset req) s))) = 3%nat ->
      exists response,
        result_of (run (publishDataset req) s) = Returned response
        /\ status response = 400)
  /\ (existsb is_successful_update (log_of (run (publishDataset req) s)) = false ->
      forall response,
        result_of (run (publishDataset req) s) = Returned response ->
        status response = 400).
Proof.
  destruct (publish_log req s) as (out & s' & pre & upd & -> & Hpre & Hshape).
  unfold log_of, result_of, updates. cbn [fst snd].
  destruct (not_update_facts pre Hpre) as [Hpre_s Hpre_f].
  rewrite !List.filter_app, existsb_app.
  rewrite (filter_none _ _ Hpre), (filter_none _ _ Hpre_f), (existsb_none _ _ Hpre_s).
  cbn [app orb].
  destruct Hshape as [[-> Hout] | (q & u & o & Hend & _ & _ & ->)].
  - cbn. repeat split; [lia | discriminate | discriminate | auto].
  - destruct Hend as [fails Hf Hn | fails Hf Hn | fails Hf Hn];
      destruct (failed_update_facts fails Hf) as [Hfu Hfs];
      rewrite ?List.filter_app, ?existsb_app, ?(filter_all _ _ Hfu), ?(filter_all _ _ Hf),
        ?(existsb_none _ _ Hfs); cbn [List.filter is_update is_failed_update
                                       is_successful_update existsb orb app].
    + rewrite ?length_app, ?app_nil_r. cbn [length]. repeat split.
      * lia.
      * intros _. exists (pre ++ fails), (Entry (UpdateDataset q u) (Returned true)),
          (published_response req).
        rewrite app_assoc. repeat split; auto. apply Forall_app; auto.
      * intros Hlen. lia.
      * discriminate.
    + rewrite Hn. repeat split.
      * lia.
      * discriminate.
      * intros _. eexists. split; reflexivity.
      * intros _ ? [= <-]. reflexivity.
    + rewrite ?length_app, ?app_nil_r. cbn [length]. repeat split.
      * lia.
      * discriminate.
      * intros Hlen. lia.
      * intros _ ? [= <-]. reflexivity.
Qed.

End Publishing.

(** ** Publishing, on the store in memory *)

Section PublishingInMemory.

Context `{Builtins} `{Signatures}.

Lemma update_first_none (q : DatasetQuery) (u : UpdateDocument) (l : list Dataset) :
  Forall (fun d => dataset_matches q d = false) l -> update_first q u l = None.
Proof.
  induction 1 as [| d l Hd _ IH]; [reflexivity |].
  simpl. rewrite Hd, IH. reflexivity.
Qed.

Lemma update_first_some q u (l l' : list Dataset) :
  update_first q u l = Some l' ->
  exists d, In d l /\ dataset_matches q d = true /\ In (apply_update u d) l'.
Proof.
  revert l'. induction l as [| d l IH]; intros l'; simpl; [discriminate |].
  destruct (dataset_matches q d) eqn:Hd.
  - intros [= <-]. exists d. simpl. auto.
  - destruct (update_first q u l) as [l0 |]; simpl; [| discriminate].
    intros [= <-]. destruct (IH l0 eq_refl) as (d' & Hin & Hm & Hin').
    exists d'. simpl. auto.
Qed.

Lemma makeAuthors_memory (names : list string) (m : Memory) (l : list entry) :
  makeAuthors names (m, l)
  = (Returned (new_authors (next_id m) names),
     (mkMemory (store m) (schedule m) (next_id m + N.of_nat (length names))%N,
      l ++ generation_entries (ids_from (next_id m) (length names)))).
Proof.
  revert m l. induction names as [| n names IH]; intros [st sched nid] l.
  - cbn. rewrite N.add_0_r, app_nil_r. reflexivity.
  - cbn [makeAuthors]. erewrite bind_await by reflexivity. cbv beta iota.
    rewrite (bind_run _ _ _ _ _ (IH _ _)). cbn [store schedule next_id].
    unfold ret, new_authors. cbn [length ids_from zip_with generation_entries map].
    rewrite <- app_assoc.
    replace (nid + N.of_nat (Datatypes.S (length names)))%N
      with (N.succ nid + N.of_nat (length names))%N by lia.
    reflexivity.
Qed.

(** Inserting authors touches nothing but the authors. *)
Lemma insertAuthors_memory (authors : list Author) (m : Memory) (l : list entry) :
  exists out m' l',
    insertAuthors authors (m, l) = (out, (m', l ++ l'))
    /\ Forall (fun e => is_insertion e = true) l'
    /\ st_datasets (store m') = st_datasets (store m)
    /\ next_id m' = next_id m.
Proof.
  revert m l. induction authors as [| a authors IH]; intros [st sched nid] l.
  - do 3 eexists. cbn. rewrite app_nil_r. repeat split. constructor.
  - cbn [insertAuthors]. unfold dbWrapper.insertAuthor.
    destruct sched as [| [| |] sched]; erewrite bind_await by reflexivity; cbv beta iota;
      cbn [negb store schedule next_id].
    1, 2: match goal with
          | |- context [insertAuthors _ (?m1, ?l1)] =>
              destruct (IH m1 l1) as (out & m' & l' & -> & Hl' & Hd & Hn);
              rewrite <- app_assoc; do 3 eexists; split; [reflexivity |];
              repeat split; [constructor; auto | exact Hd | exact Hn]
          end.
    all: do 3 eexists; split; [reflexivity |]; repeat split; repeat constructor.
Qed.

(** Update attempts through a filter that matches no dataset. *)
Lemma updateAttempts_memory_no_match (n : nat) q u ok (m : Memory) (l : list entry) :
  Forall (fun d => dataset_matches q d = false) (st_datasets (store m)) ->
  exists out m' l',
    updateAttempts n q u ok (m, l) = (out, (m', l ++ l'))
    /\ store m' = store m
    /\ Forall (fun e => is_successful_update e = false) l'.
Proof.
  revert m l. induction n as [| n IH]; intros [st sched nid] l Hq.
  - do 3 eexists. cbn. rewrite app_nil_r. repeat split. constructor.
  - cbn [updateAttempts]. unfold dbWrapper.updateDataset. cbn [store] in Hq.
    destruct sched as [| [| |] sched];
      (erewrite bind_await
         by (cbn; rewrite ?(update_first_none _ _ _ Hq); reflexivity));
      cbv beta iota; cbn [store schedule next_id].
    1, 2, 3: match goal with
          | |- context [updateAttempts _ _ _ _ (?m1, ?l1)] =>
              destruct (IH m1 l1 Hq) as (out & m' & l' & -> & Hs & Hl');
              rewrite <- app_assoc; do 3 eexists; split; [reflexivity |];
              repeat split; [exact Hs | constructor; auto]
          end.
    do 3 eexists; split; [reflexivity |]; repeat split; repeat constructor.
Qed.

Lemma no_match_of_not_the_uploader (st : Store) (req : Request) (oid : ObjectId) :
  not_the_uploader st req ->
  ObjectId_of_string (publish_datasetId req) = Some oid ->
  Forall (fun d => dataset_matches
                     (mkDatasetQuery (Some oid) (Some (publish_address req)) None) d
                   = false)
         (st_datasets st).
Proof.
  intros Hnot Hoid. apply List.Forall_forall. intros d Hd.
  unfold dataset_matches, field_matches. cbn [by_id by_uploader by_published].
  destruct (bool_decide (d_id d = oid)) eqn:Eid; [| reflexivity].
  apply bool_decide_eq_true in Eid.
  rewrite (bool_decide_eq_false_2 _ (Hnot d oid Hd Hoid Eid)). reflexivity.
Qed.

Lemma publish_memory_no_match (m : Memory) (req : Request) :
  not_the_uploader (store m) req ->
  exists out m' log,
    run (publishDataset req) m = (out, (m', log))
    /\ st_datasets (store m') = st_datasets (store m)
    /\ existsb is_successful_update log = false.
Proof.
  intros Hnot. unfold run, publishDataset.
  fold (publish_address req). fold (publish_datasetId req).
  match goal with
  | |- context [if ?g then _ else _] => destruct g
  end.
  { do 3 eexists. split; [reflexivity |]. split; reflexivity. }
  unfold utils.assertSignerIsAddress.
  erewrite bind_await by reflexivity. cbv beta iota.
  destruct (verify _ _ _); cbn [negb app].
  2: { do 3 eexists. split; [reflexivity |]. split; reflexivity. }
  rewrite (bind_run _ _ _ _ _ (makeAuthors_memory _ _ _)). cbv beta iota.
  cbn [store schedule next_id].
  match goal with
  | |- context [bind (insertAuthors ?a) _ (?m1, ?l1)] =>
      destruct (insertAuthors_memory a m1 l1) as (o2 & m2 & l2 & E2 & I2 & D2 & _)
  end.
  rewrite (bind_run _ _ _ _ _ E2). cbn [store] in D2.
  assert (Hl2 : existsb is_successful_update l2 = false).
  { apply existsb_none. revert I2. apply Forall_impl.
    intros [X c r]. destruct c; simpl; congruence. }
  assert (Hgen : forall ids, existsb is_successful_update (generation_entries ids) = false).
  { intros ids. induction ids; [reflexivity | exact IHids]. }
  destruct o2 as [[response |] |].
  1, 3: do 3 eexists; (split; [reflexivity |]); (split; [exact D2 |]);
        rewrite !existsb_app, Hl2, Hgen; reflexivity.
  unfold new_ObjectId_of.
  destruct (ObjectId_of_string (publish_datasetId req)) as [oid |] eqn:P.
  - rewrite bind_ret.
    match goal with
    | |- context [bind (try_catch (updateAttempts 3 ?q ?u ?ok)) _ (?m1, ?l1)] =>
        destruct (updateAttempts_memory_no_match 3 q u ok m1 l1)
          as (o3 & m3 & l3 & E3 & S3 & L3)
    end.
    { rewrite D2. apply no_match_of_not_the_uploader; assumption. }
    rewrite (bind_run _ _ _ _ _ (try_catch_run _ _ _ _ E3)).
    destruct o3 as [[response |] |]; do 3 eexists; (split; [reflexivity |]);
      (split; [rewrite S3; exact D2 |]);
      rewrite !existsb_app, Hl2, Hgen, (existsb_none _ _ L3); reflexivity.
  - rewrite bind_throw.
    match goal with
    | |- context [(m2, ?l)] =>
        rewrite (bind_run _ _ _ _ _ (try_catch_run throw (m2, l) Threw (m2, l) eq_refl))
    end.
    do 3 eexists; (split; [reflexivity |]); (split; [exact D2 |]).
    rewrite !existsb_app, Hl2, Hgen; reflexivity.
Qed.

(** C4.  When no dataset of the store has both the id of the publish request
    and the claimed address as its uploader, the update matches no record
    (no update of the run answers [true]), the datasets of the store stay as
    they were, and no response is other than 400, whether or not the
    signature is valid for the claimed address. *)
Theorem publish_by_non_owner_fails (m : Memory) (req : Request) :
  not_the_uploader (store m) req ->
  existsb is_successful_update (log_of (run (publishDataset req) m)) = false
  /\ st_datasets (store (state_of (run (publishDataset req) m))) = st_datasets (store m)
  /\ (forall response,
        result_of (run (publishDataset req) m) = Returned response ->
        status response = 400).
Proof.
  intros Hnot.
  destruct (publish_memory_no_match m req Hnot) as (out & m' & log & E & Hd & Hl).
  assert (Hlog : existsb is_successful_update (log_of (run (publishDataset req) m)) = false).
  { rewrite E. exact Hl. }
  split; [exact Hlog |]. split.
  - rewrite E. exact Hd.
  - apply publish_needs_successful_update. exact Hlog.
Qed.

Lemma publish_guard (req : Request) :
  publish_parameters_ok req = true ->
  negb (truthy_string (publish_address req))
  || negb (truthy_string (sanitizeHtml (b_signature (body req))))
  || negb (truthy_string (publish_datasetId req))
  || negb (truthy_string (sanitizeHtml (b_title (body req))))
  || negb (truthy_string (sanitizeHtml (b_description (body req))))
  || negb (bool_decide (is_Some (sanitized_list (b_authors (body req))))) = false.
Proof.
  unfold publish_parameters_ok. intros Hp.
  repeat (apply andb_prop in Hp as [Hp ?E]). rewrite Hp, E, E0, E1, E2, E3. reflexivity.
Qed.

Lemma insertAuthors_memory_calm (authors : list Author) (m : Memory) (l : list entry) :
  calm (length authors) (schedule m) = true ->
  insertAuthors authors (m, l)
  = (Returned None,
     (mkMemory (with_authors (store m) authors)
               (drop (length authors) (schedule m)) (next_id m),
      l ++ insertion_entries authors)).
Proof.
  revert m l. induction authors as [| a authors IH]; intros [st sched nid] l Hc.
  - cbn. rewrite app_nil_r. unfold with_authors. rewrite app_nil_r.
    destruct st; reflexivity.
  - cbn [insertAuthors]. unfold dbWrapper.insertAuthor.
    cbn [schedule length calm] in Hc.
    destruct sched as [| [| |] sched]; try discriminate;
      erewrite bind_await by reflexivity; cbv beta iota;
      cbn [negb store schedule next_id tail];
      rewrite IH by (cbn [schedule]; first [exact Hc | destruct authors; reflexivity]);
      unfold with_authors;
      cbn [store schedule next_id length drop insertion_entries map
           st_datasets st_chunks st_files st_authors st_blobs];
      rewrite <- ?app_assoc, ?drop_nil; reflexivity.
Qed.

Lemma insertAuthors_memory_fails (done todo : list Author) (a : Author)
    (m : Memory) (l : list entry) :
  calm (length done) (schedule m) = true ->
  schedule m !! length done = Some Fails ->
  insertAuthors (done ++ a :: todo) (m, l)
  = (Returned (Some (mkResponse 400 (JError "Failed to insert author into database"))),
     (mkMemory (with_authors (store m) done)
               (drop (Datatypes.S (length done)) (schedule m)) (next_id m),
      l ++ insertion_entries done ++ [Entry (InsertAuthor a) (Returned false)])).
Proof.
  revert m l. induction done as [| b done IH]; intros [st sched nid] l Hc Hk.
  - cbn [app insertAuthors length] in *. unfold dbWrapper.insertAuthor.
    cbn [schedule] in Hk. destruct sched as [| f sched]; [discriminate |].
    cbn in Hk. injection Hk as ->.
    erewrite bind_await by reflexivity. cbn.
    unfold with_authors. rewrite app_nil_r. destruct st; reflexivity.
  - cbn [app insertAuthors length] in *. unfold dbWrapper.insertAuthor.
    cbn [schedule calm] in Hc, Hk.
    destruct sched as [| [| |] sched]; try discriminate.
    erewrite bind_await by reflexivity; cbv beta iota;
      cbn [negb store schedule next_id tail].
    rewrite IH by (cbn [schedule]; assumption).
    unfold with_authors.
    cbn [store schedule next_id length drop insertion_entries map
         st_datasets st_chunks st_files st_authors st_blobs].
    rewrite <- ?app_assoc. reflexivity.
Qed.

(** Update attempts leave the authors alone; one that succeeds leaves the
    patched dataset in the store. *)
Lemma updateAttempts_memory (n : nat) q u ok (m : Memory) (l : list entry) :
  exists out m' l',
    updateAttempts n q u ok (m, l) = (out, (m', l ++ l'))
    /\ st_authors (store m') = st_authors (store m)
    /\ Forall (fun e => e = Entry (UpdateDataset q u) (Returned true)
                        \/ e = Entry (UpdateDataset q u) (Returned false)
                        \/ e = Entry (UpdateDataset q u) Threw) l'
    /\ (forall response, out = Returned (Some response) ->
        exists d, In d (st_datasets (store m)) /\ dataset_matches q d = true
                  /\ In (apply_update u d) (st_datasets (store m'))).
Proof.
  revert m l. induction n as [| n IH]; intros [st sched nid] l.
  - do 3 eexists. cbn. rewrite app_nil_r. repeat split; [constructor | discriminate].
  - cbn [updateAttempts]. unfold dbWrapper.updateDataset.
    destruct sched as [| [| |] sched].
    1, 2: destruct (update_first q u (st_datasets st)) as [ds |] eqn:U;
          (erewrite bind_await by (cbn; rewrite U; reflexivity)); cbv beta iota;
          cbn [store schedule next_id].
    1, 3: do 3 eexists; (split; [reflexivity |]); cbn [store st_authors st_datasets];
          (split; [reflexivity |]); (split; [constructor; [auto 6 | constructor] |]);
          intros _ _; apply (update_first_some _ _ _ _ U).
    3: erewrite bind_await by reflexivity; cbv beta iota;
       cbn [store schedule next_id failed_answer].
    1, 2, 3: match goal with
             | |- context [updateAttempts _ _ _ _ (?m1, ?l1)] =>
                 destruct (IH m1 l1) as (out & m' & l' & -> & Ha & Hl' & Hok);
                 rewrite <- app_assoc; do 3 eexists; (split; [reflexivity |]);
                 repeat split; [exact Ha | constructor; [auto 6 | exact Hl'] | exact Hok]
             end.
    erewrite bind_await by reflexivity. cbv beta iota.
    do 3 eexists; (split; [reflexivity |]); repeat split;
      [constructor; [auto 6 | constructor] | discriminate].
Qed.

Lemma ids_from_length (start : ObjectId) (n : nat) : length (ids_from start n) = n.
Proof. revert start. induction n; intros; simpl; auto. Qed.

Lemma ids_from_ge (start : ObjectId) (n : nat) (i : ObjectId) :
  In i (ids_from start n) -> (start <= i)%N.
Proof.
  revert start. induction n as [| n IH]; intros start; simpl; [tauto |].
  intros [<- | Hi]; [lia |]. apply IH in Hi. lia.
Qed.

Lemma ids_from_NoDup (start : ObjectId) (n : nat) : List.NoDup (ids_from start n).
Proof.
  revert start. induction n as [| n IH]; intros start; simpl; constructor; [| apply IH].
  intros Hi. apply ids_from_ge in Hi. lia.
Qed.

Lemma new_authors_ids (start : ObjectId) (names : list string) :
  map a_id (new_authors start names) = ids_from start (length names).
Proof.
  unfold new_authors. revert start.
  induction names as [| n names IH]; intros start; simpl; [reflexivity |].
  f_equal. apply IH.
Qed.

Lemma new_authors_names (start : ObjectId) (names : list string) :
  map name (new_authors start names) = names.
Proof.
  unfold new_authors. revert start.
  induction names as [| n names IH]; intros start; simpl; [reflexivity |].
  f_equal. apply IH.
Qed.

Lemma new_authors_length (start : ObjectId) (names : list string) :
  length (new_authors start names) = length names.
Proof. rewrite <- (length_map a_id), new_authors_ids. apply ids_from_length. Qed.

Lemma generated_ids_generation (ids : list ObjectId) :
  generated_ids (generation_entries ids) = ids.
Proof. induction ids as [| i ids IH]; [reflexivity |]. cbn. f_equal. exact IH. Qed.

Lemma generated_ids_app (l1 l2 : list entry) :
  generated_ids (l1 ++ l2) = generated_ids l1 ++ generated_ids l2.
Proof. apply omap_app. Qed.

Lemma insertions_insertion_entries (authors : list Author) :
  insertions (insertion_entries authors) = map (fun a => (a, Returned true)) authors.
Proof. induction authors as [| a l IH]; [reflexivity |]. cbn. f_equal. exact IH. Qed.

(** The run up to the end of lines 178-186: validation and the signature
    check passed, the ids were drawn; the two loops are still to run. *)
Lemma publish_memory_authors_made (m : Memory) (req : Request) :
  publish_parameters_ok req = true ->
  verify (publish_message req) (sanitizeHtml (b_signature (body req)))
         (publish_address req) = true ->
  run (publishDataset req) m
                 = bind (insertAuthors (new_authors (next_id m) (author_names req)))
                     (fun failed =>
                        match failed with
                        | Some response => ret response
                        | None =>
                            let* r := try_catch (
                              let* oid := new_ObjectId_of (publish_datasetId req) in
                              updateAttempts 3
                                (mkDatasetQuery (Some oid) (Some (publish_address req)) None)
                                (mkUpdateDocument true (sanitizeHtml (b_title (body req)))
                                   (sanitizeHtml (b_description (body req)))
                                   (map a_id (new_authors (next_id m) (author_names req)))
                                   (sanitized_list (b_keywords (body req))))
                                (published_response req)) in
                            match r with
                            | Some response => ret response
                            | None => respond 400 (JError "Failed to publish dataset.")
                            end
                        end)
                     (mkMemory (store m) (schedule m)
                        (next_id m + N.of_nat (length (author_names req)))%N,
                      [Entry (AssertSignerIsAddress (publish_message req)
                                (sanitizeHtml (b_signature (body req))) (publish_address req))
                             (Returned true)]
                      ++ generation_entries
                           (ids_from (next_id m) (length (author_names req)))).
Proof.
  intros Hp Hv. unfold run, publishDataset.
    fold (publish_address req). fold (publish_datasetId req).
    rewrite (publish_guard req Hp).
    unfold utils.assertSignerIsAddress. fold (publish_message req).
    erewrite bind_await by (cbn; rewrite Hv; reflexivity). cbv beta iota. cbn [negb app].
    fold (author_names req).
    rewrite (bind_run _ _ _ _ _ (makeAuthors_memory _ _ _)). reflexivity.
Qed.

(** Lines 194-222 on the store in memory, from any state. *)
Lemma publish_memory_update (req : Request) (ids : list ObjectId)
    (m2 : Memory) (l2 : list entry) :
  exists out m3 l3,
    bind (try_catch (
            let* oid := new_ObjectId_of (publish_datasetId req) in
            updateAttempts 3
              (mkDatasetQuery (Some oid) (Some (publish_address req)) None)
              (mkUpdateDocument true (sanitizeHtml (b_title (body req)))
                 (sanitizeHtml (b_description (body req))) ids
                 (sanitized_list (b_keywords (body req))))
              (published_response req)))
         (fun r => match r with
                   | Some response => ret response
                   | None => respond 400 (JError "Failed to publish dataset.")
                   end)
         (m2, l2)
    = (out, (m3, l2 ++ l3))
    /\ st_authors (store m3) = st_authors (store m2)
    /\ Forall (fun e => generated_id e = None /\ inserted_author e = None
                        /\ update_authors e = Some ids) l3
    /\ (forall response,
          out = Returned response -> status response = 200 ->
          exists d,
            In d (st_datasets (store m3))
            /\ ObjectId_of_string (publish_datasetId req) = Some (d_id d)
            /\ authors d = ids
            /\ published d = true).
Proof.
  unfold new_ObjectId_of.
  destruct (ObjectId_of_string (publish_datasetId req)) as [oid |] eqn:P.
  - rewrite bind_ret.
    match goal with
    | |- context [updateAttempts 3 ?q ?u ?ok] =>
        destruct (updateAttempts_memory 3 q u ok m2 l2) as (o3 & m3 & l3 & E3 & A3 & L3 & D3)
    end.
    rewrite (bind_run _ _ _ _ _ (try_catch_run _ _ _ _ E3)).
    exists (Returned (match o3 with
                      | Returned (Some response) => response
                      | _ => mkResponse 400 (JError "Failed to publish dataset.")
                      end)), m3, l3.
    split; [destruct o3 as [[response |] |]; reflexivity |].
    split; [exact A3 |]. split.
    + revert L3. apply Forall_impl. intros e [-> | [-> | ->]]; repeat split.
    + intros response [= <-] Hst.
      destruct o3 as [[response |] |]; try discriminate Hst.
      destruct (D3 response eq_refl) as (d & Hin & Hm & Hin').
      exists (apply_update
                (mkUpdateDocument true (sanitizeHtml (b_title (body req)))
                   (sanitizeHtml (b_description (body req))) ids
                   (sanitized_list (b_keywords (body req)))) d).
      split; [exact Hin' |]. cbn [apply_update d_id authors published set_authors set_published].
      repeat split.
      unfold dataset_matches, field_matches in Hm. cbn [by_id] in Hm.
      apply andb_prop in Hm as [Hm _]. apply andb_prop in Hm as [Hm _].
      apply bool_decide_eq_true in Hm. rewrite Hm. reflexivity.
  - rewrite bind_throw.
    rewrite (bind_run _ _ _ _ _ (try_catch_run throw (m2, l2) Threw (m2, l2) eq_refl)).
    exists (Returned (mkResponse 400 (JError "Failed to publish dataset."))), m2, [].
    rewrite app_nil_r. split; [reflexivity |]. split; [reflexivity |].
    split; [constructor |]. intros response [= <-]. discriminate.
Qed.

(** The authors of a publish request that passes validation and the
    signature check: the ids drawn, the authors inserted when the inserts
    work, the author list of every update sent, and what is left when an
    insert answers [false]. *)
Lemma publish_authors_in_memory (m : Memory) (req : Request) :
  publish_parameters_ok req = true ->
  verify (publish_message req) (sanitizeHtml (b_signature (body req)))
         (publish_address req) = true ->
  generated_ids (log_of (run (publishDataset req) m))
  = ids_from (next_id m) (length (author_names req))
  /\ List.NoDup (ids_from (next_id m) (length (author_names req)))
  /\ map name (new_authors (next_id m) (author_names req)) = author_names req
  /\ map a_id (new_authors (next_id m) (author_names req))
     = ids_from (next_id m) (length (author_names req))
  /\ (calm (length (author_names req)) (schedule m) = true ->
      st_authors (store (state_of (run (publishDataset req) m)))
      = st_authors (store m) ++ new_authors (next_id m) (author_names req)
      /\ insertions (log_of (run (publishDataset req) m))
         = map (fun a => (a, Returned true)) (new_authors (next_id m) (author_names req))
      /\ Forall (fun e => is_update e = true ->
                          update_authors e
                          = Some (ids_from (next_id m) (length (author_names req))))
                (log_of (run (publishDataset req) m))
      /\ (forall response,
            result_of (run (publishDataset req) m) = Returned response ->
            status response = 200 ->
            exists d,
              In d (st_datasets (store (state_of (run (publishDataset req) m))))
              /\ ObjectId_of_string (publish_datasetId req) = Some (d_id d)
              /\ authors d = ids_from (next_id m) (length (author_names req))
              /\ published d = true))
  /\ (forall k,
        (k < length (author_names req))%nat ->
        calm k (schedule m) = true ->
        schedule m !! k = Some Fails ->
        result_of (run (publishDataset req) m)
        = Returned (mkResponse 400 (JError "Failed to insert author into database"))
        /\ st_authors (store (state_of (run (publishDataset req) m)))
           = st_authors (store m) ++ take k (new_authors (next_id m) (author_names req))
        /\ st_datasets (store (state_of (run (publishDataset req) m)))
           = st_datasets (store m)
        /\ updates (log_of (run (publishDataset req) m)) = []).
Proof.
  intros Hp Hv.
  pose proof (publish_memory_authors_made m req Hp Hv) as Hrun.
  set (names := author_names req) in *.
  set (new := new_authors (next_id m) names) in *.
  set (ids := ids_from (next_id m) (length names)) in *.
  assert (Hids : map a_id new = ids) by apply new_authors_ids.
  assert (Hlen : length new = length names) by apply new_authors_length.
  split; [| split; [apply ids_from_NoDup |
            split; [apply new_authors_names | split; [exact Hids | split]]]].
  - rewrite Hrun.
    match goal with
    | |- context [bind (insertAuthors ?a) _ (?m1, ?l1)] =>
        destruct (insertAuthors_memory a m1 l1) as (o2 & m2 & l2 & E2 & I2 & _ & _)
    end.
    rewrite (bind_run _ _ _ _ _ E2).
    assert (G2 : generated_ids l2 = []).
    { apply omap_none. revert I2. apply Forall_impl.
      intros [X c r]. destruct c; simpl; congruence. }
    destruct o2 as [[response |] |].
    2: { match goal with
         | |- context [(m2, ?l)] =>
             destruct (publish_memory_update req (map a_id new) m2 l)
               as (out & m3 & l3 & E3 & _ & L3 & _)
         end.
         assert (G3 : generated_ids l3 = []).
         { apply omap_none. revert L3. apply Forall_impl. tauto. }
         rewrite E3. unfold log_of. cbn [fst snd].
         rewrite !generated_ids_app, G2, G3, (generated_ids_generation ids).
         cbn. rewrite !app_nil_r. reflexivity. }
    all: unfold log_of; cbn [fst snd ret];
      rewrite !generated_ids_app, G2, (generated_ids_generation ids); cbn;
      rewrite ?app_nil_r; reflexivity.
  - intros Hc. rewrite Hrun.
    match goal with
    | |- context [bind (insertAuthors _) _ (?m1, ?l1)] =>
        rewrite (bind_run _ _ _ _ _ (insertAuthors_memory_calm new m1 l1
                   ltac:(cbn [schedule]; rewrite Hlen; exact Hc)))
    end.
    cbv beta iota. cbn [store schedule next_id].
    match goal with
    | |- context [(?m2, ?l)] =>
        destruct (publish_memory_update req (map a_id new) m2 l)
          as (out & m3 & l3 & E3 & A3 & L3 & D3)
    end.
    rewrite E3. unfold log_of, state_of, result_of. cbn [fst snd].
    cbn [store with_authors st_authors] in A3.
    split; [exact A3 |]. split; [| split].
    + unfold insertions. rewrite !omap_app.
      rewrite (omap_none inserted_author l3)
        by (revert L3; apply Forall_impl; tauto).
      rewrite (omap_none inserted_author (generation_entries ids))
        by (apply List.Forall_forall; intros e He;
            apply List.in_map_iff in He as (i & <- & _); reflexivity).
      cbn. rewrite app_nil_r. apply insertions_insertion_entries.
    + repeat (apply Forall_app; split).
      * repeat constructor. discriminate.
      * apply List.Forall_forall. intros e He.
        apply List.in_map_iff in He as (i & <- & _). discriminate.
      * apply List.Forall_forall. intros e He.
        apply List.in_map_iff in He as (i & <- & _). discriminate.
      * revert L3. apply Forall_impl. intros e (_ & _ & He) _. rewrite He, Hids.
        reflexivity.
    + intros response Hr Hst. rewrite <- Hids. exact (D3 response Hr Hst).
  - intros k Hk Hc Hf.
    destruct (lookup_lt_is_Some_2 new k ltac:(rewrite Hlen; exact Hk)) as [a Ha].
    assert (Htake : length (take k new) = k) by (rewrite length_take; lia).
    rewrite <- (take_drop_middle new k a Ha) in Hrun at 1.
    match type of Hrun with
    | context [bind (insertAuthors _) _ (?m1, ?l1)] =>
        rewrite (bind_run _ _ _ _ _ (insertAuthors_memory_fails (take k new)
                   (drop (Datatypes.S k) new) a m1 l1
                   ltac:(cbn [schedule]; rewrite Htake; exact Hc)
                   ltac:(cbn [schedule]; rewrite Htake; exact Hf))) in Hrun
    end.
    rewrite Hrun. unfold log_of, state_of, result_of, updates. cbn [fst snd ret store].
    repeat split.
    rewrite !List.filter_app.
    rewrite (filter_none is_update (generation_entries ids))
      by (apply List.Forall_forall; intros e He;
          apply List.in_map_iff in He as (i & <- & _); reflexivity).
    rewrite (filter_none is_update (insertion_entries (take k new)))
      by (apply List.Forall_forall; intros e He;
          apply List.in_map_iff in He as (i & <- & _); reflexivity).
    reflexivity.
Qed.

End PublishingInMemory.

(** ** Publishing: the retry of the update, over any backend *)

Section Retrying.

Context `{Builtins} `{Backend W}.

(** One round of the [for] of lines 206-215. *)
Lemma updateAttempts_round (n : nat) q u ok (s t : W) (l : list entry)
    (r : outcome bool) :
  perform (UpdateDataset q u) s = (r, t) ->
  updateAttempts (Datatypes.S n) q u ok (s, l)
  = match r with
    | Returned true => (Returned (Some ok), (t, l ++ [Entry (UpdateDataset q u) r]))
    | Returned false =>
        updateAttempts n q u ok (t, l ++ [Entry (UpdateDataset q u) r])
    | Threw => (Threw, (t, l ++ [Entry (UpdateDataset q u) r]))
    end.
Proof.
  intros E. cbn [updateAttempts]. unfold dbWrapper.updateDataset.
  destruct r as [[|] |].
  - rewrite (bind_await _ _ _ _ _ _ E). reflexivity.
  - rewrite (bind_await _ _ _ _ _ _ E). reflexivity.
  - unfold bind, await. cbn [fst snd]. rewrite E. reflexivity.
Qed.

(** A run that reaches the update is the run of the [try] of lines 195-218
    from there. *)
Lemma publish_run_from_update (req : Request) (s : W) (oid : ObjectId)
    (authors : list Author) (s3 : W) (seen : list entry) :
  reaches_update req s oid authors s3 seen ->
  run (publishDataset req) s
  = bind (try_catch (updateAttempts 3 (publish_query req oid)
                       (publish_document req (map a_id authors))
                       (published_response req)))
      (fun r => match r with
                | Some response => ret response
                | None => respond 400 (JError "Failed to publish dataset.")
                end)
      (s3, seen).
Proof.
  intros (Hp & P & s1 & s2 & made & Hsig & Hmade & Hins).
  unfold run, publishDataset.
  fold (publish_address req). fold (publish_datasetId req).
  rewrite (publish_guard req Hp).
  unfold utils.assertSignerIsAddress. fold (publish_message req).
  rewrite (bind_await _ _ _ _ _ _ Hsig). cbv beta iota. cbn [negb app].
  fold (author_names req).
  rewrite (bind_run _ _ _ _ _ Hmade). cbv beta iota.
  rewrite (bind_run _ _ _ _ _ Hins). cbv beta iota.
  unfold new_ObjectId_of. rewrite P. rewrite bind_ret. reflexivity.
Qed.

(** C7.  In every run of the publish handler the dataset update is attempted
    at most three times; an attempt that answers [true] is the last call of
    the run and the response is 200; three attempts that answer [false] give
    400; without an attempt that answered [true] no response is other than
    400.  And the attempts are made: in a run that reaches the update
    (validation and signature passed, the inserts worked, the id is an
    ObjectId), the update is sent to the store with the id and the address
    of the request as filter; when it answers [true], at the first, second
    or third attempt, no further attempt is made and the response is
    200 "Successfully published dataset .."; when it answers [false] it is
    sent again, three times in all, and after the third [false] the response
    is 400 "Failed to publish dataset." with no fourth attempt; an attempt
    that throws is the last one and gives the same 400. *)
Theorem publish_update_attempts (req : Request) (s : W) :
  (length (updates (log_of (run (publishDataset req) s))) <= 3)%nat
  /\ (existsb is_successful_update (log_of (run (publishDataset req) s)) = true ->
      exists before e response,
        log_of (run (publishDataset req) s) = before ++ [e]
        /\ is_successful_update e = true
        /\ Forall (fun x => is_successful_update x = false) before
        /\ result_of (run (publishDataset req) s) = Returned response
        /\ status response = 200)
  /\ (length (List.filter is_failed_update (log_of (run (publishDataset req) s))) = 3%nat ->
      exists response,
        result_of (run (publishDataset req) s) = Returned response
        /\ status response = 400)
  /\ (existsb is_successful_update (log_of (run (publishDataset req) s)) = false ->
      forall response,
        result_of (run (publishDataset req) s) = Returned response ->
        status response = 400)
  /\ (forall (oid : ObjectId) (authors : list Author) (s3 : W) (seen : list entry)
             (r1 r2 r3 : outcome bool) (t1 t2 t3 : W),
        reaches_update req s oid authors s3 seen ->
        let attempt :=
          Entry (UpdateDataset (publish_query req oid)
                   (publish_document req (map a_id authors))) in
        let failure := mkResponse 400 (JError "Failed to publish dataset.") in
        perform (UpdateDataset (publish_query req oid)
                   (publish_document req (map a_id authors))) s3 = (r1, t1) ->
        perform (UpdateDataset (publish_query req oid)
                   (publish_document req (map a_id authors))) t1 = (r2, t2) ->
        perform (UpdateDataset (publish_query req oid)
                   (publish_document req (map a_id authors))) t2 = (r3, t3) ->
        run (publishDataset req) s
        = match r1 with
          | Returned true =>
              (Returned (published_response req), (t1, seen ++ [attempt r1]))
          | Threw => (Returned failure, (t1, seen ++ [attempt r1]))
          | Returned false =>
              match r2 with
              | Returned true =>
                  (Returned (published_response req),
                   (t2, seen ++ [attempt r1; attempt r2]))
              | Threw => (Returned failure, (t2, seen ++ [attempt r1; attempt r2]))
              | Returned false =>
                  match r3 with
                  | Returned true =>
                      (Returned (published_response req),
                       (t3, seen ++ [attempt r1; attempt r2; attempt r3]))
                  | _ =>
                      (Returned failure,
                       (t3, seen ++ [attempt r1; attempt r2; attempt r3]))
                  end
              end
          end).
Proof.
  destruct (publish_updates_bounded req s) as (Hbound & Hlast & Hthree & Hnone).
  split; [exact Hbound |]. split; [exact Hlast |]. split; [exact Hthree |].
  split; [exact Hnone |].
  intros oid authors s3 seen r1 r2 r3 t1 t2 t3 Hreach attempt failure E1 E2 E3.
  rewrite (publish_run_from_update req s oid authors s3 seen Hreach).
  subst attempt failure.
  unfold bind, try_catch.
  rewrite (updateAttempts_round 2 _ _ _ _ _ _ _ E1).
  destruct r1 as [[|] |]; [reflexivity | | reflexivity].
  rewrite (updateAttempts_round 1 _ _ _ _ _ _ _ E2).
  destruct r2 as [[|] |];
    [rewrite <- app_assoc; reflexivity | | rewrite <- app_assoc; reflexivity].
  rewrite (updateAttempts_round 0 _ _ _ _ _ _ _ E3).
  destruct r3 as [[|] |]; cbn [updateAttempts ret]; rewrite <- !app_assoc; reflexivity.
Qed.

End Retrying.

(** ** The read side, over any backend *)

Section Reading.

Context `{Builtins} `{Backend W}.

Lemma chunks_run_unresolved (req : Request) (s : W) :
  truthy (q_datasetId (query req)) = true ->
  resolves_published (q_datasetId (query req)) s = false ->
  exists s' log,
    run (getPublishedChunksByDatasetId req) s
    = (Returned (mkResponse 404
                   (JError ("Found no chunks whose parent dataset is "
                            +:+ interpolate (q_datasetId (query req))))),
       (s', log))
    /\ existsb is_getChunks log = false.
Proof.
  unfold resolves_published, published_lookup, run, getPublishedChunksByDatasetId.
  intros -> Hno. cbn [negb].
  unfold new_ObjectId_of at 1.
  destruct (ObjectId_of_string (value_of (q_datasetId (query req)))) as [oid |] eqn:P.
  - rewrite bind_ret. unfold dbWrapper.getDatasets.
    destruct (perform (GetDatasets (mkDatasetQuery (Some oid) None (Some true))) s)
      as [[[[| d ds] |] |] s1] eqn:E; cbn [fst] in Hno; try discriminate.
    all: unfold bind, try_catch, await; cbn [fst snd]; rewrite E; cbn;
      do 2 eexists; split; reflexivity.
  - rewrite bind_throw.
    rewrite (bind_run _ _ _ _ _ (try_catch_run throw (s, []) Threw (s, []) eq_refl)).
    do 2 eexists; split; reflexivity.
Qed.

(** C8.  When the [datasetId] of a list-chunks request does not resolve to
    a published dataset, no chunk query is made and the response is an error:
    404 "Found no chunks ..." for every [datasetId] that was given (400 when
    the parameter is missing or empty). *)
Theorem chunks_only_of_published (req : Request) (s : W) :
  resolves_published (q_datasetId (query req)) s = false ->
  existsb is_getChunks (log_of (run (getPublishedChunksByDatasetId req) s)) = false
  /\ exists code msg,
       result_of (run (getPublishedChunksByDatasetId req) s)
       = Returned (mkResponse code (JError msg))
       /\ (truthy (q_datasetId (query req)) = true -> code = 404).
Proof.
  intros Hno. destruct (truthy (q_datasetId (query req))) eqn:Ht.
  - destruct (chunks_run_unresolved req s Ht Hno) as (s' & log & -> & Hlog).
    split; [exact Hlog |]. do 2 eexists. split; reflexivity.
  - unfold run, getPublishedChunksByDatasetId. rewrite Ht.
    split; [reflexivity |]. do 2 eexists. split; [reflexivity | discriminate].
Qed.


(** Listing all published datasets answers 200 with whatever the store
    returned, an empty list included. *)
Lemma list_published_answers_200 (req : Request) (s s' : W)
    (found : option (list Dataset)) :
  perform (GetDatasets (mkDatasetQuery None None (Some true))) s = (Returned found, s') ->
  result_of (run (getAllPublishedDatasets req) s)
  = Returned (mkResponse 200 (JDatasets found)).
Proof.
  intros E. unfold run, getAllPublishedDatasets, dbWrapper.getDatasets.
  unfold bind, try_catch, await; cbn [fst snd]; rewrite E; reflexivity.
Qed.

(** X30.  Listing all published datasets: the 404 "There are no published
    datasets" of line 54 is the answer when the store call throws. *)
Lemma list_published_404_on_throw (req : Request) (s s' : W) :
  perform (GetDatasets (mkDatasetQuery None None (Some true))) s = (Threw, s') ->
  result_of (run (getAllPublishedDatasets req) s)
  = Returned (mkResponse 404 (JError "There are no published datasets")).
Proof.
  intros E. unfold run, getAllPublishedDatasets, dbWrapper.getDatasets.
  unfold bind, try_catch, await; cbn [fst snd]; rewrite E; reflexivity.
Qed.

(** Getting a published dataset by an id that resolves to none answers 404. *)
Lemma published_by_id_none_is_404 (req : Request) (s : W) :
  truthy (q_id (query req)) = true ->
  resolves_published (q_id (query req)) s = false ->
  result_of (run (getPublishedDatasets req) s)
  = Returned (mkResponse 404 (JError "There is no published dataset with the specified id")).
Proof.
  unfold resolves_published, published_lookup, run, getPublishedDatasets,
    getPublishedDatasetById.
  intros -> Hno. cbn [negb]. unfold new_ObjectId_of.
  destruct (ObjectId_of_string (value_of (q_id (query req)))) as [oid |] eqn:P.
  - rewrite bind_ret. unfold dbWrapper.getDatasets.
    destruct (perform (GetDatasets (mkDatasetQuery (Some oid) None (Some true))) s)
      as [[[[| d ds] |] |] s1] eqn:E; cbn [fst] in Hno; try discriminate.
    all: unfold bind, try_catch, await; cbn [fst snd]; rewrite E; reflexivity.
  - reflexivity.
Qed.

(** By uploader, too, an empty result answers 404 (lines 98-105). *)
Lemma published_by_uploader_none_is_404 (req : Request) (s s' : W) :
  truthy (q_uploader (query req)) = true ->
  perform (GetDatasets (mkDatasetQuery None
             (Some (toLowerCase (value_of (q_uploader (query req))))) (Some true))) s
  = (Returned (Some []), s') ->
  status <$> (match result_of (run (getPublishedDatasetsByUploader req) s) with
              | Returned response => Some response
              | Threw => None
              end) = Some 404.
Proof.
  intros Ht E. unfold run, getPublishedDatasetsByUploader, dbWrapper.getDatasets.
  rewrite Ht. cbn [negb].
  unfold bind, try_catch, await; cbn [fst snd]; rewrite E; reflexivity.
Qed.

End Reading.


(** ** The files of an owner, on the store in memory *)

Section FilesOfOwner.

Context `{Builtins} `{Signatures}.

Lemma index_chunk_spec (acc : gmap ObjectId jsnum * list ObjectId) (c : Chunk)
    (i : ObjectId) :
  (index_chunk acc c).2 = acc.2 ++ fileIds c
  /\ ((In i (fileIds c)
       /\ (index_chunk acc c).1 !! i = Some (estuaryId (storageIds c)))
      \/ (~ In i (fileIds c) /\ (index_chunk acc c).1 !! i = acc.1 !! i)).
Proof.
  unfold index_chunk. revert acc.
  induction (fileIds c) as [| j js IH]; intros acc.
  - cbn. rewrite app_nil_r. split; [reflexivity |]. right. split; [tauto | reflexivity].
  - cbn [fold_left].
    destruct (IH (<[j := estuaryId (storageIds c)]> acc.1, acc.2 ++ [j])) as [E2 E1].
    cbn [fst snd] in *. split.
    + rewrite E2, <- app_assoc. reflexivity.
    + destruct E1 as [[Hin E1] | [Hout E1]].
      * left. split; [right; exact Hin | exact E1].
      * destruct (decide (j = i)) as [-> | Hne].
        -- left. split; [left; reflexivity |]. rewrite E1. apply lookup_insert_eq.
        -- right. split; [intros [? | ?]; tauto |].
           rewrite E1. apply lookup_insert_ne. exact Hne.
Qed.

Lemma index_fold_spec (cs : list Chunk) (acc : gmap ObjectId jsnum * list ObjectId)
    (i : ObjectId) :
  (fold_left index_chunk cs acc).2 = acc.2 ++ concat (map fileIds cs)
  /\ ((exists c, In c cs /\ In i (fileIds c)
                 /\ (fold_left index_chunk cs acc).1 !! i
                    = Some (estuaryId (storageIds c)))
      \/ ((forall c, In c cs -> ~ In i (fileIds c))
          /\ (fold_left index_chunk cs acc).1 !! i = acc.1 !! i)).
Proof.
  revert acc. induction cs as [| c cs IH]; intros acc.
  - cbn. rewrite app_nil_r. split; [reflexivity |]. right. split; [tauto | reflexivity].
  - cbn [fold_left map concat].
    destruct (IH (index_chunk acc c)) as [E2 E1].
    destruct (index_chunk_spec acc c i) as [C2 C1].
    split.
    + rewrite E2, C2, <- app_assoc. reflexivity.
    + destruct E1 as [(c' & Hin & Hi & E1) | [Hout E1]].
      * left. exists c'. split; [right; exact Hin | split; assumption].
      * destruct C1 as [[Hi C1] | [Hni C1]].
        -- left. exists c. split; [left; reflexivity |]. split; [exact Hi |].
           rewrite E1. exact C1.
        -- right. split.
           ++ intros c' [<- | Hc']; [exact Hni | apply Hout; exact Hc'].
           ++ rewrite E1. exact C1.
Qed.

Lemma index_chunks_ids (cs : list Chunk) :
  (index_chunks cs).2 = concat (map fileIds cs).
Proof. unfold index_chunks. apply (index_fold_spec cs (∅, []) 0%N). Qed.

Lemma index_chunks_lookup (cs : list Chunk) (i : ObjectId) :
  In i (concat (map fileIds cs)) ->
  exists c, In c cs /\ In i (fileIds c)
            /\ (index_chunks cs).1 !! i = Some (estuaryId (storageIds c)).
Proof.
  intros Hi. unfold index_chunks.
  destruct (index_fold_spec cs (∅, []) i) as [_ [Hc | [Hout _]]]; [exact Hc |].
  exfalso. apply in_concat in Hi as (ids & Hids & Hi).
  apply List.in_map_iff in Hids as (c & <- & Hc). exact (Hout c Hc Hi).
Qed.

Lemma chunks_of_owner_spec (st : Store) (address : string) (c : Chunk) :
  In c (chunks_of_owner st address) <-> owner_chunk st address c.
Proof.
  unfold chunks_of_owner, owner_chunk. rewrite List.filter_In.
  cbn [chunk_matches]. unfold id_in. rewrite bool_decide_eq_true, list_elem_of_In, in_concat.
  split.
  - intros (Hc & ids & Hids & Hi). split; [exact Hc |].
    apply List.in_map_iff in Hids as (d & <- & Hd).
    apply List.filter_In in Hd as [Hd Hm]. exists d. split; [exact Hd |].
    split; [| exact Hi].
    unfold dataset_matches, field_matches in Hm. cbn in Hm.
    rewrite andb_true_r in Hm. apply bool_decide_eq_true in Hm. exact Hm.
  - intros (Hc & d & Hd & Hu & Hi). split; [exact Hc |].
    exists (chunkIds d). split; [| exact Hi].
    apply List.in_map_iff. exists d. split; [reflexivity |].
    apply List.filter_In. split; [exact Hd |].
    unfold dataset_matches, field_matches. cbn.
    rewrite andb_true_r. apply bool_decide_eq_true. exact Hu.
Qed.

Lemma owns_file_spec (st : Store) (address : string) (f : File) :
  owns_file st address f = true
  <-> exists c, owner_chunk st address c /\ In (f_id f) (fileIds c).
Proof.
  unfold owns_file, owner_chunk. rewrite existsb_exists. split.
  - intros (d & Hd & Hm). apply andb_prop in Hm as [Hu Hm].
    apply bool_decide_eq_true in Hu. apply existsb_exists in Hm as (c & Hc & Hm).
    apply andb_prop in Hm as [Hci Hfi]. unfold id_in in *.
    apply bool_decide_eq_true, list_elem_of_In in Hci.
    apply bool_decide_eq_true, list_elem_of_In in Hfi.
    exists c. split; [split; [exact Hc | exists d; auto] | exact Hfi].
  - intros (c & (Hc & d & Hd & Hu & Hci) & Hfi). exists d. split; [exact Hd |].
    apply andb_true_intro. split; [apply bool_decide_eq_true; exact Hu |].
    apply existsb_exists. exists c. split; [exact Hc |]. unfold id_in.
    apply andb_true_intro.
    split; apply bool_decide_eq_true, list_elem_of_In; assumption.
Qed.

Lemma listed_is_owned (st : Store) (address : string) (f : File) :
  file_matches (FileIdIn (index_chunks (chunks_of_owner st address)).2) f
  = owns_file st address f.
Proof.
  apply Bool.eq_iff_eq_true. rewrite owns_file_spec, index_chunks_ids.
  cbn [file_matches]. unfold id_in.
  rewrite bool_decide_eq_true, list_elem_of_In, in_concat. split.
  - intros (ids & Hids & Hi). apply List.in_map_iff in Hids as (c & <- & Hc).
    exists c. split; [apply chunks_of_owner_spec; exact Hc | exact Hi].
  - intros (c & Hc & Hi). exists (fileIds c). split; [| exact Hi].
    apply List.in_map_iff. exists c. split; [reflexivity |].
    apply chunks_of_owner_spec. exact Hc.
Qed.

(** What lines 296-300 make of the files found. *)
Lemma files_run (m : Memory) (req : Request) :
  truthy (q_address (query req)) = true ->
  calm 3 (schedule m) = true ->
  result_of (run (getFileMetadata req) m)
  = Returned (mkResponse 200 (JFiles
      (map (fun f => mkFileWithEstId f
              ((index_chunks (chunks_of_owner (store m) (files_address req))).1 !! f_id f))
           (List.filter
              (file_matches
                 (FileIdIn (index_chunks (chunks_of_owner (store m) (files_address req))).2))
              (st_files (store m)))))).
Proof.
  intros Ht Hc. unfold run, getFileMetadata. rewrite Ht. cbn [negb].
  fold (files_address req).
  unfold dbWrapper.getDatasets, dbWrapper.getChunks, dbWrapper.getCommonsFiles.
  destruct m as [st sched nid]. cbn [store schedule] in *.
  unfold chunks_of_owner.
  destruct (index_chunks _) as [fileIdToEstuaryId fileIds] eqn:E.
  destruct sched as [| [| |] [| [| |] [| [| |] sched]]]; try discriminate Hc;
    unfold bind, try_catch, await; cbn; rewrite E; reflexivity.
Qed.

(** C10.  For a files-by-owner request with an address, on a store whose
    three calls work, the response is 200 with exactly the files of the
    store that the owner chain reaches: the files that a chunk lists which a
    dataset uploaded by the lower-cased address lists.  Each one carries the
    [estuaryId] of a chunk of the owner that lists it; when one chunk only
    lists it, that chunk's; and, on a store where listed files point back to
    their chunk and chunk ids are unique, the [estuaryId] of the chunk its
    [chunkId] names. *)
Theorem files_of_owner (m : Memory) (req : Request) :
  truthy (q_address (query req)) = true ->
  calm 3 (schedule m) = true ->
  exists listed,
    result_of (run (getFileMetadata req) m) = Returned (mkResponse 200 (JFiles listed))
    /\ map file listed
       = List.filter (owns_file (store m) (files_address req)) (st_files (store m))
    /\ (forall x, In x listed ->
          exists c, owner_chunk (store m) (files_address req) c
                    /\ In (f_id (file x)) (fileIds c)
                    /\ attachedEstuaryId x = Some (estuaryId (storageIds c)))
    /\ (forall x c,
          In x listed ->
          owner_chunk (store m) (files_address req) c ->
          In (f_id (file x)) (fileIds c) ->
          (forall c', owner_chunk (store m) (files_address req) c' ->
                      In (f_id (file x)) (fileIds c') -> c' = c) ->
          attachedEstuaryId x = Some (estuaryId (storageIds c)))
    /\ (files_point_back (store m) ->
        chunk_ids_unique (store m) ->
        forall x c,
          In x listed ->
          In c (st_chunks (store m)) ->
          c_id c = chunkId (file x) ->
          attachedEstuaryId x = Some (estuaryId (storageIds c))).
Proof.
  intros Ht Hc. eexists. split; [apply (files_run m req Ht Hc) |].
  set (st := store m). set (address := files_address req).
  set (cs := chunks_of_owner st address).
  assert (Hatt : forall x,
             In x (map (fun f => mkFileWithEstId f ((index_chunks cs).1 !! f_id f))
                       (List.filter (file_matches (FileIdIn (index_chunks cs).2))
                                    (st_files st))) ->
             In (file x) (st_files st)
             /\ exists c, owner_chunk st address c /\ In (f_id (file x)) (fileIds c)
                          /\ attachedEstuaryId x = Some (estuaryId (storageIds c))).
  { intros x Hx. apply List.in_map_iff in Hx as (f & <- & Hf).
    apply List.filter_In in Hf as [Hin Hf]. cbn [file attachedEstuaryId].
    split; [exact Hin |].
    cbn [file_matches] in Hf. unfold id_in in Hf.
    apply bool_decide_eq_true, list_elem_of_In in Hf. rewrite index_chunks_ids in Hf.
    destruct (index_chunks_lookup cs (f_id f) Hf) as (c & Hc' & Hi & E).
    exists c. split; [apply chunks_of_owner_spec; exact Hc' | split; assumption]. }
  split; [| split; [| split]].
  - rewrite List.map_map. cbn [file]. rewrite List.map_id.
    apply List.filter_ext. intros f. apply listed_is_owned.
  - intros x Hx. exact (proj2 (Hatt x Hx)).
  - intros x c Hx Hoc Hi Honly.
    destruct (Hatt x Hx) as (_ & c' & Hoc' & Hi' & E).
    rewrite E, (Honly c' Hoc' Hi'). reflexivity.
  - intros Hback Huniq x c Hx Hin Hid.
    destruct (Hatt x Hx) as (Hf & c' & [Hin' Hoc'] & Hi' & E).
    rewrite E, (Huniq c c' Hin Hin'); [reflexivity |].
    rewrite Hid. apply Hback; assumption.
Qed.

End FilesOfOwner.

(** ** Unpublished datasets, on the store in memory *)

(** A [datasetId] that names no published dataset of the store does not
    resolve, however the store call goes. *)
Lemma unpublished_does_not_resolve `{Builtins} `{Signatures} (m : Memory) (id : option string) :
  (forall d oid,
      In d (st_datasets (store m)) ->
      ObjectId_of_string (value_of id) = Some oid ->
      d_id d = oid ->
      published d = false) ->
  resolves_published id m = false.
Proof.
  intros Hun. unfold resolves_published, published_lookup.
  destruct (ObjectId_of_string (value_of id)) as [oid |] eqn:P; [| reflexivity].
  destruct m as [st sched nid]. cbn [store] in Hun.
  assert (Hnone : List.filter (dataset_matches (mkDatasetQuery (Some oid) None (Some true)))
                              (st_datasets st) = []).
  { apply filter_none. apply List.Forall_forall. intros d Hd.
    unfold dataset_matches, field_matches. cbn [by_id by_uploader by_published].
    destruct (bool_decide (d_id d = oid)) eqn:Eid; [| reflexivity].
    apply bool_decide_eq_true in Eid. rewrite (Hun d oid Hd eq_refl Eid). reflexivity. }
  destruct sched as [| [| |] sched]; cbn; rewrite ?Hnone; reflexivity.
Qed.

(** * The rest of the service *)

(** ** Requests that are turned away before the store is asked *)

Section TurnedAway.

Context `{Builtins} `{Backend W}.

(** X1.  A delete request that lacks [address], [estuaryId] or [signature],
    or whose address is not 42 characters beginning with "0x", is answered
    400 with no call made: no signature check, no lookup, no removal. *)
Theorem delete_rejects_bad_parameters (req : Request) (s : W) :
  delete_parameters_ok req = false ->
  exists msg,
    run (deleteFileMetadata req) s = (Returned (mkResponse 400 (JError msg)), (s, [])).
Proof.
  unfold delete_parameters_ok, run, deleteFileMetadata. intros Hbad.
  destruct (truthy (q_address (query req))); cbn [negb orb andb] in *;
    [| eexists; reflexivity].
  destruct (truthy (q_estuaryId (query req))); cbn [negb orb andb] in *;
    [| eexists; reflexivity].
  destruct (truthy (q_signature (query req))); cbn [negb orb andb] in *;
    [| eexists; reflexivity].
  destruct (Nat.eqb _ 42); cbn [negb orb andb] in *; [| eexists; reflexivity].
  rewrite Hbad. eexists; reflexivity.
Qed.

(** X2.  A delete request whose signature check answers [false] is answered
    400 "Signer != address"; the signature check is the only call of the
    run, so the store is not even read. *)
Theorem delete_rejects_bad_signature (req : Request) (s s1 : W) :
  delete_parameters_ok req = true ->
  perform (AssertSignerIsAddress (delete_message req)
             (value_of (q_signature (query req))) (delete_address req)) s
  = (Returned false, s1) ->
  run (deleteFileMetadata req) s
  = (Returned (mkResponse 400
                 (JError "Failed to delete file metadata. Signer != address")),
     (s1, [Entry (AssertSignerIsAddress (delete_message req)
                    (value_of (q_signature (query req))) (delete_address req))
                 (Returned false)])).
Proof.
  intros Hp Hsig. unfold delete_parameters_ok in Hp.
  apply andb_prop in Hp as [Hp Hx]. apply andb_prop in Hp as [Hp Hlen].
  apply andb_prop in Hp as [Hp Hsg]. apply andb_prop in Hp as [Ha He].
  unfold run, deleteFileMetadata.
  rewrite Ha, He, Hsg, Hlen, Hx. cbn [negb orb].
  unfold utils.assertSignerIsAddress.
  fold (delete_target req). fold (delete_address req). fold (delete_message req).
  rewrite (bind_await _ _ _ _ _ _ Hsig). reflexivity.
Qed.

(** X3.  When the storage group of a signed delete request resolves to no
    chunk ([undefined] or an empty list), or its first chunk to no dataset,
    the answer is 404 and no removal is issued. *)
Theorem delete_not_found (req : Request) (s s1 s2 : W)
    (chunks : option (list Chunk)) :
  delete_parameters_ok req = true ->
  perform (AssertSignerIsAddress (delete_message req)
             (value_of (q_signature (query req))) (delete_address req)) s
  = (Returned true, s1) ->
  perform (GetChunks (ChunkByEstuaryId (delete_target req))) s1 = (Returned chunks, s2) ->
  match chunks with
  | Some (chunk0 :: _) =>
      exists s3 datasets,
        perform (GetDatasets (mkDatasetQuery (Some (datasetId chunk0)) None None)) s2
        = (Returned datasets, s3)
        /\ (datasets = None \/ datasets = Some [])
  | _ => True
  end ->
  exists msg,
    result_of (run (deleteFileMetadata req) s) = Returned (mkResponse 404 (JError msg))
    /\ removals (log_of (run (deleteFileMetadata req) s)) = [].
Proof.
  intros Hp Hsig Hch Hds. unfold delete_parameters_ok in Hp.
  apply andb_prop in Hp as [Hp Hx]. apply andb_prop in Hp as [Hp Hlen].
  apply andb_prop in Hp as [Hp Hsg]. apply andb_prop in Hp as [Ha He].
  unfold run, deleteFileMetadata.
  rewrite Ha, He, Hsg, Hlen, Hx. cbn [negb orb].
  unfold utils.assertSignerIsAddress, dbWrapper.getChunks, dbWrapper.getDatasets.
  fold (delete_target req). fold (delete_address req). fold (delete_message req).
  rewrite (bind_await _ _ _ _ _ _ Hsig). cbn [negb].
  rewrite (bind_await _ _ _ _ _ _ Hch).
  destruct chunks as [[| chunk0 others] |].
  1, 3: eexists; split; reflexivity.
  destruct Hds as (s3 & datasets & Hds & Hnone).
  rewrite (bind_await _ _ _ _ _ _ Hds).
  destruct Hnone as [-> | ->]; eexists; split; reflexivity.
Qed.

(** X4.  A publish request that passes validation and whose signature check
    answers [false] is answered 400 "Signer != address"; the signature check
    is the only call of the run: no ObjectId is drawn, no author inserted,
    no update attempted. *)
Theorem publish_rejects_bad_signature (req : Request) (s s1 : W) :
  publish_parameters_ok req = true ->
  perform (AssertSignerIsAddress (publish_message req)
             (sanitizeHtml (b_signature (body req))) (publish_address req)) s
  = (Returned false, s1) ->
  run (publishDataset req) s
  = (Returned (mkResponse 400 (JError "Failed to publish dataset. Signer != address")),
     (s1, [Entry (AssertSignerIsAddress (publish_message req)
                    (sanitizeHtml (b_signature (body req))) (publish_address req))
                 (Returned false)])).
Proof.
  intros Hp Hsig. unfold run, publishDataset.
  fold (publish_address req). fold (publish_datasetId req).
  unfold publish_parameters_ok in Hp.
  repeat (apply andb_prop in Hp as [Hp ?E]). rewrite Hp, E, E0, E1, E2, E3.
  cbn [negb orb].
  unfold utils.assertSignerIsAddress. fold (publish_message req).
  rewrite (bind_await _ _ _ _ _ _ Hsig). reflexivity.
Qed.

End TurnedAway.

(** ** The read side asks and never tells *)

Section ReadOnly.

Context `{Builtins} `{Backend W}.

#[local] Ltac answers :=
  repeat match goal with
         | |- context [perform ?c ?s] =>
             let E := fresh "E" in
             destruct (perform c s) as [[[?|] |] ?] eqn:E; cbn -[index_chunks]
         | |- context [match ObjectId_of_string ?x with _ => _ end] =>
             destruct (ObjectId_of_string x); cbn -[index_chunks]
         | |- context [let '(_, _) := index_chunks ?cs in _] =>
             destruct (index_chunks cs); cbn -[index_chunks]
         | |- context [match ?l with [] => _ | _ :: _ => _ end] =>
             is_var l; destruct l; cbn -[index_chunks]
         end.

(** X5.  The handlers of the read routes only look things up: whatever the
    store answers, every call of a run is a [getDatasets], a [getChunks] or a
    [getCommonsFiles]; none checks a signature, draws an ObjectId or changes
    the store or the Blob Store. *)
Theorem read_handlers_only_read (req : Request) (s : W) :
  Forall (fun e => is_read e = true) (log_of (run (getDatasetMetadata req) s))
  /\ Forall (fun e => is_read e = true) (log_of (run (getPublishedDatasets req) s))
  /\ Forall (fun e => is_read e = true)
            (log_of (run (getPublishedDatasetsByUploader req) s))
  /\ Forall (fun e => is_read e = true)
            (log_of (run (getPublishedChunksByDatasetId req) s))
  /\ Forall (fun e => is_read e = true) (log_of (run (getFileMetadata req) s)).
Proof.
  unfold run, log_of, getDatasetMetadata, getPublishedDatasets, getPublishedDatasetById,
    getAllPublishedDatasets, getPublishedDatasetsByUploader,
    getPublishedChunksByDatasetId, getFileMetadata,
    dbWrapper.getDatasets, dbWrapper.getChunks, dbWrapper.getCommonsFiles,
    new_ObjectId_of.
  repeat split.
  all: repeat match goal with
              | |- context [truthy ?x] => destruct (truthy x); cbn [negb]
              end.
  all: unfold bind, try_catch, await, defined, ret, throw, respond; cbn -[index_chunks].
  all: answers.
  all: repeat constructor.
Qed.

End ReadOnly.

(** ** What the read routes answer, over any backend *)

Section Answers.

Context `{Builtins} `{Backend W}.

(** X6.  A request without its parameter is answered with no call made:
    400 by the datasets-by-owner, published-by-uploader, list-chunks and
    files-by-owner handlers, 404 by the handler that gets a published
    dataset by id. *)
Theorem missing_parameter_answers (req : Request) (s : W) :
  (truthy (q_address (query req)) = false ->
   exists msg msg',
     run (getDatasetMetadata req) s = (Returned (mkResponse 400 (JError msg)), (s, []))
     /\ run (getFileMetadata req) s = (Returned (mkResponse 400 (JError msg')), (s, [])))
  /\ (truthy (q_uploader (query req)) = false ->
      exists msg,
        run (getPublishedDatasetsByUploader req) s
        = (Returned (mkResponse 400 (JError msg)), (s, [])))
  /\ (truthy (q_datasetId (query req)) = false ->
      exists msg,
        run (getPublishedChunksByDatasetId req) s
        = (Returned (mkResponse 400 (JError msg)), (s, [])))
  /\ (truthy (q_id (query req)) = false ->
      exists msg,
        run (getPublishedDatasetById req) s
        = (Returned (mkResponse 404 (JError msg)), (s, []))).
Proof.
  unfold run, getDatasetMetadata, getFileMetadata, getPublishedDatasetsByUploader,
    getPublishedChunksByDatasetId, getPublishedDatasetById.
  repeat split; intros ->; cbn [negb]; repeat eexists.
Qed.

(** X7.  Datasets by owner: with an address, the answer is 200 with
    whatever the store returned for the lower-cased address, an empty list
    or [undefined] included; the 404 "No datasets for the specified address"
    is the answer only when the store call throws. *)
Theorem datasets_of_owner_answer (req : Request) (s s1 : W)
    (r : outcome (option (list Dataset))) :
  truthy (q_address (query req)) = true ->
  perform (GetDatasets (mkDatasetQuery None
             (Some (toLowerCase (value_of (q_address (query req))))) None)) s
  = (r, s1) ->
  result_of (run (getDatasetMetadata req) s)
  = Returned (match r with
              | Returned datasets => mkResponse 200 (JDatasets datasets)
              | Threw => mkResponse 404 (JError "No datasets for the specified address")
              end).
Proof.
  intros Ht E. unfold run, getDatasetMetadata, dbWrapper.getDatasets. rewrite Ht.
  cbn [negb]. unfold bind, try_catch, await; cbn [fst snd]; rewrite E.
  destruct r; reflexivity.
Qed.

(** X8.  Published datasets by uploader: the answer is 200 with the list
    the store returned for the lower-cased uploader exactly when that list
    is not empty; an empty list, [undefined] and a throw all give 404. *)
Theorem published_by_uploader_answer (req : Request) (s s1 : W)
    (r : outcome (option (list Dataset))) :
  truthy (q_uploader (query req)) = true ->
  perform (GetDatasets (mkDatasetQuery None
             (Some (toLowerCase (value_of (q_uploader (query req))))) (Some true))) s
  = (r, s1) ->
  result_of (run (getPublishedDatasetsByUploader req) s)
  = Returned (match r with
              | Returned (Some (d :: ds)) => mkResponse 200 (JDatasets (Some (d :: ds)))
              | _ => mkResponse 404
                       (JError ("Found no datasets whose uploader is "
                                +:+ toLowerCase (value_of (q_uploader (query req)))))
              end).
Proof.
  intros Ht E. unfold run, getPublishedDatasetsByUploader, dbWrapper.getDatasets.
  rewrite Ht. cbn [negb]. unfold bind, try_catch, await; cbn [fst snd]; rewrite E.
  destruct r as [[[| d ds] |] |]; reflexivity.
Qed.

(** X9.  A published dataset by id: when the lookup of the id among the
    published datasets returns a non-empty list, the answer is 200 with the
    first dataset of that list. *)
Theorem published_by_id_answer (req : Request) (s s1 : W) (oid : ObjectId)
    (d : Dataset) (ds : list Dataset) :
  truthy (q_id (query req)) = true ->
  ObjectId_of_string (value_of (q_id (query req))) = Some oid ->
  perform (GetDatasets (mkDatasetQuery (Some oid) None (Some true))) s
  = (Returned (Some (d :: ds)), s1) ->
  result_of (run (getPublishedDatasets req) s) = Returned (mkResponse 200 (JDataset d)).
Proof.
  intros Ht P E. unfold run, getPublishedDatasets, getPublishedDatasetById,
    dbWrapper.getDatasets, new_ObjectId_of.
  rewrite Ht, P. cbn [negb]. cbv beta iota.
  unfold bind, try_catch, await, ret; cbn [fst snd]; rewrite E.
  reflexivity.
Qed.

(** X10.  The chunks of a published dataset: when the id resolves to a
    published dataset, the answer is 200 with whatever the store returned
    for the chunks whose [datasetId] is that id ([undefined] included), and
    404 when that second call throws. *)
Theorem chunks_of_published_answer (req : Request) (s s1 s2 : W) (oid : ObjectId)
    (d : Dataset) (ds : list Dataset) (r : outcome (option (list Chunk))) :
  truthy (q_datasetId (query req)) = true ->
  ObjectId_of_string (value_of (q_datasetId (query req))) = Some oid ->
  perform (GetDatasets (mkDatasetQuery (Some oid) None (Some true))) s
  = (Returned (Some (d :: ds)), s1) ->
  perform (GetChunks (ChunkByDatasetId oid)) s1 = (r, s2) ->
  result_of (run (getPublishedChunksByDatasetId req) s)
  = Returned (match r with
              | Returned chunks => mkResponse 200 (JChunks chunks)
              | Threw => mkResponse 404
                           (JError ("Found no chunks whose parent dataset is "
                                    +:+ interpolate (q_datasetId (query req))))
              end).
Proof.
  intros Ht P E E'. unfold run, getPublishedChunksByDatasetId,
    dbWrapper.getDatasets, dbWrapper.getChunks, new_ObjectId_of.
  rewrite Ht, P. cbn [negb]. cbv beta iota.
  unfold bind, try_catch, await, defined, ret; cbn [fst snd].
  rewrite E. cbn [fst snd]. rewrite E'. destruct r; reflexivity.
Qed.

(** X11.  The read handlers answer every request whose query parameters
    are strings or absent, which are the requests a [Query] holds: whatever
    the store does, a throw included, the run ends in a response, with a
    status among 200, 400 and 404 (200 or 400 for files by owner, 200 or 404
    for the published datasets).  A parameter that is not a string (the
    array of a repeated key) is outside this statement: [toLowerCase] at
    lines 27, 93 and 265 is called before the [try]. *)
Theorem read_handlers_always_answer (req : Request) (s : W) :
  (exists response,
      result_of (run (getDatasetMetadata req) s) = Returned response
      /\ (status response = 200 \/ status response = 400 \/ status response = 404))
  /\ (exists response,
         result_of (run (getPublishedDatasets req) s) = Returned response
         /\ (status response = 200 \/ status response = 404))
  /\ (exists response,
         result_of (run (getPublishedDatasetsByUploader req) s) = Returned response
         /\ (status response = 200 \/ status response = 400 \/ status response = 404))
  /\ (exists response,
         result_of (run (getPublishedChunksByDatasetId req) s) = Returned response
         /\ (status response = 200 \/ status response = 400 \/ status response = 404))
  /\ (exists response,
         result_of (run (getFileMetadata req) s) = Returned response
         /\ (status response = 200 \/ status response = 400)).
Proof.
  unfold run, result_of, getDatasetMetadata, getPublishedDatasets,
    getPublishedDatasetById, getAllPublishedDatasets, getPublishedDatasetsByUploader,
    getPublishedChunksByDatasetId, getFileMetadata,
    dbWrapper.getDatasets, dbWrapper.getChunks, dbWrapper.getCommonsFiles,
    new_ObjectId_of.
  repeat split.
  all: repeat match goal with
              | |- context [truthy ?x] => destruct (truthy x); cbn [negb]
              end.
  all: unfold bind, try_catch, await, defined, ret, throw, respond; cbn -[index_chunks].
  all: repeat match goal with
         | |- context [perform ?c ?s] =>
             let E := fresh "E" in
             destruct (perform c s) as [[[?|] |] ?] eqn:E; cbn -[index_chunks]
         | |- context [match ObjectId_of_string ?x with _ => _ end] =>
             destruct (ObjectId_of_string x); cbn -[index_chunks]
         | |- context [let '(_, _) := index_chunks ?cs in _] =>
             destruct (index_chunks cs); cbn -[index_chunks]
         | |- context [match ?l with [] => _ | _ :: _ => _ end] =>
             is_var l; destruct l; cbn -[index_chunks]
         end.
  all: eexists; split; [reflexivity |]; cbn; auto.
Qed.

End Answers.

(** ** The store in memory, when it works *)

Section Working.

Context `{Builtins} `{Signatures}.

Lemma calm_tail (n : nat) (l : list fault) :
  calm (Datatypes.S n) l = true -> calm n (tail l) = true.
Proof.
  destruct l as [| [| |] l]; cbn; try discriminate; auto.
  intros _. destruct n; reflexivity.
Qed.

Lemma calm_one (n : nat) (l : list fault) :
  calm (Datatypes.S n) l = true -> calm 1 l = true.
Proof. destruct l as [| [| |] l]; cbn; try discriminate; auto. Qed.

Lemma calm_le (n k : nat) (l : list fault) :
  (k <= n)%nat -> calm n l = true -> calm k l = true.
Proof.
  revert k l. induction n as [| n IH]; intros k l Hk Hc.
  - replace k with 0%nat by lia. reflexivity.
  - destruct k as [| k]; [reflexivity |].
    destruct l as [| [| |] l]; cbn in *; try discriminate; auto.
    apply IH; [lia | exact Hc].
Qed.

Lemma memory_works {X} (c : call X) (m : Memory) :
  is_store_call c = true ->
  calm 1 (schedule m) = true ->
  perform c m
  = (Returned (store_perform c (store m)).1, served m (store_perform c (store m)).2).
Proof.
  intros Hc Hm. destruct m as [st sched nid]. cbn [schedule store] in *.
  unfold served. cbn [schedule next_id].
  destruct c; try discriminate Hc;
    destruct sched as [| [| |] sched]; try discriminate Hm; cbn;
    try reflexivity;
    match goal with
    | |- context [update_first ?q ?u ?l] => destruct (update_first q u l); reflexivity
    end.
Qed.

End Working.

(** ** The read side, on the store in memory *)

Section ReadingInMemory.

Context `{Builtins} `{Signatures}.

Lemma field_matches_spec {A} `{EqDecision A} (wanted : option A) (actual : A) :
  field_matches wanted actual = true <-> forall v, wanted = Some v -> actual = v.
Proof.
  destruct wanted as [v |]; cbn.
  - rewrite bool_decide_eq_true. split; [intros -> ? [= <-]; reflexivity | auto].
  - split; [discriminate | reflexivity].
Qed.

Lemma dataset_matches_spec (q : DatasetQuery) (d : Dataset) :
  dataset_matches q d = true
  <-> (forall i, by_id q = Some i -> d_id d = i)
      /\ (forall u, by_uploader q = Some u -> uploader d = u)
      /\ (forall b, by_published q = Some b -> published d = b).
Proof.
  unfold dataset_matches. rewrite !andb_true_iff, !field_matches_spec. tauto.
Qed.

(** X12.  Datasets by owner, the store working: the answer is 200 with
    exactly the datasets whose uploader is the lower-cased address, in the
    order of the store, published or not. *)
Theorem datasets_of_owner_in_memory (m : Memory) (req : Request) :
  truthy (q_address (query req)) = true ->
  calm 1 (schedule m) = true ->
  result_of (run (getDatasetMetadata req) m)
  = Returned (mkResponse 200 (JDatasets (Some
      (List.filter
         (fun d => bool_decide (uploader d = toLowerCase (value_of (q_address (query req)))))
         (st_datasets (store m)))))).
Proof.
  intros Ht Hc. unfold run, getDatasetMetadata, dbWrapper.getDatasets. rewrite Ht.
  cbn [negb]. unfold bind, try_catch, await; cbn [fst snd].
  rewrite (memory_works (GetDatasets _) m eq_refl Hc).
  cbn [store_perform fst result_of ret]. do 4 f_equal. apply List.filter_ext. intros d.
  unfold dataset_matches, field_matches. cbn. rewrite andb_true_r. reflexivity.
Qed.

(** X13.  The published routes show published datasets only, however the
    store calls go: every dataset of a list they answer with, and the
    dataset a by-id request is answered with, is a dataset of the store whose
    [published] flag is true; the one answered by id has the id asked for,
    those answered by uploader have the lower-cased uploader asked for. *)
Theorem published_routes_show_published_only (m : Memory) (req : Request) :
  (forall code listed,
      result_of (run (getPublishedDatasets req) m)
      = Returned (mkResponse code (JDatasets (Some listed))) ->
      Forall (fun d => In d (st_datasets (store m)) /\ published d = true) listed)
  /\ (forall code d,
        result_of (run (getPublishedDatasets req) m)
        = Returned (mkResponse code (JDataset d)) ->
        In d (st_datasets (store m)) /\ published d = true
        /\ ObjectId_of_string (value_of (q_id (query req))) = Some (d_id d))
  /\ (forall code listed,
        result_of (run (getPublishedDatasetsByUploader req) m)
        = Returned (mkResponse code (JDatasets (Some listed))) ->
        Forall (fun d => In d (st_datasets (store m)) /\ published d = true
                         /\ uploader d = toLowerCase (value_of (q_uploader (query req))))
               listed).
Proof.
  destruct m as [st sched nid]. cbn [store].
  unfold run, result_of, getPublishedDatasets, getPublishedDatasetById,
    getAllPublishedDatasets, getPublishedDatasetsByUploader, dbWrapper.getDatasets,
    new_ObjectId_of.
  split; [| split].
  all: intros code x.
  all: repeat match goal with
              | |- context [truthy ?v] => destruct (truthy v); cbn [negb]
              end.
  all: try discriminate.
  all: try (destruct (ObjectId_of_string (value_of (q_id (query req)))) as [oid |] eqn:P;
            [| discriminate]).
  all: destruct sched as [| [| |] sched];
    unfold bind, try_catch, await, defined, ret, respond;
    cbn -[List.filter dataset_matches]; try discriminate.
  all: try match goal with
           | |- context [match List.filter ?f ?l with _ => _ end] =>
               let E := fresh "E" in
               destruct (List.filter f l) as [| d0 ds0] eqn:E;
               cbn -[List.filter dataset_matches]; try discriminate
           end.
  all: intros [= <- <-] || intros [= <-].
  all: try (apply List.Forall_forall; intros d Hd; apply List.filter_In in Hd as [Hin Hm];
            apply dataset_matches_spec in Hm as (Hi & Hu & Hp);
            cbn [by_id by_uploader by_published] in *; auto).
  all: try (assert (Hd : In d0 (List.filter
                       (dataset_matches (mkDatasetQuery (Some oid) None (Some true)))
                       (st_datasets st)))
              by (rewrite E; left; reflexivity);
            apply List.filter_In in Hd as [Hin Hm];
            apply dataset_matches_spec in Hm as (Hi & Hu & Hp);
            cbn [by_id by_uploader by_published] in *;
            rewrite (Hi oid eq_refl); auto).
  all: try (rewrite <- E; apply List.Forall_forall; intros d Hd;
            apply List.filter_In in Hd as [Hin Hm];
            apply dataset_matches_spec in Hm as (Hi & Hu & Hp);
            cbn [by_id by_uploader by_published] in *; auto).
Qed.

(** X14.  The chunks of a published dataset, the store working: when the
    id names a published dataset of the store, the answer is 200 with exactly
    the chunks of the store whose [datasetId] is that id. *)
Theorem chunks_of_published_in_memory (m : Memory) (req : Request) (oid : ObjectId)
    (d : Dataset) :
  truthy (q_datasetId (query req)) = true ->
  ObjectId_of_string (value_of (q_datasetId (query req))) = Some oid ->
  In d (st_datasets (store m)) ->
  d_id d = oid ->
  published d = true ->
  calm 2 (schedule m) = true ->
  result_of (run (getPublishedChunksByDatasetId req) m)
  = Returned (mkResponse 200 (JChunks (Some
      (List.filter (fun c => bool_decide (datasetId c = oid)) (st_chunks (store m)))))).
Proof.
  intros Ht P Hin Hid Hpub Hc.
  unfold run, getPublishedChunksByDatasetId, dbWrapper.getDatasets, dbWrapper.getChunks,
    new_ObjectId_of.
  rewrite Ht, P. cbn [negb]. cbv beta iota.
  unfold bind, try_catch, await, defined, ret; cbn [fst snd].
  rewrite (memory_works (GetDatasets _) m eq_refl (calm_one _ _ Hc)).
  cbn [store_perform fst snd].
  destruct (List.filter _ (st_datasets (store m))) as [| d0 ds0] eqn:E.
  - exfalso. assert (Hd : In d (@nil Dataset)); [| destruct Hd].
    rewrite <- E. apply List.filter_In. split; [exact Hin |].
    apply dataset_matches_spec. cbn [by_id by_uploader by_published].
    repeat split; intros ? [= <-]; assumption.
  - cbn [fst snd].
    rewrite (memory_works (GetChunks _) (served m (store m)) eq_refl
               (calm_tail 1 _ Hc)).
    reflexivity.
Qed.

End ReadingInMemory.

(** ** The cascading delete, on the store in memory *)

Section CascadeInMemory.

Context `{Builtins} `{Signatures}.

Lemma tail_drop {A} (n : nat) (l : list A) : tail (drop n l) = drop (Datatypes.S n) l.
Proof.
  revert l. induction n as [| n IH]; intros [| x l]; cbn; auto.
Qed.

Lemma calm_drop (n k : nat) (l : list fault) :
  calm (n + k) l = true -> calm k (drop n l) = true.
Proof.
  revert l. induction n as [| n IH]; intros l; cbn [Nat.add drop]; [auto |].
  destruct l as [| f l]; [intros _; destruct k; reflexivity |].
  destruct f; cbn [calm Nat.add]; try discriminate. apply IH.
Qed.

Lemma served_times_works {X} (c : call X) (n : nat) (m : Memory) (st : Store) :
  is_store_call c = true ->
  calm (Datatypes.S n) (schedule m) = true ->
  perform c (served_times n m st)
  = (Returned (store_perform c st).1, served_times (Datatypes.S n) m (store_perform c st).2).
Proof.
  intros Hc Hm.
  rewrite (memory_works c (served_times n m st) Hc).
  - unfold served, served_times. cbn [schedule store next_id]. rewrite tail_drop.
    reflexivity.
  - cbn [served_times schedule]. apply calm_drop.
    replace (n + 1)%nat with (Datatypes.S n) by lia. exact Hm.
Qed.

(** The whole run of a delete request that goes through, the six store
    calls working. *)
Lemma delete_memory_run (m : Memory) (req : Request) (chunk0 : Chunk) (dataset : Dataset) :
  delete_parameters_ok req = true ->
  verify (delete_message req) (value_of (q_signature (query req))) (delete_address req)
  = true ->
  targets (store m) req chunk0 dataset ->
  published dataset = false ->
  calm 6 (schedule m) = true ->
  result_of (run (deleteFileMetadata req) m) = Returned (delete_response req true)
  /\ state_of (run (deleteFileMetadata req) m)
     = served_times 6 m (after_cascade (store m) (chunkIds dataset) (datasetId chunk0)
                                       (delete_target req)).
Proof.
  intros Hp Hv (others & more & Hch & Hds) Hpub Hc.
  assert (H0m : served_times 0 m (store m) = m) by (destruct m; reflexivity).
  assert (Hpass : checks_passed req m chunk0 dataset (served_times 2 m (store m))
            [Entry (AssertSignerIsAddress (delete_message req)
                      (value_of (q_signature (query req))) (delete_address req))
                   (Returned true);
             Entry (GetChunks (ChunkByEstuaryId (delete_target req)))
                   (Returned (Some (chunk0 :: others)));
             Entry (GetDatasets (mkDatasetQuery (Some (datasetId chunk0)) None None))
                   (Returned (Some (dataset :: more)))]).
  { split; [exact Hp |].
    exists m, (served_times 1 m (store m)), others, more.
    split; [cbn; rewrite Hv; reflexivity |].
    split.
    { rewrite <- H0m at 1.
      rewrite (served_times_works (GetChunks _) 0 m (store m) eq_refl
                 (calm_le 6 1 _ ltac:(lia) Hc)).
      cbn [store_perform fst snd]. rewrite Hch. reflexivity. }
    split.
    { rewrite (served_times_works (GetDatasets _) 1 m (store m) eq_refl
                 (calm_le 6 2 _ ltac:(lia) Hc)).
      cbn [store_perform fst snd]. rewrite Hds. reflexivity. }
    split; [exact Hpub | reflexivity]. }
  rewrite (cascade_run req m _ _ _ _ _ chunk0 dataset _ true true true (Returned true)
             Hpass
             (served_times_works (DeleteCommonsFiles _) 2 m _ eq_refl
                (calm_le 6 3 _ ltac:(lia) Hc))
             (served_times_works (DeleteChunks _) 3 m _ eq_refl
                (calm_le 6 4 _ ltac:(lia) Hc))
             (served_times_works (DeleteDataset _) 4 m _ eq_refl
                (calm_le 6 5 _ ltac:(lia) Hc))
             (served_times_works (EstuaryDeleteFile _ _) 5 m _ eq_refl Hc)).
  split; reflexivity.
Qed.

Lemma keep_In {A} (drop : A -> bool) (l : list A) (x : A) :
  In x (keep drop l) <-> In x l /\ drop x = false.
Proof. unfold keep. rewrite List.filter_In, negb_true_iff. reflexivity. Qed.

(** X15.  A signed delete request for the storage group of an unpublished
    dataset, the six store calls working, is answered 200 and leaves the
    store without the files whose [chunkId] is among the dataset's
    [chunkIds], without the chunks with those ids, without the dataset the
    first chunk names and without the blob; every other file, chunk, dataset
    and blob, and every author, stays. *)
Theorem delete_removes_the_dataset (m : Memory) (req : Request)
    (chunk0 : Chunk) (dataset : Dataset) :
  delete_parameters_ok req = true ->
  verify (delete_message req) (value_of (q_signature (query req))) (delete_address req)
  = true ->
  targets (store m) req chunk0 dataset ->
  published dataset = false ->
  calm 6 (schedule m) = true ->
  result_of (run (deleteFileMetadata req) m)
  = Returned (mkResponse 200 (JData
      ("Successfully deleted file metadata for file with estuaryId: "
       +:+ show_number (delete_target req))))
  /\ (forall f, In f (st_files (store (state_of (run (deleteFileMetadata req) m))))
                <-> In f (st_files (store m)) /\ ~ In (chunkId f) (chunkIds dataset))
  /\ (forall c, In c (st_chunks (store (state_of (run (deleteFileMetadata req) m))))
                <-> In c (st_chunks (store m)) /\ ~ In (c_id c) (chunkIds dataset))
  /\ (forall d, In d (st_datasets (store (state_of (run (deleteFileMetadata req) m))))
                <-> In d (st_datasets (store m)) /\ d_id d <> datasetId chunk0)
  /\ (forall b, In b (st_blobs (store (state_of (run (deleteFileMetadata req) m))))
                <-> In b (st_blobs (store m)) /\ b <> delete_target req)
  /\ st_authors (store (state_of (run (deleteFileMetadata req) m)))
     = st_authors (store m).
Proof.
  intros Hp Hv Ht Hpub Hc.
  destruct (delete_memory_run m req chunk0 dataset Hp Hv Ht Hpub Hc) as [-> ->].
  cbn [served_times store after_cascade st_files st_chunks st_datasets st_blobs st_authors].
  split; [reflexivity |]. split; [| split; [| split; [| split]]].
  - intros f. rewrite keep_In. cbn [file_matches]. unfold id_in.
    rewrite bool_decide_eq_false, list_elem_of_In. reflexivity.
  - intros c. rewrite keep_In. cbn [chunk_matches]. unfold id_in.
    rewrite bool_decide_eq_false, list_elem_of_In. reflexivity.
  - intros d. rewrite keep_In. split; intros [Hin Hm]; (split; [exact Hin |]).
    + intros Hid. apply not_true_iff_false in Hm. apply Hm.
      apply dataset_matches_spec. cbn. repeat split; try discriminate.
      intros ? [= <-]. exact Hid.
    + apply not_true_iff_false. intros Hd. apply dataset_matches_spec in Hd as (Hi & _).
      apply Hm. apply Hi. reflexivity.
  - intros b. rewrite keep_In, bool_decide_eq_false. reflexivity.
  - reflexivity.
Qed.

(** X16.  Repeating the delete: when every chunk of the storage group is
    among the dataset's [chunkIds], the same request sent again after a
    delete that went through is answered 404 "No corresponding chunks
    found". *)
Theorem delete_twice_is_not_found (m : Memory) (req : Request)
    (chunk0 : Chunk) (dataset : Dataset) :
  delete_parameters_ok req = true ->
  verify (delete_message req) (value_of (q_signature (query req))) (delete_address req)
  = true ->
  targets (store m) req chunk0 dataset ->
  published dataset = false ->
  calm 7 (schedule m) = true ->
  (forall c, In c (st_chunks (store m)) ->
             estuaryId (storageIds c) = delete_target req ->
             In (c_id c) (chunkIds dataset)) ->
  result_of (run (deleteFileMetadata req) (state_of (run (deleteFileMetadata req) m)))
  = Returned (mkResponse 404
      (JError "Failed to delete file metadata. No corresponding chunks found.")).
Proof.
  intros Hp Hv Ht Hpub Hc Hall.
  destruct (delete_memory_run m req chunk0 dataset Hp Hv Ht Hpub
              (calm_le 7 6 _ ltac:(lia) Hc)) as [_ ->].
  unfold delete_parameters_ok in Hp.
  apply andb_prop in Hp as [Hp Hx]. apply andb_prop in Hp as [Hp Hlen].
  apply andb_prop in Hp as [Hp Hsg]. apply andb_prop in Hp as [Ha He].
  unfold run, deleteFileMetadata.
  rewrite Ha, He, Hsg, Hlen, Hx. cbn [negb orb].
  unfold utils.assertSignerIsAddress, dbWrapper.getChunks.
  fold (delete_target req). fold (delete_address req). fold (delete_message req).
  erewrite bind_await by (cbn; rewrite Hv; reflexivity). cbv beta iota. cbn [negb].
  rewrite (bind_await _ _ _ _ _ _
             (served_times_works (GetChunks _) 6 m _ eq_refl Hc)).
  cbn [store_perform fst snd after_cascade st_chunks].
  rewrite (filter_none (chunk_matches (ChunkByEstuaryId (delete_target req)))).
  - reflexivity.
  - apply List.Forall_forall. intros c Hin. apply keep_In in Hin as [Hin Hm].
    cbn [chunk_matches] in *. apply bool_decide_eq_false. intros He'.
    unfold id_in in Hm. apply bool_decide_eq_false in Hm. apply Hm.
    apply list_elem_of_In. apply Hall; assumption.
Qed.

End CascadeInMemory.

(** ** Publishing that goes through, on the store in memory *)

Section PublishedInMemory.

Context `{Builtins} `{Signatures}.

Lemma update_first_split (q : DatasetQuery) (u : UpdateDocument)
    (pre : list Dataset) (d : Dataset) (post : list Dataset) :
  Forall (fun d' => dataset_matches q d' = false) pre ->
  dataset_matches q d = true ->
  update_first q u (pre ++ d :: post) = Some (pre ++ apply_update u d :: post).
Proof.
  intros Hpre Hd. induction Hpre as [| d' pre Hd' _ IH]; cbn.
  - rewrite Hd. reflexivity.
  - rewrite Hd', IH. reflexivity.
Qed.

Lemma first_owned_matches (st : Store) (req : Request) (oid : ObjectId)
    (pre : list Dataset) (d : Dataset) (post : list Dataset) :
  first_owned st req oid pre d post ->
  Forall (fun d' => dataset_matches (publish_query req oid) d' = false) pre
  /\ forall u, dataset_matches (publish_query req oid) (apply_update u d) = true.
Proof.
  intros (_ & Hid & Hup & Hpre). split.
  - revert Hpre. apply Forall_impl. intros d' Hd'. apply not_true_iff_false.
    intros Hm. apply dataset_matches_spec in Hm as (Hi & Hu & _).
    cbn in Hi, Hu. destruct Hd' as [Hn | Hn]; apply Hn; auto.
  - intros u. apply dataset_matches_spec. cbn.
    repeat split; try discriminate; intros ? [= <-]; cbn; assumption.
Qed.

Lemma updateAttempts_first_works `{Backend W} (n : nat) q u ok (s s' : W)
    (l : list entry) :
  perform (UpdateDataset q u) s = (Returned true, s') ->
  updateAttempts (Datatypes.S n) q u ok (s, l)
  = (Returned (Some ok), (s', l ++ [Entry (UpdateDataset q u) (Returned true)])).
Proof.
  intros E. cbn [updateAttempts]. unfold dbWrapper.updateDataset.
  rewrite (bind_await _ _ _ _ _ _ E). reflexivity.
Qed.

(** The whole run of a publish that goes through at the first attempt. *)
Lemma publish_memory_run (m : Memory) (req : Request) (oid : ObjectId)
    (pre : list Dataset) (d : Dataset) (post : list Dataset) :
  publish_parameters_ok req = true ->
  verify (publish_message req) (sanitizeHtml (b_signature (body req)))
         (publish_address req) = true ->
  ObjectId_of_string (publish_datasetId req) = Some oid ->
  first_owned (store m) req oid pre d post ->
  calm (Datatypes.S (length (author_names req))) (schedule m) = true ->
  result_of (run (publishDataset req) m) = Returned (published_response req)
  /\ state_of (run (publishDataset req) m) = after_publish m req pre d post.
Proof.
  intros Hp Hv P Hown Hc.
  rewrite (publish_memory_authors_made m req Hp Hv).
  match goal with
  | |- context [bind (insertAuthors ?new) _ (?m1, ?l1)] =>
      rewrite (bind_run _ _ _ _ _ (insertAuthors_memory_calm new m1 l1
                 ltac:(cbn [schedule]; rewrite new_authors_length;
                       exact (calm_le (Datatypes.S (length (author_names req)))
                                (length (author_names req)) _ ltac:(lia) Hc))))
  end.
  cbv beta iota. cbn [store schedule next_id]. unfold new_ObjectId_of. rewrite P.
  rewrite bind_ret. rewrite new_authors_length.
  fold (publish_query req oid). fold (publish_update req (next_id m)).
  match goal with
  | |- context [bind (try_catch (updateAttempts 3 ?q ?u ?ok)) _ (?m2, ?l2)] =>
      assert (Hup : perform (UpdateDataset q u) m2
                    = (Returned true, after_publish m req pre d post))
  end.
  { rewrite memory_works;
      [| reflexivity
       | cbn [schedule]; apply calm_drop;
         replace (length (author_names req) + 1)%nat
           with (Datatypes.S (length (author_names req))) by lia; exact Hc].
    destruct (first_owned_matches _ _ _ _ _ _ Hown) as [Hpre Hd].
    destruct Hown as (Hds & Hid & Hupl & _).
    cbn [store_perform store with_authors st_datasets]. rewrite Hds.
    rewrite (update_first_split _ _ pre d post Hpre).
    - unfold served, after_publish. cbn [fst snd schedule next_id store st_chunks
        st_files st_authors st_blobs]. rewrite tail_drop. reflexivity.
    - apply dataset_matches_spec. cbn.
      repeat split; try discriminate; intros ? [= <-]; assumption. }
  rewrite (bind_run _ _ _ _ _
             (try_catch_run _ _ _ _ (updateAttempts_first_works 2 _ _ _ _ _ _ Hup))).
  split; reflexivity.
Qed.

(** With the inserts working, the run reaches the update. *)
Lemma memory_reaches_update (m : Memory) (req : Request) (oid : ObjectId) :
  publish_parameters_ok req = true ->
  verify (publish_message req) (sanitizeHtml (b_signature (body req)))
         (publish_address req) = true ->
  ObjectId_of_string (publish_datasetId req) = Some oid ->
  calm (length (author_names req)) (schedule m) = true ->
  reaches_update req m oid (new_authors (next_id m) (author_names req))
    (mkMemory (with_authors (store m) (new_authors (next_id m) (author_names req)))
              (drop (length (author_names req)) (schedule m))
              (next_id m + N.of_nat (length (author_names req)))%N)
    (([Entry (AssertSignerIsAddress (publish_message req)
                (sanitizeHtml (b_signature (body req))) (publish_address req))
             (Returned true)]
      ++ generation_entries (ids_from (next_id m) (length (author_names req))))
     ++ insertion_entries (new_authors (next_id m) (author_names req))).
Proof.
  intros Hp Hv P Hc. split; [exact Hp |]. split; [exact P |].
  exists m. eexists. eexists.
  split; [cbn; rewrite Hv; reflexivity |].
  split; [apply makeAuthors_memory |].
  rewrite insertAuthors_memory_calm
    by (cbn [schedule]; rewrite new_authors_length; exact Hc).
  cbn [store schedule next_id]. rewrite new_authors_length. reflexivity.
Qed.

(** The first update of a publish for a dataset of the claimed address,
    the store call working. *)
Lemma memory_first_update (m : Memory) (req : Request) (oid : ObjectId)
    (pre : list Dataset) (d : Dataset) (post : list Dataset) :
  first_owned (store m) req oid pre d post ->
  calm (Datatypes.S (length (author_names req))) (schedule m) = true ->
  perform (UpdateDataset (publish_query req oid)
             (publish_document req
                (map a_id (new_authors (next_id m) (author_names req)))))
    (mkMemory (with_authors (store m) (new_authors (next_id m) (author_names req)))
              (drop (length (author_names req)) (schedule m))
              (next_id m + N.of_nat (length (author_names req)))%N)
  = (Returned true, after_publish m req pre d post).
Proof.
  intros Hown Hc.
  rewrite memory_works;
    [| reflexivity
     | cbn [schedule]; apply calm_drop;
       replace (length (author_names req) + 1)%nat
         with (Datatypes.S (length (author_names req))) by lia; exact Hc].
  destruct (first_owned_matches _ _ _ _ _ _ Hown) as [Hpre Hd].
  destruct Hown as (Hds & Hid & Hupl & _).
  cbn [store_perform store with_authors st_datasets]. rewrite Hds.
  rewrite (update_first_split _ _ pre d post Hpre).
  - unfold served, after_publish. cbn [fst snd schedule next_id store st_chunks
      st_files st_authors st_blobs]. rewrite tail_drop. reflexivity.
  - apply dataset_matches_spec. cbn.
    repeat split; try discriminate; intros ? [= <-]; assumption.
Qed.

(** C6.  A publish request that passes validation and the signature check,
    with [n] author names, draws [n] ObjectIds from the generator, all
    different.  When the [n] inserts work, the store gains exactly the [n]
    authors made of those ids and the names, in the order of the names;
    every update sent to the store carries those [n] ids, in that order, as
    the author list, and after a 200 the dataset of the request holds them.
    When the insert of the author at position [k] answers [false] (the
    earlier ones having worked), the response is 400 "Failed to insert
    author into database", no update is attempted, the datasets are as they
    were, and the [k] authors inserted before stay in the store.  And the
    author list is set: when the [n] inserts and the update that follows
    work, for a dataset of the claimed address, one update is sent, with the
    [n] new ids in the order of the names as its author list, the response
    is 200, and the dataset of the request is left with exactly those [n]
    ids as its authors, the other datasets being as they were. *)
Theorem publish_creates_authors (m : Memory) (req : Request) :
  publish_parameters_ok req = true ->
  verify (publish_message req) (sanitizeHtml (b_signature (body req)))
         (publish_address req) = true ->
  generated_ids (log_of (run (publishDataset req) m))
  = ids_from (next_id m) (length (author_names req))
  /\ List.NoDup (ids_from (next_id m) (length (author_names req)))
  /\ map name (new_authors (next_id m) (author_names req)) = author_names req
  /\ map a_id (new_authors (next_id m) (author_names req))
     = ids_from (next_id m) (length (author_names req))
  /\ (calm (length (author_names req)) (schedule m) = true ->
      st_authors (store (state_of (run (publishDataset req) m)))
      = st_authors (store m) ++ new_authors (next_id m) (author_names req)
      /\ insertions (log_of (run (publishDataset req) m))
         = map (fun a => (a, Returned true)) (new_authors (next_id m) (author_names req))
      /\ Forall (fun e => is_update e = true ->
                          update_authors e
                          = Some (ids_from (next_id m) (length (author_names req))))
                (log_of (run (publishDataset req) m))
      /\ (forall response,
            result_of (run (publishDataset req) m) = Returned response ->
            status response = 200 ->
            exists d,
              In d (st_datasets (store (state_of (run (publishDataset req) m))))
              /\ ObjectId_of_string (publish_datasetId req) = Some (d_id d)
              /\ authors d = ids_from (next_id m) (length (author_names req))
              /\ published d = true))
  /\ (forall k,
        (k < length (author_names req))%nat ->
        calm k (schedule m) = true ->
        schedule m !! k = Some Fails ->
        result_of (run (publishDataset req) m)
        = Returned (mkResponse 400 (JError "Failed to insert author into database"))
        /\ st_authors (store (state_of (run (publishDataset req) m)))
           = st_authors (store m) ++ take k (new_authors (next_id m) (author_names req))
        /\ st_datasets (store (state_of (run (publishDataset req) m)))
           = st_datasets (store m)
        /\ updates (log_of (run (publishDataset req) m)) = [])
  /\ (forall (oid : ObjectId) (pre : list Dataset) (d : Dataset) (post : list Dataset),
        ObjectId_of_string (publish_datasetId req) = Some oid ->
        first_owned (store m) req oid pre d post ->
        calm (Datatypes.S (length (author_names req))) (schedule m) = true ->
        result_of (run (publishDataset req) m) = Returned (published_response req)
        /\ updates (log_of (run (publishDataset req) m))
           = [Entry (UpdateDataset (publish_query req oid)
                       (publish_document req
                          (ids_from (next_id m) (length (author_names req)))))
                    (Returned true)]
        /\ exists patched,
             st_datasets (store (state_of (run (publishDataset req) m)))
             = pre ++ patched :: post
             /\ d_id patched = oid
             /\ published patched = true
             /\ authors patched = ids_from (next_id m) (length (author_names req))).
Proof.
  intros Hp Hv.
  destruct (publish_authors_in_memory m req Hp Hv) as (H1 & H2 & H3 & H4 & H5 & H6).
  split; [exact H1 |]. split; [exact H2 |]. split; [exact H3 |]. split; [exact H4 |].
  split; [exact H5 |]. split; [exact H6 |].
  intros oid pre d post P Hown Hc.
  assert (Hcn : calm (length (author_names req)) (schedule m) = true)
    by exact (calm_le (Datatypes.S (length (author_names req)))
                (length (author_names req)) _ ltac:(lia) Hc).
  rewrite (publish_run_from_update req m oid _ _ _
             (memory_reaches_update m req oid Hp Hv P Hcn)).
  rewrite (bind_run _ _ _ _ _
             (try_catch_run _ _ _ _
                (updateAttempts_first_works 2 _ _ _ _ _ _
                   (memory_first_update m req oid pre d post Hown Hc)))).
  unfold result_of, log_of, state_of, updates. cbn [fst snd ret].
  split; [reflexivity |]. split.
  - rewrite !List.filter_app.
    rewrite (filter_none is_update (generation_entries _))
      by (apply List.Forall_forall; intros e He;
          apply List.in_map_iff in He as (i & <- & _); reflexivity).
    rewrite (filter_none is_update (insertion_entries _))
      by (apply List.Forall_forall; intros e He;
          apply List.in_map_iff in He as (i & <- & _); reflexivity).
    cbn. rewrite new_authors_ids. reflexivity.
  - exists (apply_update (publish_update req (next_id m)) d).
    destruct Hown as (_ & Hid & _).
    cbn. rewrite new_authors_ids. repeat split. exact Hid.
Qed.

(** X17.  A publish that goes through (validation and signature passed,
    the inserts and the first update working) is answered 200 and patches
    the first dataset of the store that has the id and the claimed address
    as uploader: [published] becomes true, title, description and keywords
    are those of the request (sanitized), the authors are the new ids; its
    id, uploader and [chunkIds] stay, and so do every other dataset, the
    chunks, the files and the blobs. *)
Theorem publish_patches_the_dataset (m : Memory) (req : Request) (oid : ObjectId)
    (pre : list Dataset) (d : Dataset) (post : list Dataset) :
  publish_parameters_ok req = true ->
  verify (publish_message req) (sanitizeHtml (b_signature (body req)))
         (publish_address req) = true ->
  ObjectId_of_string (publish_datasetId req) = Some oid ->
  first_owned (store m) req oid pre d post ->
  calm (Datatypes.S (length (author_names req))) (schedule m) = true ->
  result_of (run (publishDataset req) m)
  = Returned (mkResponse 200 (JMessage
      ("Successfully published dataset " +:+ publish_datasetId req
       +:+ " for " +:+ publish_address req)))
  /\ exists patched,
       st_datasets (store (state_of (run (publishDataset req) m)))
       = pre ++ patched :: post
       /\ d_id patched = d_id d /\ uploader patched = uploader d
       /\ chunkIds patched = chunkIds d
       /\ published patched = true
       /\ title patched = sanitizeHtml (b_title (body req))
       /\ description patched = sanitizeHtml (b_description (body req))
       /\ keywords patched = sanitized_list (b_keywords (body req))
       /\ authors patched = ids_from (next_id m) (length (author_names req))
       /\ st_chunks (store (state_of (run (publishDataset req) m))) = st_chunks (store m)
       /\ st_files (store (state_of (run (publishDataset req) m))) = st_files (store m)
       /\ st_blobs (store (state_of (run (publishDataset req) m))) = st_blobs (store m).
Proof.
  intros Hp Hv P Hown Hc.
  destruct (publish_memory_run m req oid pre d post Hp Hv P Hown Hc) as [-> ->].
  split; [reflexivity |].
  exists (apply_update (publish_update req (next_id m)) d).
  cbn. rewrite new_authors_ids. repeat split.
Qed.

Lemma split_comma_aux_nonempty (cur s : string) : split_comma_aux cur s <> [].
Proof.
  revert cur. induction s as [| c s IH]; intros cur; cbn; [discriminate |].
  destruct (Ascii.eqb c ","); [discriminate | apply IH].
Qed.

Lemma author_names_nonempty (req : Request) :
  publish_parameters_ok req = true -> author_names req <> [].
Proof.
  unfold publish_parameters_ok, author_names, sanitized_list. intros Hp.
  apply andb_prop in Hp as [_ Hp]. apply bool_decide_eq_true in Hp.
  destruct (b_authors (body req)) as [s |]; cbn in *; [| destruct Hp; discriminate].
  unfold split_comma. intros E. apply map_eq_nil in E.
  exact (split_comma_aux_nonempty _ _ E).
Qed.

(** X18.  A [datasetId] that is no ObjectId is found out late: with
    validation and the signature passed and the inserts working, the authors
    of the request (one at least) are inserted, then the answer is
    400 "Failed to publish dataset." with no update attempted and the
    datasets as they were. *)
Theorem publish_invalid_id_leaves_authors (m : Memory) (req : Request) :
  publish_parameters_ok req = true ->
  verify (publish_message req) (sanitizeHtml (b_signature (body req)))
         (publish_address req) = true ->
  ObjectId_of_string (publish_datasetId req) = None ->
  calm (length (author_names req)) (schedule m) = true ->
  result_of (run (publishDataset req) m)
  = Returned (mkResponse 400 (JError "Failed to publish dataset."))
  /\ updates (log_of (run (publishDataset req) m)) = []
  /\ st_datasets (store (state_of (run (publishDataset req) m))) = st_datasets (store m)
  /\ st_authors (store (state_of (run (publishDataset req) m)))
     = st_authors (store m) ++ new_authors (next_id m) (author_names req)
  /\ new_authors (next_id m) (author_names req) <> [].
Proof.
  intros Hp Hv P Hc.
  rewrite (publish_memory_authors_made m req Hp Hv).
  match goal with
  | |- context [bind (insertAuthors ?new) _ (?m1, ?l1)] =>
      rewrite (bind_run _ _ _ _ _ (insertAuthors_memory_calm new m1 l1
                 ltac:(cbn [schedule]; rewrite new_authors_length; exact Hc)))
  end.
  cbv beta iota. unfold new_ObjectId_of. rewrite P, bind_throw.
  match goal with
  | |- context [bind (try_catch throw) _ ?w] =>
      rewrite (bind_run _ _ _ _ _ (try_catch_run throw w Threw w eq_refl))
  end.
  unfold result_of, log_of, state_of, updates. cbn [fst snd respond ret store
    with_authors st_datasets st_authors].
  repeat split.
  - rewrite !List.filter_app.
    rewrite (filter_none is_update (generation_entries _))
      by (apply List.Forall_forall; intros e He;
          apply List.in_map_iff in He as (i & <- & _); reflexivity).
    rewrite (filter_none is_update (insertion_entries _))
      by (apply List.Forall_forall; intros e He;
          apply List.in_map_iff in He as (i & <- & _); reflexivity).
    reflexivity.
  - intros E. apply (f_equal (@length Author)) in E.
    rewrite new_authors_length in E. cbn in E.
    apply (author_names_nonempty req Hp). destruct (author_names req); [reflexivity |].
    discriminate E.
Qed.

(** With ids of their own, the patched dataset is the first, after the
    publish, that a lookup by its id finds. *)
Lemma patched_is_first_by_id (st : Store) (req : Request) (oid : ObjectId)
    (pre : list Dataset) (d : Dataset) (post : list Dataset)
    (u : UpdateDocument) (wanted : option bool) :
  first_owned st req oid pre d post ->
  dataset_ids_unique st ->
  (forall b, wanted = Some b -> set_published u = b) ->
  List.filter (dataset_matches (mkDatasetQuery (Some oid) None wanted))
              (pre ++ apply_update u d :: post)
  = apply_update u d
    :: List.filter (dataset_matches (mkDatasetQuery (Some oid) None wanted)) post.
Proof.
  intros (Hds & Hid & Hup & Hpre) Huniq Hw.
  rewrite List.filter_app. rewrite filter_none; cbn [app List.filter].
  - replace (dataset_matches _ (apply_update u d)) with true; [reflexivity |].
    symmetry. apply dataset_matches_spec. cbn.
    repeat split; try discriminate; [intros ? [= <-]; exact Hid | exact Hw].
  - apply List.Forall_forall. intros d' Hd'. apply not_true_iff_false. intros Hm.
    apply dataset_matches_spec in Hm as (Hi & _). cbn in Hi.
    assert (Hsame : d' = d).
    { apply Huniq; rewrite ?Hds.
      - apply List.in_or_app. left. exact Hd'.
      - apply List.in_or_app. right. left. reflexivity.
      - rewrite (Hi oid eq_refl), Hid. reflexivity. }
    rewrite List.Forall_forall in Hpre. destruct (Hpre d' Hd') as [Hn | Hn];
      apply Hn; subst d'; assumption.
Qed.

(** X19.  Publishing closes the delete path: after a publish that went
    through, a signed delete request for a storage group whose first chunk
    belongs to the published dataset is answered
    400 "Cannot delete published dataset" and changes nothing (datasets
    having ids of their own, the store calls working). *)
Theorem publish_then_delete_is_refused (m : Memory) (req dreq : Request)
    (oid : ObjectId) (pre : list Dataset) (d : Dataset) (post : list Dataset)
    (chunk0 : Chunk) (others : list Chunk) :
  publish_parameters_ok req = true ->
  verify (publish_message req) (sanitizeHtml (b_signature (body req)))
         (publish_address req) = true ->
  ObjectId_of_string (publish_datasetId req) = Some oid ->
  first_owned (store m) req oid pre d post ->
  dataset_ids_unique (store m) ->
  delete_parameters_ok dreq = true ->
  verify (delete_message dreq) (value_of (q_signature (query dreq))) (delete_address dreq)
  = true ->
  List.filter (chunk_matches (ChunkByEstuaryId (delete_target dreq))) (st_chunks (store m))
  = chunk0 :: others ->
  datasetId chunk0 = oid ->
  calm (length (author_names req) + 3) (schedule m) = true ->
  result_of (run (deleteFileMetadata dreq) (state_of (run (publishDataset req) m)))
  = Returned (mkResponse 400 (JError "Cannot delete published dataset"))
  /\ store (state_of (run (deleteFileMetadata dreq) (state_of (run (publishDataset req) m))))
     = store (state_of (run (publishDataset req) m)).
Proof.
  intros Hp Hv P Hown Huniq Hdp Hdv Hch Hcid Hc.
  destruct (publish_memory_run m req oid pre d post Hp Hv P Hown
              (calm_le (length (author_names req) + 3) (Datatypes.S (length (author_names req))) _
                 ltac:(lia) Hc))
    as [_ ->].
  assert (Ht : targets (store (after_publish m req pre d post)) dreq chunk0
                 (apply_update (publish_update req (next_id m)) d)).
  { eexists others, _. split; [exact Hch |].
    cbn [after_publish store st_datasets]. rewrite Hcid.
    apply (patched_is_first_by_id (store m) req oid pre d post _ None Hown Huniq).
    discriminate. }
  destruct (delete_published_run (after_publish m req pre d post) dreq chunk0 _ Ht eq_refl)
    as (out & sched & log & -> & _ & _ & Hconflict).
  unfold result_of, state_of. cbn [fst snd store]. split; [| reflexivity].
  apply Hconflict; [exact Hdp | exact Hdv |].
  cbn [after_publish schedule]. apply calm_drop.
  replace (Datatypes.S (length (author_names req)) + 2)%nat
    with (length (author_names req) + 3)%nat by lia. exact Hc.
Qed.

(** X20.  Publishing makes the dataset visible: after a publish that went
    through, a request for the published dataset with that id is answered 200
    with the patched dataset (datasets having ids of their own, the store
    calls working). *)
Theorem publish_then_get_by_id (m : Memory) (req greq : Request)
    (oid : ObjectId) (pre : list Dataset) (d : Dataset) (post : list Dataset) :
  publish_parameters_ok req = true ->
  verify (publish_message req) (sanitizeHtml (b_signature (body req)))
         (publish_address req) = true ->
  ObjectId_of_string (publish_datasetId req) = Some oid ->
  first_owned (store m) req oid pre d post ->
  dataset_ids_unique (store m) ->
  truthy (q_id (query greq)) = true ->
  ObjectId_of_string (value_of (q_id (query greq))) = Some oid ->
  calm (length (author_names req) + 2) (schedule m) = true ->
  result_of (run (getPublishedDatasets greq) (state_of (run (publishDataset req) m)))
  = Returned (mkResponse 200
      (JDataset (apply_update (publish_update req (next_id m)) d))).
Proof.
  intros Hp Hv P Hown Huniq Ht Pg Hc.
  destruct (publish_memory_run m req oid pre d post Hp Hv P Hown
              (calm_le (length (author_names req) + 2) (Datatypes.S (length (author_names req))) _
                 ltac:(lia) Hc))
    as [_ ->].
  unfold run, getPublishedDatasets, getPublishedDatasetById, dbWrapper.getDatasets,
    new_ObjectId_of.
  rewrite Ht, Pg. cbn [negb]. cbv beta iota.
  unfold bind, try_catch, await, ret; cbn [fst snd].
  rewrite (memory_works (GetDatasets _) (after_publish m req pre d post) eq_refl).
  - cbn [store_perform fst snd after_publish store st_datasets].
    rewrite (patched_is_first_by_id (store m) req oid pre d post _ (Some true) Hown Huniq);
      [reflexivity |].
    intros b [= <-]. reflexivity.
  - cbn [after_publish schedule]. apply calm_drop.
    replace (Datatypes.S (length (author_names req)) + 1)%nat
      with (length (author_names req) + 2)%nat by lia. exact Hc.
Qed.

(** X21.  Publishing is not a one-time step and authors are not
    reconciled: the same request sent again after a publish that went through
    goes through again, inserts every author a second time under new ids, and
    leaves the dataset with the second ids only; the authors of the first
    round stay in the store. *)
Theorem publish_twice_doubles_the_authors (m : Memory) (req : Request) (oid : ObjectId)
    (pre : list Dataset) (d : Dataset) (post : list Dataset) :
  publish_parameters_ok req = true ->
  verify (publish_message req) (sanitizeHtml (b_signature (body req)))
         (publish_address req) = true ->
  ObjectId_of_string (publish_datasetId req) = Some oid ->
  first_owned (store m) req oid pre d post ->
  calm (2 * Datatypes.S (length (author_names req))) (schedule m) = true ->
  result_of (run (publishDataset req) (state_of (run (publishDataset req) m)))
  = Returned (published_response req)
  /\ st_authors (store (state_of (run (publishDataset req)
                                     (state_of (run (publishDataset req) m)))))
     = st_authors (store m)
       ++ new_authors (next_id m) (author_names req)
       ++ new_authors (next_id m + N.of_nat (length (author_names req)))%N
                      (author_names req)
  /\ exists patched,
       st_datasets (store (state_of (run (publishDataset req)
                                         (state_of (run (publishDataset req) m)))))
       = pre ++ patched :: post
       /\ authors patched
          = ids_from (next_id m + N.of_nat (length (author_names req)))%N
                     (length (author_names req)).
Proof.
  intros Hp Hv P Hown Hc.
  destruct (publish_memory_run m req oid pre d post Hp Hv P Hown
              (calm_le (2 * Datatypes.S (length (author_names req)))
                 (Datatypes.S (length (author_names req))) _ ltac:(lia) Hc))
    as [_ ->].
  assert (Hown' : first_owned (store (after_publish m req pre d post)) req oid pre
                    (apply_update (publish_update req (next_id m)) d) post).
  { destruct Hown as (Hds & Hid & Hup & Hpre). repeat split; assumption. }
  destruct (publish_memory_run (after_publish m req pre d post) req oid pre _ post
              Hp Hv P Hown') as [-> ->].
  { cbn [after_publish schedule]. apply calm_drop.
    replace (Datatypes.S (length (author_names req))
             + Datatypes.S (length (author_names req)))%nat
      with (2 * Datatypes.S (length (author_names req)))%nat by lia. exact Hc. }
  split; [reflexivity |]. split.
  - cbn [after_publish store st_authors next_id]. rewrite <- app_assoc. reflexivity.
  - eexists. split; [reflexivity |]. cbn. apply new_authors_ids.
Qed.

Lemma insertAuthors_memory_throws (done todo : list Author) (a : Author)
    (m : Memory) (l : list entry) :
  calm (length done) (schedule m) = true ->
  schedule m !! length done = Some Throws ->
  insertAuthors (done ++ a :: todo) (m, l)
  = (Threw,
     (mkMemory (with_authors (store m) done)
               (drop (Datatypes.S (length done)) (schedule m)) (next_id m),
      l ++ insertion_entries done ++ [Entry (InsertAuthor a) Threw])).
Proof.
  revert m l. induction done as [| b done IH]; intros [st sched nid] l Hc Hk.
  - cbn [app insertAuthors length] in *. unfold dbWrapper.insertAuthor.
    cbn [schedule] in Hk. destruct sched as [| f sched]; [discriminate |].
    cbn in Hk. injection Hk as ->.
    erewrite bind_await by reflexivity. cbn.
    unfold with_authors. rewrite app_nil_r. destruct st; reflexivity.
  - cbn [app insertAuthors length] in *. unfold dbWrapper.insertAuthor.
    cbn [schedule calm] in Hc, Hk.
    destruct sched as [| [| |] sched]; try discriminate.
    erewrite bind_await by reflexivity; cbv beta iota;
      cbn [negb store schedule next_id tail].
    rewrite IH by (cbn [schedule]; assumption).
    unfold with_authors.
    cbn [store schedule next_id length drop insertion_entries map
         st_datasets st_chunks st_files st_authors st_blobs].
    rewrite <- ?app_assoc. reflexivity.
Qed.

(** X22.  An insert that throws leaves the request without an answer: the
    inserts are outside the [try], so when the insert of the author at
    position [k] throws (the earlier ones having worked) the promise of the
    handler is rejected; the [k] authors inserted before stay, and the
    datasets are as they were. *)
Theorem publish_insert_throw_is_unanswered (m : Memory) (req : Request) (k : nat) :
  publish_parameters_ok req = true ->
  verify (publish_message req) (sanitizeHtml (b_signature (body req)))
         (publish_address req) = true ->
  (k < length (author_names req))%nat ->
  calm k (schedule m) = true ->
  schedule m !! k = Some Throws ->
  result_of (run (publishDataset req) m) = Threw
  /\ st_authors (store (state_of (run (publishDataset req) m)))
     = st_authors (store m) ++ take k (new_authors (next_id m) (author_names req))
  /\ st_datasets (store (state_of (run (publishDataset req) m))) = st_datasets (store m).
Proof.
  intros Hp Hv Hk Hc Hf.
  pose proof (publish_memory_authors_made m req Hp Hv) as Hrun.
  set (new := new_authors (next_id m) (author_names req)) in *.
  assert (Hlen : length new = length (author_names req)) by apply new_authors_length.
  destruct (lookup_lt_is_Some_2 new k ltac:(rewrite Hlen; exact Hk)) as [a Ha].
  assert (Htake : length (take k new) = k) by (rewrite length_take; lia).
  rewrite <- (take_drop_middle new k a Ha) in Hrun at 1.
  match type of Hrun with
  | context [bind (insertAuthors _) _ (?m1, ?l1)] =>
      rewrite (bind_run _ _ _ _ _ (insertAuthors_memory_throws (take k new)
                 (drop (Datatypes.S k) new) a m1 l1
                 ltac:(cbn [schedule]; rewrite Htake; exact Hc)
                 ltac:(cbn [schedule]; rewrite Htake; exact Hf))) in Hrun
  end.
  rewrite Hrun. repeat split.
Qed.

End PublishedInMemory.

(** ** Files listed by two chunks *)

Section TwoChunks.

Context `{Builtins} `{Signatures}.

Lemma index_chunks_last_wins (before after : list Chunk) (c : Chunk) (i : ObjectId) :
  In i (fileIds c) ->
  (forall c', In c' after -> ~ In i (fileIds c')) ->
  (index_chunks (before ++ c :: after)).1 !! i = Some (estuaryId (storageIds c)).
Proof.
  intros Hi Hafter. unfold index_chunks. rewrite fold_left_app. cbn [fold_left].
  destruct (index_fold_spec after (index_chunk (fold_left index_chunk before (∅, [])) c) i)
    as [_ [(c' & Hc' & Hi' & _) | [_ ->]]].
  - exfalso. exact (Hafter c' Hc' Hi').
  - destruct (index_chunk_spec (fold_left index_chunk before (∅, [])) c i)
      as [_ [[_ E] | [Hn _]]]; [exact E | contradiction].
Qed.

(** X23.  When several chunks of the owner list the same file, the file is
    shown with the [estuaryId] of the last of them in the order of the store:
    the later assignment to [fileIdToEstuaryId] replaces the earlier one. *)
Theorem files_of_owner_last_chunk_wins (m : Memory) (req : Request)
    (before after : list Chunk) (c : Chunk) (f : File) :
  truthy (q_address (query req)) = true ->
  calm 3 (schedule m) = true ->
  chunks_of_owner (store m) (files_address req) = before ++ c :: after ->
  In f (st_files (store m)) ->
  In (f_id f) (fileIds c) ->
  (forall c', In c' after -> ~ In (f_id f) (fileIds c')) ->
  exists listed,
    result_of (run (getFileMetadata req) m) = Returned (mkResponse 200 (JFiles listed))
    /\ In (mkFileWithEstId f (Some (estuaryId (storageIds c)))) listed.
Proof.
  intros Ht Hc Hcs Hf Hi Hafter. eexists. split; [apply (files_run m req Ht Hc) |].
  apply List.in_map_iff. exists f. split.
  - f_equal. rewrite Hcs. apply index_chunks_last_wins; assumption.
  - apply List.filter_In. split; [exact Hf |].
    cbn [file_matches]. unfold id_in. apply bool_decide_eq_true, list_elem_of_In.
    rewrite index_chunks_ids, Hcs. apply in_concat. exists (fileIds c).
    split; [| exact Hi]. apply List.in_map_iff. exists c. split; [reflexivity |].
    apply List.in_or_app. right. left. reflexivity.
Qed.

End TwoChunks.

(** ** The authors of a published dataset *)

Section Authors.

Context `{Builtins} `{Backend W} `{AuthorReader W}.

(** X24.  The authors of a published dataset: when the id resolves to a
    published dataset, the store is asked for the authors whose ids the first
    dataset found lists, and the answer is 200 with them exactly when the
    store returned a list that is not empty; an empty list, [undefined] and
    a throw give 400 "There are no authors for the specified dataset". *)
Theorem authors_of_published_answer (req : Request) (s s1 s2 : W) (oid : ObjectId)
    (d : Dataset) (ds : list Dataset) (r : outcome (option (list Author))) :
  truthy (q_datasetId (query req)) = true ->
  ObjectId_of_string (value_of (q_datasetId (query req))) = Some oid ->
  perform (GetDatasets (mkDatasetQuery (Some oid) None (Some true))) s
  = (Returned (Some (d :: ds)), s1) ->
  answer_getAuthors (AuthorIdIn (authors d)) s1 = (r, s2) ->
  result_of (run (getAuthorsByDatasetId req) s)
  = Returned (match r with
              | Returned (Some (a :: found)) =>
                  mkAuthorsResponse 200 (AuthorsFound (a :: found))
              | _ => mkAuthorsResponse 400
                       (AuthorsError "There are no authors for the specified dataset")
              end).
Proof.
  intros Ht P E E'. unfold run, getAuthorsByDatasetId, dbWrapper.getDatasets,
    dbWrapper_getAuthors, new_ObjectId_of.
  rewrite Ht, P. cbn [negb]. cbv beta iota.
  unfold bind, try_catch, await, defined, ret; cbn [fst snd].
  rewrite E. cbn [fst snd]. rewrite List.map_id, E'.
  destruct r as [[[| a found] |] |]; reflexivity.
Qed.

(** X25.  Authors are shown for published datasets only: a request without
    [datasetId] is answered 404, and one whose [datasetId] does not resolve
    to a published dataset 400, in both cases with an error and no author. *)
Theorem authors_only_of_published (req : Request) (s : W) :
  resolves_published (q_datasetId (query req)) s = false ->
  exists msg,
    result_of (run (getAuthorsByDatasetId req) s)
    = Returned (mkAuthorsResponse
                  (if truthy (q_datasetId (query req)) then 400 else 404)
                  (AuthorsError msg)).
Proof.
  unfold resolves_published, published_lookup, run, getAuthorsByDatasetId,
    dbWrapper.getDatasets, new_ObjectId_of.
  intros Hno. destruct (truthy (q_datasetId (query req))); cbn [negb];
    [| eexists; reflexivity].
  destruct (ObjectId_of_string (value_of (q_datasetId (query req)))) as [oid |] eqn:P.
  - rewrite bind_ret.
    destruct (perform (GetDatasets (mkDatasetQuery (Some oid) None (Some true))) s)
      as [[[[| d ds] |] |] s1] eqn:E; cbn [fst] in Hno; try discriminate.
    all: unfold bind, try_catch, await; cbn [fst snd]; rewrite E; eexists; reflexivity.
  - eexists; reflexivity.
Qed.

End Authors.

(** ** Searching the published datasets *)

Section Search.

Context `{TextSearch W}.

(** X26.  Searching the published datasets: without a search string the
    answer is 400 and the store is not asked; with one, it is 200 with
    whatever the text search returned, an empty list included, and 404 only
    when the store call throws. *)
Theorem search_answer (searchStr : option string) (s s1 : W)
    (r : outcome (option (list Dataset))) :
  answer_searchPublished (value_of searchStr) s = (r, s1) ->
  run (searchPublishedDatasets searchStr) s
  = if truthy searchStr then
      (Returned (match r with
                 | Returned datasets => mkResponse 200 (JDatasets datasets)
                 | Threw => mkResponse 404 (JError "No published datasets found")
                 end), (s1, []))
    else
      (Returned (mkResponse 400
         (JError "Please provide a search string via the searchStr query parameter")),
       (s, [])).
Proof.
  intros E. unfold run, searchPublishedDatasets, dbWrapper_searchPublished.
  destruct (truthy searchStr); cbn [negb]; [| reflexivity].
  unfold bind, try_catch; cbn [fst snd]; rewrite E. destruct r; reflexivity.
Qed.

End Search.

(** ** Requests left without an answer *)

Section Unanswered.

Context `{Builtins} `{Backend W}.

(** X27.  The delete handler has no [try]: when the lookup of the chunks
    throws, the promise of the handler is rejected, no response is sent and
    no removal is issued. *)
Theorem delete_lookup_throw_is_unanswered (req : Request) (s s1 s2 : W) :
  delete_parameters_ok req = true ->
  perform (AssertSignerIsAddress (delete_message req)
             (value_of (q_signature (query req))) (delete_address req)) s
  = (Returned true, s1) ->
  perform (GetChunks (ChunkByEstuaryId (delete_target req))) s1 = (Threw, s2) ->
  result_of (run (deleteFileMetadata req) s) = Threw
  /\ removals (log_of (run (deleteFileMetadata req) s)) = [].
Proof.
  intros Hp Hsig Hch. unfold delete_parameters_ok in Hp.
  apply andb_prop in Hp as [Hp Hx]. apply andb_prop in Hp as [Hp Hlen].
  apply andb_prop in Hp as [Hp Hsg]. apply andb_prop in Hp as [Ha He].
  unfold run, deleteFileMetadata.
  rewrite Ha, He, Hsg, Hlen, Hx. cbn [negb orb].
  unfold utils.assertSignerIsAddress, dbWrapper.getChunks.
  fold (delete_target req). fold (delete_address req). fold (delete_message req).
  rewrite (bind_await _ _ _ _ _ _ Hsig). cbn [negb].
  rewrite (bind_await _ _ _ _ _ _ Hch). split; reflexivity.
Qed.

End Unanswered.

(** ** The authors after a publish, on the store in memory *)

Section AuthorsInMemory.

Context `{Builtins} `{Signatures}.

Lemma memory_getAuthors_works (ids : list ObjectId) (m : Memory) :
  calm 1 (schedule m) = true ->
  answer_getAuthors (AuthorIdIn ids) m
  = (Returned (Some (List.filter (fun a => id_in ids (a_id a)) (st_authors (store m)))),
     served m (store m)).
Proof.
  intros Hc. cbn. unfold memory_getAuthors, served.
  destruct (schedule m) as [| [| |] sched]; try discriminate Hc; reflexivity.
Qed.

Lemma filter_new_authors (old : list Author) (start : ObjectId) (names : list string) :
  Forall (fun a => (a_id a < start)%N) old ->
  List.filter (fun a => id_in (map a_id (new_authors start names)) (a_id a))
              (old ++ new_authors start names)
  = new_authors start names.
Proof.
  intros Hold. rewrite List.filter_app, filter_none, filter_all; [reflexivity | |].
  - apply List.Forall_forall. intros a Ha. unfold id_in.
    apply bool_decide_eq_true, list_elem_of_In, List.in_map. exact Ha.
  - revert Hold. apply Forall_impl. intros a Ha. unfold id_in.
    apply bool_decide_eq_false. rewrite list_elem_of_In, new_authors_ids.
    intros Hin. apply ids_from_ge in Hin. lia.
Qed.

(** X28.  Publish, then ask for the authors: after a publish that went
    through, a request for the authors of that dataset is answered 200 with
    exactly the authors the publish inserted, in the order of the names
    (datasets having ids of their own, the authors already in the store
    having ids older than the generator's next one, the store calls
    working). *)
Theorem publish_then_authors (m : Memory) (req areq : Request)
    (oid : ObjectId) (pre : list Dataset) (d : Dataset) (post : list Dataset) :
  publish_parameters_ok req = true ->
  verify (publish_message req) (sanitizeHtml (b_signature (body req)))
         (publish_address req) = true ->
  ObjectId_of_string (publish_datasetId req) = Some oid ->
  first_owned (store m) req oid pre d post ->
  dataset_ids_unique (store m) ->
  Forall (fun a => (a_id a < next_id m)%N) (st_authors (store m)) ->
  truthy (q_datasetId (query areq)) = true ->
  ObjectId_of_string (value_of (q_datasetId (query areq))) = Some oid ->
  calm (length (author_names req) + 3) (schedule m) = true ->
  result_of (run (getAuthorsByDatasetId areq) (state_of (run (publishDataset req) m)))
  = Returned (mkAuthorsResponse 200
                (AuthorsFound (new_authors (next_id m) (author_names req)))).
Proof.
  intros Hp Hv P Hown Huniq Hold Ht Pa Hc.
  destruct (publish_memory_run m req oid pre d post Hp Hv P Hown
              (calm_le (length (author_names req) + 3)
                 (Datatypes.S (length (author_names req))) _ ltac:(lia) Hc))
    as [_ ->].
  assert (Hc2 : calm 2 (schedule (after_publish m req pre d post)) = true).
  { cbn [after_publish schedule]. apply calm_drop.
    replace (Datatypes.S (length (author_names req)) + 2)%nat
      with (length (author_names req) + 3)%nat by lia. exact Hc. }
  unfold run, getAuthorsByDatasetId, dbWrapper.getDatasets, dbWrapper_getAuthors,
    new_ObjectId_of.
  rewrite Ht, Pa. cbn [negb]. cbv beta iota.
  unfold bind, try_catch, await, defined, ret; cbn [fst snd].
  rewrite (memory_works (GetDatasets _) (after_publish m req pre d post) eq_refl
             (calm_one _ _ Hc2)).
  cbn [store_perform fst snd after_publish store st_datasets].
  rewrite (patched_is_first_by_id (store m) req oid pre d post _ (Some true) Hown Huniq)
    by (intros b [= <-]; reflexivity).
  cbn [fst snd apply_update authors publish_update set_authors].
  rewrite List.map_id.
  rewrite memory_getAuthors_works by (apply (calm_tail 1); exact Hc2).
  cbn [served store st_authors fst snd].
  rewrite (filter_new_authors _ _ _ Hold).
  pose proof (author_names_nonempty req Hp) as Hne.
  destruct (author_names req) as [| n names]; [contradiction |]. reflexivity.
Qed.

End AuthorsInMemory.

(** * The scenarios of section 8, on the sample platform *)

#[local] Existing Instance Sample.builtins.
#[local] Existing Instance Sample.signatures.

(** C9 (the failing input).  With no published dataset in the store, the
    request that lists the published datasets is answered 200 with an empty
    list, not 404. *)
Theorem list_published_none_is_200 :
  result_of (run (getPublishedDatasets Sample.list_request) Sample.empty_memory)
  = Returned (mkResponse 200 (JDatasets (Some []))).
Proof. reflexivity. Qed.

(** C5 as stated fails: a publish request without [keywords], complete and
    signed otherwise, passes the signature check, changes the store and is
    answered 200. *)
Lemma publish_without_keywords_succeeds :
  lacks_required_input (body (Sample.signed_publish_request (Some "Alice,Bob") None))
  /\ result_of (run (publishDataset (Sample.signed_publish_request (Some "Alice,Bob") None))
                    (Sample.sample_memory false []))
     = Returned (mkResponse 200 (JMessage
         ("Successfully published dataset " +:+ Sample.D1_hex +:+ " for " +:+ Sample.alice)))
  /\ existsb is_signature_check
       (log_of (run (publishDataset (Sample.signed_publish_request (Some "Alice,Bob") None))
                    (Sample.sample_memory false []))) = true
  /\ existsb is_mutation
       (log_of (run (publishDataset (Sample.signed_publish_request (Some "Alice,Bob") None))
                    (Sample.sample_memory false []))) = true.
Proof.
  split; [right; reflexivity |]. repeat split; vm_compute; reflexivity.
Qed.

(** The published dataset of the second scenario is refused. *)
Lemma delete_published_refused_witness :
  targets (Sample.sample_store true) Sample.signed_delete_request Sample.C1 (Sample.D1 true)
  /\ store (state_of (run (deleteFileMetadata Sample.signed_delete_request)
                          (Sample.sample_memory true [])))
     = Sample.sample_store true
  /\ result_of (run (deleteFileMetadata Sample.signed_delete_request)
                    (Sample.sample_memory true []))
     = Returned (mkResponse 400 (JError "Cannot delete published dataset")).
Proof.
  assert (Ht : targets (Sample.sample_store true) Sample.signed_delete_request
                 Sample.C1 (Sample.D1 true)).
  { exists [], []. split; reflexivity. }
  destruct (delete_published_refused (Sample.sample_memory true [])
              Sample.signed_delete_request Sample.C1 (Sample.D1 true) Ht eq_refl)
    as (Hs & _ & _ & Hc).
  split; [exact Ht |]. split; [exact Hs |].
  apply Hc; reflexivity.
Defined.

Lemma sample_checks_passed :
  checks_passed Sample.signed_delete_request (Sample.sample_memory false [])
    Sample.C1 (Sample.D1 false) (Sample.sample_memory false [])
    [Entry (AssertSignerIsAddress (delete_message Sample.signed_delete_request)
              (value_of (q_signature (query Sample.signed_delete_request)))
              (delete_address Sample.signed_delete_request))
           (Returned true);
     Entry (GetChunks (ChunkByEstuaryId (delete_target Sample.signed_delete_request)))
           (Returned (Some [Sample.C1]));
     Entry (GetDatasets (mkDatasetQuery (Some (datasetId Sample.C1)) None None))
           (Returned (Some [Sample.D1 false]))].
Proof.
  split; [reflexivity |].
  exists (Sample.sample_memory false []), (Sample.sample_memory false []), [], [].
  repeat split; reflexivity.
Defined.

(** The removals of the first scenario, in order. *)
Lemma cascade_removals_in_order_witness :
  removals (log_of (run (deleteFileMetadata Sample.signed_delete_request)
                        (Sample.sample_memory false [])))
  = [Entry (DeleteCommonsFiles (FileChunkIdIn [Sample.C1_id])) (Returned true);
     Entry (DeleteChunks (ChunkIdIn [Sample.C1_id])) (Returned true);
     Entry (DeleteDataset (mkDatasetQuery (Some Sample.D1_id) None None)) (Returned true);
     Entry (EstuaryDeleteFile (Num 7) 5) (Returned true)].
Proof.
  exact (cascade_removals_in_order Sample.signed_delete_request
           (Sample.sample_memory false []) (Sample.sample_memory false [])
           (mkMemory (mkStore [Sample.D1 false] [Sample.C1] [] [] [Num 7]) [] 1000%N)
           (mkMemory (mkStore [Sample.D1 false] [] [] [] [Num 7]) [] 1000%N)
           (mkMemory (mkStore [] [] [] [] [Num 7]) [] 1000%N)
           (mkMemory (mkStore [] [] [] [] []) [] 1000%N)
           Sample.C1 (Sample.D1 false) _ true true true (Returned true)
           sample_checks_passed eq_refl eq_refl eq_refl eq_refl).
Defined.

(** The first scenario ends in 200, the blob deletion having succeeded. *)
Lemma cascade_success_is_blob_success_witness :
  exists response,
    result_of (run (deleteFileMetadata Sample.signed_delete_request)
                   (Sample.sample_memory false [])) = Returned response
    /\ (status response = 200 <-> true = true)
    /\ length (removals (log_of (run (deleteFileMetadata Sample.signed_delete_request)
                                     (Sample.sample_memory false [])))) = 4%nat
    /\ state_of (run (deleteFileMetadata Sample.signed_delete_request)
                     (Sample.sample_memory false []))
       = mkMemory (mkStore [] [] [] [] []) [] 1000%N.
Proof.
  exact (cascade_success_is_blob_success Sample.signed_delete_request
           (Sample.sample_memory false []) (Sample.sample_memory false [])
           (mkMemory (mkStore [Sample.D1 false] [Sample.C1] [] [] [Num 7]) [] 1000%N)
           (mkMemory (mkStore [Sample.D1 false] [] [] [] [Num 7]) [] 1000%N)
           (mkMemory (mkStore [] [] [] [] [Num 7]) [] 1000%N)
           (mkMemory (mkStore [] [] [] [] []) [] 1000%N)
           Sample.C1 (Sample.D1 false) _ true true true (Returned true)
           sample_checks_passed eq_refl eq_refl eq_refl eq_refl true eq_refl).
Defined.

(** [mallory], with a signature of their own, does not publish the dataset
    of [alice]. *)
Lemma publish_by_non_owner_fails_witness :
  not_the_uploader (Sample.sample_store false)
    (Sample.publish_request Sample.mallory
       (Sample.sign Sample.mallory (Sample.mallory +:+ Sample.D1_hex))
       (Some "Eve") (Some "rain"))
  /\ st_datasets (store (state_of
       (run (publishDataset
               (Sample.publish_request Sample.mallory
                  (Sample.sign Sample.mallory (Sample.mallory +:+ Sample.D1_hex))
                  (Some "Eve") (Some "rain")))
            (Sample.sample_memory false []))))
     = [Sample.D1 false]
  /\ status <$> (match result_of
                         (run (publishDataset
                                 (Sample.publish_request Sample.mallory
                                    (Sample.sign Sample.mallory
                                       (Sample.mallory +:+ Sample.D1_hex))
                                    (Some "Eve") (Some "rain")))
                              (Sample.sample_memory false [])) with
                 | Returned response => Some response
                 | Threw => None
                 end) = Some 400.
Proof.
  assert (Hnot : not_the_uploader (Sample.sample_store false)
                   (Sample.publish_request Sample.mallory
                      (Sample.sign Sample.mallory (Sample.mallory +:+ Sample.D1_hex))
                      (Some "Eve") (Some "rain"))).
  { intros d oid [<- | []] _ _. discriminate. }
  destruct (publish_by_non_owner_fails (Sample.sample_memory false []) _ Hnot)
    as (_ & Hd & Hr).
  split; [exact Hnot |]. split; [exact Hd |].
  destruct (result_of _) as [response |] eqn:E; [| discriminate E].
  cbn. rewrite (Hr response eq_refl). reflexivity.
Defined.

(** A publish request without a title. *)
Lemma publish_missing_input_witness :
  run (publishDataset
         (mkRequest Sample.no_query
            (mkBody (Some Sample.alice) (Some "sig") (Some Sample.D1_hex) None
                    (Some "Daily rainfall") (Some "Alice") (Some "rain"))))
      (Sample.sample_memory false [])
  = (Returned (mkResponse 400 (JError "Failed to publish dataset. Missing parameters.")),
     (Sample.sample_memory false [], [])).
Proof.
  apply publish_missing_input. right. right. right. left. reflexivity.
Defined.

Lemma sample_first_owned :
  first_owned (Sample.sample_store false) MoreSamples.publish_D1 Sample.D1_id
              [] (Sample.D1 false) [].
Proof.
  split; [reflexivity |]. split; [reflexivity |]. split; [reflexivity | constructor].
Defined.

(** "Alice,Bob": two authors when the inserts work, one left behind when
    the second insert fails; and [D1] is left with the two new ids as its
    authors when the update works. *)
Lemma publish_creates_authors_witness :
  st_authors (store (state_of
    (run (publishDataset MoreSamples.publish_D1) (Sample.sample_memory false []))))
  = [mkAuthor 1000%N "Alice"; mkAuthor 1001%N "Bob"]
  /\ st_authors (store (state_of
       (run (publishDataset MoreSamples.publish_D1)
            (Sample.sample_memory false [Works; Fails]))))
     = [mkAuthor 1000%N "Alice"]
  /\ updates (log_of (run (publishDataset MoreSamples.publish_D1)
                          (Sample.sample_memory false [])))
     = [Entry (UpdateDataset (publish_query MoreSamples.publish_D1 Sample.D1_id)
                 (publish_document MoreSamples.publish_D1 [1000%N; 1001%N]))
              (Returned true)]
  /\ exists patched,
       st_datasets (store (state_of
         (run (publishDataset MoreSamples.publish_D1) (Sample.sample_memory false []))))
       = [patched]
       /\ d_id patched = Sample.D1_id
       /\ published patched = true
       /\ authors patched = [1000%N; 1001%N].
Proof.
  split; [| split].
  - destruct (@publish_creates_authors Sample.builtins Sample.signatures
                (Sample.sample_memory false []) MoreSamples.publish_D1
                ltac:(vm_compute; reflexivity) ltac:(vm_compute; reflexivity))
      as (_ & _ & _ & _ & Hall & _).
    exact (proj1 (Hall eq_refl)).
  - destruct (@publish_creates_authors Sample.builtins Sample.signatures
                (Sample.sample_memory false [Works; Fails]) MoreSamples.publish_D1
                ltac:(vm_compute; reflexivity) ltac:(vm_compute; reflexivity))
      as (_ & _ & _ & _ & _ & Hfail & _).
    exact (proj1 (proj2 (Hfail 1%nat ltac:(cbn; lia) eq_refl eq_refl))).
  - destruct (@publish_creates_authors Sample.builtins Sample.signatures
                (Sample.sample_memory false []) MoreSamples.publish_D1
                ltac:(vm_compute; reflexivity) ltac:(vm_compute; reflexivity))
      as (_ & _ & _ & _ & _ & _ & Hset).
    destruct (Hset Sample.D1_id [] (Sample.D1 false) [] eq_refl sample_first_owned eq_refl)
      as (_ & Hup & Hd).
    split; [exact Hup | exact Hd].
Defined.

(** [D1] published at the third attempt, and not published after three
    attempts that failed: the fourth entry of the schedule is not used. *)
Lemma publish_update_attempts_witness :
  (result_of (run (publishDataset MoreSamples.publish_D1)
                  (Sample.sample_memory false [Works; Works; Fails; Fails; Works]))
   = Returned (published_response MoreSamples.publish_D1)
   /\ map is_successful_update
        (updates (log_of (run (publishDataset MoreSamples.publish_D1)
                   (Sample.sample_memory false [Works; Works; Fails; Fails; Works]))))
      = [false; false; true])
  /\ (result_of (run (publishDataset MoreSamples.publish_D1)
                     (Sample.sample_memory false
                        [Works; Works; Fails; Fails; Fails; Works]))
      = Returned (mkResponse 400 (JError "Failed to publish dataset."))
      /\ map is_failed_update
           (updates (log_of (run (publishDataset MoreSamples.publish_D1)
                      (Sample.sample_memory false
                         [Works; Works; Fails; Fails; Fails; Works]))))
         = [true; true; true]
      /\ schedule (state_of (run (publishDataset MoreSamples.publish_D1)
                     (Sample.sample_memory false
                        [Works; Works; Fails; Fails; Fails; Works])))
         = [Works]).
Proof.
  split.
  - destruct (@publish_update_attempts Sample.builtins Memory memory_backend
                MoreSamples.publish_D1
                (Sample.sample_memory false [Works; Works; Fails; Fails; Works]))
      as (_ & _ & _ & _ & Hrun).
    rewrite (Hrun Sample.D1_id
               [mkAuthor 1000%N "Alice"; mkAuthor 1001%N "Bob"]
               (mkMemory (with_authors (Sample.sample_store false)
                            [mkAuthor 1000%N "Alice"; mkAuthor 1001%N "Bob"])
                         [Fails; Fails; Works] 1002%N)
               _ (Returned false) (Returned false) (Returned true) _ _ _
               ltac:(split; [reflexivity |]; split; [reflexivity |];
                     eexists _, _, _; repeat split; reflexivity)
               eq_refl eq_refl eq_refl).
    split; reflexivity.
  - destruct (@publish_update_attempts Sample.builtins Memory memory_backend
                MoreSamples.publish_D1
                (Sample.sample_memory false [Works; Works; Fails; Fails; Fails; Works]))
      as (_ & _ & _ & _ & Hrun).
    rewrite (Hrun Sample.D1_id
               [mkAuthor 1000%N "Alice"; mkAuthor 1001%N "Bob"]
               (mkMemory (with_authors (Sample.sample_store false)
                            [mkAuthor 1000%N "Alice"; mkAuthor 1001%N "Bob"])
                         [Fails; Fails; Fails; Works] 1002%N)
               _ (Returned false) (Returned false) (Returned false) _ _ _
               ltac:(split; [reflexivity |]; split; [reflexivity |];
                     eexists _, _, _; repeat split; reflexivity)
               eq_refl eq_refl eq_refl).
    repeat split; reflexivity.
Defined.

(** The chunks of the unpublished [D1] are not listed. *)
Lemma chunks_only_of_published_witness :
  existsb is_getChunks
    (log_of (run (getPublishedChunksByDatasetId (Sample.chunks_request Sample.D1_hex))
                 (Sample.sample_memory false []))) = false
  /\ exists code msg,
       result_of (run (getPublishedChunksByDatasetId (Sample.chunks_request Sample.D1_hex))
                      (Sample.sample_memory false []))
       = Returned (mkResponse code (JError msg))
       /\ (truthy (q_datasetId (query (Sample.chunks_request Sample.D1_hex))) = true ->
           code = 404).
Proof.
  apply chunks_only_of_published. reflexivity.
Defined.

(** The files of [alice]: [F1] and [F2], each with blob group 7. *)
Lemma files_of_owner_witness :
  exists listed,
    result_of (run (getFileMetadata (Sample.files_request Sample.alice))
                   (Sample.sample_memory false []))
    = Returned (mkResponse 200 (JFiles listed))
    /\ map file listed = [Sample.F1; Sample.F2]
    /\ map attachedEstuaryId listed = [Some (Num 7); Some (Num 7)].
Proof.
  destruct (files_of_owner (Sample.sample_memory false [])
              (Sample.files_request Sample.alice) eq_refl eq_refl)
    as (listed & Hr & Hf & _).
  exists listed. split; [exact Hr |]. split; [exact Hf |].
  vm_compute in Hr. injection Hr as <-. reflexivity.
Defined.

(** * The rest of the service, on the sample platform *)

#[local] Existing Instance MoreSamples.text_search.

Lemma sample_ids_unique : dataset_ids_unique (Sample.sample_store false).
Proof.
  intros d d' [<- | []] [<- | []] _. reflexivity.
Defined.

(** An address of five characters. *)
Lemma delete_rejects_bad_parameters_witness :
  exists msg,
    run (deleteFileMetadata MoreSamples.short_delete_request) (Sample.sample_memory false [])
    = (Returned (mkResponse 400 (JError msg)), (Sample.sample_memory false [], [])).
Proof.
  apply delete_rejects_bad_parameters. reflexivity.
Defined.

(** A signature nobody made, on a delete request. *)
Lemma delete_rejects_bad_signature_witness :
  run (deleteFileMetadata MoreSamples.forged_delete_request) (Sample.sample_memory false [])
  = (Returned (mkResponse 400
                 (JError "Failed to delete file metadata. Signer != address")),
     (Sample.sample_memory false [],
      [Entry (AssertSignerIsAddress (delete_message MoreSamples.forged_delete_request)
                "forged" (delete_address MoreSamples.forged_delete_request))
             (Returned false)])).
Proof.
  apply (delete_rejects_bad_signature MoreSamples.forged_delete_request
           (Sample.sample_memory false []) (Sample.sample_memory false []));
    reflexivity.
Defined.

(** The chunk of blob group 7 names a dataset that is not there. *)
Lemma delete_not_found_witness :
  exists msg,
    result_of (run (deleteFileMetadata Sample.signed_delete_request)
                   MoreSamples.orphan_memory)
    = Returned (mkResponse 404 (JError msg))
    /\ removals (log_of (run (deleteFileMetadata Sample.signed_delete_request)
                             MoreSamples.orphan_memory)) = [].
Proof.
  apply (delete_not_found Sample.signed_delete_request MoreSamples.orphan_memory
           MoreSamples.orphan_memory MoreSamples.orphan_memory (Some [Sample.C1]));
    [reflexivity | reflexivity | reflexivity |].
  exists MoreSamples.orphan_memory, (Some []). split; [reflexivity | right; reflexivity].
Defined.

(** A signature nobody made, on a publish request. *)
Lemma publish_rejects_bad_signature_witness :
  run (publishDataset MoreSamples.forged_publish_request) (Sample.sample_memory false [])
  = (Returned (mkResponse 400 (JError "Failed to publish dataset. Signer != address")),
     (Sample.sample_memory false [],
      [Entry (AssertSignerIsAddress (publish_message MoreSamples.forged_publish_request)
                (sanitizeHtml (b_signature (body MoreSamples.forged_publish_request)))
                (publish_address MoreSamples.forged_publish_request))
             (Returned false)])).
Proof.
  apply (publish_rejects_bad_signature MoreSamples.forged_publish_request
           (Sample.sample_memory false []) (Sample.sample_memory false []));
    reflexivity.
Defined.

(** The datasets of [alice], and the answer when the store throws. *)
Lemma datasets_of_owner_answer_witness :
  result_of (run (getDatasetMetadata (Sample.files_request Sample.alice))
                 (Sample.sample_memory false []))
  = Returned (mkResponse 200 (JDatasets (Some [Sample.D1 false])))
  /\ result_of (run (getDatasetMetadata (Sample.files_request Sample.alice))
                    (Sample.sample_memory false [Throws]))
     = Returned (mkResponse 404 (JError "No datasets for the specified address")).
Proof.
  split.
  - apply (datasets_of_owner_answer (Sample.files_request Sample.alice)
             (Sample.sample_memory false []) (Sample.sample_memory false [])
             (Returned (Some [Sample.D1 false]))); reflexivity.
  - apply (datasets_of_owner_answer (Sample.files_request Sample.alice)
             (Sample.sample_memory false [Throws]) (Sample.sample_memory false [])
             Threw); reflexivity.
Defined.

(** The published datasets of [alice]: [D1] once it is published, none
    before. *)
Lemma published_by_uploader_answer_witness :
  result_of (run (getPublishedDatasetsByUploader (MoreSamples.uploader_request Sample.alice))
                 (Sample.sample_memory true []))
  = Returned (mkResponse 200 (JDatasets (Some [Sample.D1 true])))
  /\ result_of (run (getPublishedDatasetsByUploader
                       (MoreSamples.uploader_request Sample.alice))
                    (Sample.sample_memory false []))
     = Returned (mkResponse 404
          (JError ("Found no datasets whose uploader is " +:+ Sample.alice))).
Proof.
  split.
  - apply (published_by_uploader_answer (MoreSamples.uploader_request Sample.alice)
             (Sample.sample_memory true []) (Sample.sample_memory true [])
             (Returned (Some [Sample.D1 true]))); reflexivity.
  - exact (published_by_uploader_answer (MoreSamples.uploader_request Sample.alice)
             (Sample.sample_memory false []) (Sample.sample_memory false [])
             (Returned (Some [])) eq_refl eq_refl).
Defined.

(** [D1], published, by its id. *)
Lemma published_by_id_answer_witness :
  result_of (run (getPublishedDatasets (MoreSamples.by_id_request Sample.D1_hex))
                 (Sample.sample_memory true []))
  = Returned (mkResponse 200 (JDataset (Sample.D1 true))).
Proof.
  apply (published_by_id_answer (MoreSamples.by_id_request Sample.D1_hex)
           (Sample.sample_memory true []) (Sample.sample_memory true [])
           Sample.D1_id (Sample.D1 true) []); reflexivity.
Defined.

(** The chunks of [D1], published. *)
Lemma chunks_of_published_answer_witness :
  result_of (run (getPublishedChunksByDatasetId (Sample.chunks_request Sample.D1_hex))
                 (Sample.sample_memory true []))
  = Returned (mkResponse 200 (JChunks (Some [Sample.C1]))).
Proof.
  apply (chunks_of_published_answer (Sample.chunks_request Sample.D1_hex)
           (Sample.sample_memory true []) (Sample.sample_memory true [])
           (Sample.sample_memory true []) Sample.D1_id (Sample.D1 true) []
           (Returned (Some [Sample.C1]))); reflexivity.
Defined.

(** The datasets of [alice], the store working. *)
Lemma datasets_of_owner_in_memory_witness :
  result_of (run (getDatasetMetadata (Sample.files_request Sample.alice))
                 (Sample.sample_memory false [Works]))
  = Returned (mkResponse 200 (JDatasets (Some [Sample.D1 false]))).
Proof.
  exact (datasets_of_owner_in_memory (Sample.sample_memory false [Works])
           (Sample.files_request Sample.alice) eq_refl eq_refl).
Defined.

(** The chunks of [D1], published, the store working. *)
Lemma chunks_of_published_in_memory_witness :
  result_of (run (getPublishedChunksByDatasetId (Sample.chunks_request Sample.D1_hex))
                 (Sample.sample_memory true [Works; Works]))
  = Returned (mkResponse 200 (JChunks (Some [Sample.C1]))).
Proof.
  exact (chunks_of_published_in_memory (Sample.sample_memory true [Works; Works])
           (Sample.chunks_request Sample.D1_hex) Sample.D1_id (Sample.D1 true)
           eq_refl eq_refl (or_introl eq_refl) eq_refl eq_refl eq_refl).
Defined.

(** Deleting blob group 7 empties the sample store. *)
Lemma delete_removes_the_dataset_witness :
  result_of (run (deleteFileMetadata Sample.signed_delete_request)
                 (Sample.sample_memory false []))
  = Returned (mkResponse 200 (JData
      "Successfully deleted file metadata for file with estuaryId: 7"))
  /\ (forall d, ~ In d (st_datasets (store (state_of
                   (run (deleteFileMetadata Sample.signed_delete_request)
                        (Sample.sample_memory false []))))))
  /\ (forall f, ~ In f (st_files (store (state_of
                   (run (deleteFileMetadata Sample.signed_delete_request)
                        (Sample.sample_memory false [])))))).
Proof.
  destruct (delete_removes_the_dataset (Sample.sample_memory false [])
              Sample.signed_delete_request Sample.C1 (Sample.D1 false))
    as (Hr & Hf & _ & Hd & _);
    [reflexivity | reflexivity | exists [], []; split; reflexivity | reflexivity
    | reflexivity |].
  split; [exact Hr |]. split.
  - intros d Hin. apply Hd in Hin as [[<- | []] Hne]. apply Hne. reflexivity.
  - intros f Hin. apply Hf in Hin as [[<- | [<- | []]] Hne]; apply Hne; left; reflexivity.
Defined.

(** Deleting blob group 7 a second time. *)
Lemma delete_twice_is_not_found_witness :
  result_of (run (deleteFileMetadata Sample.signed_delete_request)
                 (state_of (run (deleteFileMetadata Sample.signed_delete_request)
                                (Sample.sample_memory false []))))
  = Returned (mkResponse 404
      (JError "Failed to delete file metadata. No corresponding chunks found.")).
Proof.
  apply (delete_twice_is_not_found (Sample.sample_memory false [])
           Sample.signed_delete_request Sample.C1 (Sample.D1 false));
    [reflexivity | reflexivity | exists [], []; split; reflexivity | reflexivity
    | reflexivity |].
  intros c [<- | []] _. left. reflexivity.
Defined.

(** [alice] publishes [D1]. *)
Lemma publish_patches_the_dataset_witness :
  result_of (run (publishDataset MoreSamples.publish_D1) (Sample.sample_memory false []))
  = Returned (mkResponse 200 (JMessage
      ("Successfully published dataset " +:+ Sample.D1_hex +:+ " for " +:+ Sample.alice)))
  /\ exists patched,
       st_datasets (store (state_of
         (run (publishDataset MoreSamples.publish_D1) (Sample.sample_memory false []))))
       = [patched]
       /\ published patched = true
       /\ title patched = "Rainfall"
       /\ authors patched = [1000%N; 1001%N]
       /\ chunkIds patched = [Sample.C1_id].
Proof.
  destruct (publish_patches_the_dataset (Sample.sample_memory false [])
              MoreSamples.publish_D1 Sample.D1_id [] (Sample.D1 false) [])
    as (Hr & patched & Hd & _ & _ & Hc & Hp & Ht & _ & _ & Ha & _);
    [reflexivity | reflexivity | reflexivity | exact sample_first_owned | reflexivity |].
  split; [exact Hr |]. exists patched.
  split; [exact Hd |]. split; [exact Hp |]. split; [exact Ht |].
  split; [exact Ha | exact Hc].
Defined.

(** A publish request for the dataset "xyz". *)
Lemma publish_invalid_id_leaves_authors_witness :
  result_of (run (publishDataset (MoreSamples.signed_publish_for "xyz"))
                 (Sample.sample_memory false []))
  = Returned (mkResponse 400 (JError "Failed to publish dataset."))
  /\ st_datasets (store (state_of
       (run (publishDataset (MoreSamples.signed_publish_for "xyz"))
            (Sample.sample_memory false []))))
     = [Sample.D1 false]
  /\ st_authors (store (state_of
       (run (publishDataset (MoreSamples.signed_publish_for "xyz"))
            (Sample.sample_memory false []))))
     = [mkAuthor 1000%N "Alice"; mkAuthor 1001%N "Bob"].
Proof.
  destruct (publish_invalid_id_leaves_authors (Sample.sample_memory false [])
              (MoreSamples.signed_publish_for "xyz"))
    as (Hr & _ & Hd & Ha & _);
    [reflexivity | reflexivity | reflexivity | reflexivity |].
  split; [exact Hr |]. split; [exact Hd | exact Ha].
Defined.

(** [alice] publishes [D1], then asks to delete blob group 7. *)
Lemma publish_then_delete_is_refused_witness :
  result_of (run (deleteFileMetadata Sample.signed_delete_request)
                 (state_of (run (publishDataset MoreSamples.publish_D1)
                                (Sample.sample_memory false []))))
  = Returned (mkResponse 400 (JError "Cannot delete published dataset"))
  /\ store (state_of (run (deleteFileMetadata Sample.signed_delete_request)
                          (state_of (run (publishDataset MoreSamples.publish_D1)
                                         (Sample.sample_memory false [])))))
     = store (state_of (run (publishDataset MoreSamples.publish_D1)
                            (Sample.sample_memory false []))).
Proof.
  apply (publish_then_delete_is_refused (Sample.sample_memory false [])
           MoreSamples.publish_D1 Sample.signed_delete_request Sample.D1_id
           [] (Sample.D1 false) [] Sample.C1 []);
    [reflexivity | reflexivity | reflexivity | exact sample_first_owned
    | exact sample_ids_unique | reflexivity | reflexivity | reflexivity | reflexivity
    | reflexivity].
Defined.

(** [alice] publishes [D1], then [D1] is asked for by its id. *)
Lemma publish_then_get_by_id_witness :
  result_of (run (getPublishedDatasets (MoreSamples.by_id_request Sample.D1_hex))
                 (state_of (run (publishDataset MoreSamples.publish_D1)
                                (Sample.sample_memory false []))))
  = Returned (mkResponse 200 (JDataset
      (mkDataset Sample.D1_id Sample.alice true "Rainfall" "Daily rainfall"
                 [1000%N; 1001%N] [Sample.C1_id] (Some ["rain"])))).
Proof.
  etransitivity.
  - apply (publish_then_get_by_id (Sample.sample_memory false [])
             MoreSamples.publish_D1 (MoreSamples.by_id_request Sample.D1_hex) Sample.D1_id
             [] (Sample.D1 false) []);
      [reflexivity | reflexivity | reflexivity | exact sample_first_owned
      | exact sample_ids_unique | reflexivity | reflexivity | reflexivity].
  - reflexivity.
Defined.

(** [alice] publishes [D1] twice. *)
Lemma publish_twice_doubles_the_authors_witness :
  st_authors (store (state_of
    (run (publishDataset MoreSamples.publish_D1)
         (state_of (run (publishDataset MoreSamples.publish_D1)
                        (Sample.sample_memory false []))))))
  = [mkAuthor 1000%N "Alice"; mkAuthor 1001%N "Bob";
     mkAuthor 1002%N "Alice"; mkAuthor 1003%N "Bob"]
  /\ exists patched,
       st_datasets (store (state_of
         (run (publishDataset MoreSamples.publish_D1)
              (state_of (run (publishDataset MoreSamples.publish_D1)
                             (Sample.sample_memory false []))))))
       = [patched]
       /\ authors patched = [1002%N; 1003%N].
Proof.
  destruct (publish_twice_doubles_the_authors (Sample.sample_memory false [])
              MoreSamples.publish_D1 Sample.D1_id [] (Sample.D1 false) [])
    as (_ & Ha & Hd);
    [reflexivity | reflexivity | reflexivity | exact sample_first_owned | reflexivity |].
  split; [exact Ha | exact Hd].
Defined.

(** The insert of "Bob" throws. *)
Lemma publish_insert_throw_is_unanswered_witness :
  result_of (run (publishDataset MoreSamples.publish_D1)
                 (Sample.sample_memory false [Works; Throws])) = Threw
  /\ st_authors (store (state_of
       (run (publishDataset MoreSamples.publish_D1)
            (Sample.sample_memory false [Works; Throws]))))
     = [mkAuthor 1000%N "Alice"]
  /\ st_datasets (store (state_of
       (run (publishDataset MoreSamples.publish_D1)
            (Sample.sample_memory false [Works; Throws]))))
     = [Sample.D1 false].
Proof.
  destruct (publish_insert_throw_is_unanswered
              (Sample.sample_memory false [Works; Throws]) MoreSamples.publish_D1 1)
    as (Hr & Ha & Hd);
    [reflexivity | reflexivity | vm_compute; lia | reflexivity | reflexivity |].
  split; [exact Hr |]. split; [exact Ha | exact Hd].
Defined.

(** [F1] is listed by [C1] (blob group 7) and by [C2] (blob group 9). *)
Lemma files_of_owner_last_chunk_wins_witness :
  exists listed,
    result_of (run (getFileMetadata (Sample.files_request Sample.alice))
                   MoreSamples.two_chunk_memory)
    = Returned (mkResponse 200 (JFiles listed))
    /\ In (mkFileWithEstId Sample.F1 (Some (Num 9))) listed.
Proof.
  apply (files_of_owner_last_chunk_wins MoreSamples.two_chunk_memory
           (Sample.files_request Sample.alice) [Sample.C1] [] MoreSamples.C2 Sample.F1);
    [reflexivity | reflexivity | reflexivity | left; reflexivity | left; reflexivity |].
  intros c' [].
Defined.

(** The authors of [D1], published with one author. *)
Lemma authors_of_published_answer_witness :
  result_of (run (getAuthorsByDatasetId (Sample.chunks_request Sample.D1_hex))
                 MoreSamples.authored_memory)
  = Returned (mkAuthorsResponse 200 (AuthorsFound [MoreSamples.Alice])).
Proof.
  apply (authors_of_published_answer (Sample.chunks_request Sample.D1_hex)
           MoreSamples.authored_memory MoreSamples.authored_memory
           MoreSamples.authored_memory Sample.D1_id MoreSamples.D1_authored []
           (Returned (Some [MoreSamples.Alice]))); reflexivity.
Defined.

(** The authors of the unpublished [D1] are not shown. *)
Lemma authors_only_of_published_witness :
  exists msg,
    result_of (run (getAuthorsByDatasetId (Sample.chunks_request Sample.D1_hex))
                   (Sample.sample_memory false []))
    = Returned (mkAuthorsResponse 400 (AuthorsError msg)).
Proof.
  apply (authors_only_of_published (Sample.chunks_request Sample.D1_hex)
           (Sample.sample_memory false [])). reflexivity.
Defined.

(** A search for "Rainfall", and one without a search string. *)
Lemma search_answer_witness :
  run (searchPublishedDatasets (Some "Rainfall")) MoreSamples.authored_memory
  = (Returned (mkResponse 200 (JDatasets (Some [MoreSamples.D1_authored]))),
     (MoreSamples.authored_memory, []))
  /\ run (searchPublishedDatasets None) MoreSamples.authored_memory
     = (Returned (mkResponse 400
          (JError "Please provide a search string via the searchStr query parameter")),
        (MoreSamples.authored_memory, [])).
Proof.
  split.
  - apply (search_answer (Some "Rainfall") MoreSamples.authored_memory
             MoreSamples.authored_memory (Returned (Some [MoreSamples.D1_authored]))).
    reflexivity.
  - apply (search_answer None MoreSamples.authored_memory
             MoreSamples.authored_memory (Returned (Some []))).
    reflexivity.
Defined.

(** The lookup of the chunks throws. *)
Lemma delete_lookup_throw_is_unanswered_witness :
  result_of (run (deleteFileMetadata Sample.signed_delete_request)
                 (Sample.sample_memory false [Throws])) = Threw
  /\ removals (log_of (run (deleteFileMetadata Sample.signed_delete_request)
                           (Sample.sample_memory false [Throws]))) = [].
Proof.
  apply (delete_lookup_throw_is_unanswered Sample.signed_delete_request
           (Sample.sample_memory false [Throws]) (Sample.sample_memory false [Throws])
           (Sample.sample_memory false [])); reflexivity.
Defined.

(** [alice] publishes [D1], then the authors of [D1] are asked for. *)
Lemma publish_then_authors_witness :
  result_of (run (getAuthorsByDatasetId (Sample.chunks_request Sample.D1_hex))
                 (state_of (run (publishDataset MoreSamples.publish_D1)
                                (Sample.sample_memory false []))))
  = Returned (mkAuthorsResponse 200
                (AuthorsFound [mkAuthor 1000%N "Alice"; mkAuthor 1001%N "Bob"])).
Proof.
  etransitivity.
  - apply (publish_then_authors (Sample.sample_memory false [])
             MoreSamples.publish_D1 (Sample.chunks_request Sample.D1_hex) Sample.D1_id
             [] (Sample.D1 false) []);
      [reflexivity | reflexivity | reflexivity | exact sample_first_owned
      | exact sample_ids_unique | constructor | reflexivity | reflexivity | reflexivity].
  - reflexivity.
Defined.

(** The removal of the files throws: the chunks, the dataset and the blob
    are not touched. *)
Lemma cascade_stops_at_a_throw_witness :
  run (deleteFileMetadata Sample.signed_delete_request)
      (Sample.sample_memory false [Works; Works; Throws])
  = (Threw,
     (Sample.sample_memory false [],
      [Entry (AssertSignerIsAddress (delete_message Sample.signed_delete_request)
                (value_of (q_signature (query Sample.signed_delete_request)))
                (delete_address Sample.signed_delete_request))
             (Returned true);
       Entry (GetChunks (ChunkByEstuaryId (delete_target Sample.signed_delete_request)))
             (Returned (Some [Sample.C1]));
       Entry (GetDatasets (mkDatasetQuery (Some (datasetId Sample.C1)) None None))
             (Returned (Some [Sample.D1 false]));
       Entry (DeleteCommonsFiles (FileChunkIdIn [Sample.C1_id])) Threw])).
Proof.
  etransitivity.
  - apply (cascade_stops_at_a_throw Sample.signed_delete_request
             (Sample.sample_memory false [Works; Works; Throws])
             (Sample.sample_memory false [Throws]) (Sample.sample_memory false [])
             Sample.C1 (Sample.D1 false)); [| reflexivity].
    split; [reflexivity |].
    exists (Sample.sample_memory false [Works; Works; Throws]),
      (Sample.sample_memory false [Works; Throws]), [], [].
    repeat split; reflexivity.
  - reflexivity.
Defined.

(** Listing the published datasets when the store throws. *)
Lemma list_published_404_on_throw_witness :
  result_of (run (getAllPublishedDatasets Sample.list_request)
                 (Sample.sample_memory true [Throws]))
  = Returned (mkResponse 404 (JError "There are no published datasets")).
Proof.
  apply (list_published_404_on_throw Sample.list_request
           (Sample.sample_memory true [Throws]) (Sample.sample_memory true [])).
  reflexivity.
Defined.
